(** * interruption-tracker: time accounting, tag statistics and storage

    A shallow embedding of the accounting engine of the tracker
    (package [models]), of its persistence layer (package [storage]) and of
    the session commands of the terminal front end (package [ui]), with
    the properties the design document states about them and further
    properties of the code: round trips through the files, what the
    statistics keep consistent, and what the session commands keep true
    of the day.

    Conventions of the embedding:
    - [time.Duration] and [int] are 64-bit signed integers: they are
      values of [Z] and every addition, subtraction and multiplication is
      followed by [wrap64];
    - a [time.Time] is an instant, counted in nanoseconds from the Unix
      epoch, together with the offset of its location;
    - a pointer that may be [nil] is an [option]; a slice is a [list];
    - a Go map is a [gmap]; the order in which a [range] loop visits it is
      not fixed by the language: where the result of the loop depends on
      it, the order is a parameter of the function;
    - a run-time panic is the constructor [Panic] of [result]. *)

From Stdlib Require Import ZArith Lia Floats.
From stdpp Require Import gmap strings list fin_maps pretty finite.

Open Scope Z_scope.

(** ** Results of fallible operations *)

Inductive result (A : Type) : Type :=
| Ok (a : A)
| Err (msg : string)
| Panic.
Arguments Ok {A} a.
Arguments Err {A} msg.
Arguments Panic {A}.


(** ** Package [time] of the Go library *)

Module gotime.

(** [time.Duration]: a count of nanoseconds in an [int64]. *)
Definition Duration := Z.

Definition minDuration : Duration := - 2 ^ 63.
Definition maxDuration : Duration := 2 ^ 63 - 1.

Definition wrap64 (z : Z) : Z := (z + 2 ^ 63) mod 2 ^ 64 - 2 ^ 63.

Definition dadd (a b : Duration) : Duration := wrap64 (a + b).
Definition dsub (a b : Duration) : Duration := wrap64 (a - b).
Definition dmul (a b : Duration) : Duration := wrap64 (a * b).
(** Integer division truncates toward zero; the one overflowing case
    ([minDuration / -1]) wraps. *)
Definition ddiv (a b : Duration) : Duration := wrap64 (Z.quot a b).

Definition Nanosecond : Duration := 1.
Definition Second : Duration := 1000000000.
Definition Minute : Duration := 60 * Second.
Definition Hour : Duration := 60 * Minute.

(** A location is a fixed offset, in seconds east of UTC. *)
Record Location := { zoneOffset : Z }.
Definition UTC : Location := {| zoneOffset := 0 |}.

Record Time := { unixNano : Z; location : Location }.

(** [t.Sub(u)] saturates at the ends of the range of [Duration]. *)
Definition Sub (t u : Time) : Duration :=
  let d := unixNano t - unixNano u in
  if d <? minDuration then minDuration
  else if maxDuration <? d then maxDuration
  else d.

Definition Before (t u : Time) : bool := unixNano t <? unixNano u.
Definition After (t u : Time) : bool := unixNano u <? unixNano t.

(** [t.Add(d)]. *)
Definition Add (t : Time) (d : Duration) : Time :=
  {| unixNano := unixNano t + d; location := location t |}.

(** The zero [Time] is January 1 of year 1, 00:00 UTC. *)
Definition zeroUnixNano : Z := - 62135596800 * Second.

(** [t.Truncate(d)] rounds [t] down to a multiple of [d] since the zero
    time; the location is kept. *)
Definition Truncate (t : Time) (d : Duration) : Time :=
  if d <=? 0 then t
  else Add t (- ((unixNano t - zeroUnixNano) mod d)).

(** *** The proleptic Gregorian calendar

    Days are counted from 1970-01-01; a civil date is a triple of year,
    month (1 to 12) and day of the month. *)

Definition isLeap (y : Z) : bool :=
  (y mod 4 =? 0) && (negb (y mod 100 =? 0) || (y mod 400 =? 0)).

Definition daysIn (y m : Z) : Z :=
  if m =? 2 then (if isLeap y then 29 else 28)
  else if (m =? 4) || (m =? 6) || (m =? 9) || (m =? 11) then 30
  else 31.

Definition daysFromCivil (y m d : Z) : Z :=
  let y' := if m <=? 2 then y - 1 else y in
  let era := y' / 400 in
  let yoe := y' mod 400 in
  let mp := if 2 <? m then m - 3 else m + 9 in
  let doy := (153 * mp + 2) / 5 + d - 1 in
  let doe := yoe * 365 + yoe / 4 - yoe / 100 + doy in
  era * 146097 + doe - 719468.

Definition civilFromDays (z : Z) : Z * Z * Z :=
  let z' := z + 719468 in
  let era := z' / 146097 in
  let doe := z' mod 146097 in
  let yoe := (doe - doe / 1460 + doe / 36524 - doe / 146096) / 365 in
  let doy := doe - (365 * yoe + yoe / 4 - yoe / 100) in
  let mp := (5 * doy + 2) / 153 in
  let d := doy - (153 * mp + 2) / 5 + 1 in
  let m := if mp <? 10 then mp + 3 else mp - 9 in
  let y := yoe + era * 400 in
  (if m <=? 2 then y + 1 else y, m, d).

Definition secondsPerDay : Z := 86400.

(** Seconds since the epoch on the wall clock of the time's location. *)
Definition localSeconds (t : Time) : Z :=
  unixNano t / Second + zoneOffset (location t).
Definition localDays (t : Time) : Z := localSeconds t / secondsPerDay.

(** [t.Date()], [t.Year()], [t.Month()], [t.Day()]. *)
Definition DateOf (t : Time) : Z * Z * Z := civilFromDays (localDays t).
Definition Year (t : Time) : Z := (DateOf t).1.1.
Definition Month (t : Time) : Z := (DateOf t).1.2.
Definition Day (t : Time) : Z := (DateOf t).2.

(** [t.Clock()] and [t.Nanosecond()]. *)
Definition secondOfDay (t : Time) : Z := localSeconds t mod secondsPerDay.
Definition HourOf (t : Time) : Z := secondOfDay t / 3600.
Definition MinuteOf (t : Time) : Z := secondOfDay t mod 3600 / 60.
Definition SecondOf (t : Time) : Z := secondOfDay t mod 60.
Definition NanosecondOf (t : Time) : Z := unixNano t mod Second.

(** [t.Weekday()]: Sunday is 0; 1970-01-01 was a Thursday. *)
Definition Weekday (t : Time) : Z := (localDays t + 4) mod 7.

(** [time.Date(year, month, day, hour, min, sec, nsec, loc)]: the month
    may lie outside 1..12 and the other fields outside their usual
    ranges; they are normalised by carrying into the next unit. *)
Definition Date (year month day hour min sec nsec : Z) (loc : Location)
  : Time :=
  let m := month - 1 in
  let year' := year + m / 12 in
  let month' := m mod 12 + 1 in
  let days := daysFromCivil year' month' 1 + (day - 1) in
  let secs := days * secondsPerDay + hour * 3600 + min * 60 + sec
              - zoneOffset loc in
  {| unixNano := secs * Second + nsec; location := loc |}.

(** [t.AddDate(years, months, days)]. *)
Definition AddDate (t : Time) (years months days : Z) : Time :=
  Date (Year t + years) (Month t + months) (Day t + days)
       (HourOf t) (MinuteOf t) (SecondOf t) (NanosecondOf t) (location t).

(** [t.UnixNano()] as an [int64]. *)
Definition UnixNano (t : Time) : Z := wrap64 (unixNano t).

(** Decimal digits, for [Sprintf("%d")] and [Format]. *)
Definition itoa (z : Z) : string := pretty z.

Definition pad2 (z : Z) : string :=
  if z <? 10 then "0" +:+ itoa z else itoa z.
Definition pad4 (z : Z) : string :=
  if z <? 10 then "000" +:+ itoa z
  else if z <? 100 then "00" +:+ itoa z
  else if z <? 1000 then "0" +:+ itoa z
  else itoa z.

(** [t.Format("2006-01-02")]. *)
Definition FormatDate (t : Time) : string :=
  pad4 (Year t) +:+ "-" +:+ pad2 (Month t) +:+ "-" +:+ pad2 (Day t).

End gotime.

Export gotime.

(** ** Package [models] *)

Module models.

Inductive EntryType :=
| EntryTypeStart
| EntryTypeEnd
| EntryTypeInterruption
| EntryTypeReturn.

#[export] Instance EntryType_eq_dec : EqDecision EntryType.
Proof. solve_decision. Defined.

(** [InterruptionTag] is a string type: four tags are predeclared and a
    stored entry may carry any other label. *)
Definition InterruptionTag := string.

Definition TagCall : InterruptionTag := "call".
Definition TagMeeting : InterruptionTag := "meeting".
Definition TagSpouse : InterruptionTag := "spouse".
Definition TagOther : InterruptionTag := "other".

Definition GetInterruptionTags : list InterruptionTag :=
  [TagCall; TagMeeting; TagSpouse; TagOther].

(** The field [EndTime] of the source is written and read nowhere in the
    packages embedded here and is left out. The entries of a slice of
    pointers are taken to be non-nil. *)
Record TimeEntry := {
  ID : string;
  Type_ : EntryType;
  StartTime : Time;
  Description : string;
  Tag : InterruptionTag
}.

Definition NewTimeEntry (now : Time) (entryType : EntryType)
    (description : string) : TimeEntry :=
  {| ID := itoa (UnixNano now);
     Type_ := entryType;
     StartTime := now;
     Description := description;
     Tag := "" |}.

Definition NewInterruptionEntry (now : Time) (description : string)
    (tag : InterruptionTag) : TimeEntry :=
  let entry := NewTimeEntry now EntryTypeInterruption description in
  {| ID := ID entry;
     Type_ := Type_ entry;
     StartTime := StartTime entry;
     Description := Description entry;
     Tag := tag |}.

Record SubSession := {
  subStart : option TimeEntry;
  subEnd : option TimeEntry;
  subInterruptions : list TimeEntry
}.

Record Session := {
  sessID : string;
  Start : option TimeEntry;
  End_ : option TimeEntry;
  SubSessions : list SubSession;
  Interruptions : list TimeEntry
}.

Record DailySessions := {
  Date_ : Time;
  Sessions : list Session
}.

Definition NewDailySessions (now : Time) : DailySessions :=
  {| Date_ := Truncate now (24 * Hour); Sessions := [] |}.

Definition NewSession (now : Time) (startEntry : TimeEntry) : Session :=
  let firstSubSession :=
    {| subStart := Some startEntry; subEnd := None;
       subInterruptions := [] |} in
  {| sessID := "sess_" +:+ itoa (UnixNano now);
     Start := Some startEntry;
     End_ := None;
     SubSessions := [] ++ [firstSubSession];
     Interruptions := [] |}.

(** The loop shared by the accounting functions:
<<
    for i := 0; i < len(xs); i += 2 {
        if i+1 < len(xs) {
            interruptionDuration += xs[i+1].StartTime.Sub(xs[i].StartTime)
        }
    }
>>
    [fuel] bounds the number of iterations; [length xs] is enough since
    [i] grows by two. *)
Fixpoint interruptionLoop (fuel : nat) (i : nat) (xs : list TimeEntry)
    (interruptionDuration : Duration) : Duration :=
  match fuel with
  | O => interruptionDuration
  | S fuel' =>
      if (i <? length xs)%nat then
        if (i + 1 <? length xs)%nat then
          match xs !! i, xs !! (i + 1)%nat with
          | Some interruptionStart, Some interruptionEnd =>
              interruptionLoop fuel' (i + 2) xs
                (dadd interruptionDuration
                   (Sub (StartTime interruptionEnd)
                        (StartTime interruptionStart)))
          | _, _ => interruptionLoop fuel' (i + 2) xs interruptionDuration
          end
        else interruptionLoop fuel' (i + 2) xs interruptionDuration
      else interruptionDuration
  end.

Definition interruptionTime (xs : list TimeEntry) : Duration :=
  interruptionLoop (length xs) 0 xs 0.

(** [len(xs) / 2] as an [int]. *)
Definition halfLen (xs : list TimeEntry) : Z :=
  Z.quot (Z.of_nat (length xs)) 2.

(** The three running totals of [GetStats]. *)
Definition Totals : Type := Duration * Duration * Z.

Definition account (acc : Totals) (startTime endTime : Time)
    (xs : list TimeEntry) : Totals :=
  let '(totalWorkDuration, totalInterruptionDuration, interruptionCount) :=
    acc in
  let sessionDuration := Sub endTime startTime in
  let interruptionDuration := interruptionTime xs in
  (dadd totalWorkDuration (dsub sessionDuration interruptionDuration),
   dadd totalInterruptionDuration interruptionDuration,
   wrap64 (interruptionCount + halfLen xs)).

Definition statsSubSession (now : Time) (acc : Totals)
    (subSession : SubSession) : Totals :=
  match subStart subSession with
  | Some start =>
      let endTime :=
        match subEnd subSession with
        | Some e => StartTime e
        | None => now (* an active sub-session runs up to the current time *)
        end in
      account acc (StartTime start) endTime (subInterruptions subSession)
  | None => acc
  end.

Definition statsSession (now : Time) (acc : Totals) (session : Session)
    : Totals :=
  if (0 <? length (SubSessions session))%nat then
    fold_left (statsSubSession now) (SubSessions session) acc
  else
    (* sessions stored before sub-sessions existed *)
    match Start session, End_ session with
    | Some start, Some end_ =>
        account acc (StartTime start) (StartTime end_)
          (Interruptions session)
    | _, _ => acc
    end.

(** [DailySessions.GetStats]. The clock is read once for every active
    sub-session; [now] stands for these readings. *)
Definition GetStats (now : Time) (ds : DailySessions) : Totals :=
  fold_left (statsSession now) (Sessions ds) (0, 0, 0).

(** *** Sequencing of fallible steps *)

Definition bind {A B} (r : result A) (k : A -> result B) : result B :=
  match r with
  | Ok a => k a
  | Err msg => Err msg
  | Panic => Panic
  end.

Fixpoint foldM {A St} (step : St -> A -> result St) (xs : list A) (st : St)
  : result St :=
  match xs with
  | [] => Ok st
  | x :: xs' => bind (step st x) (foldM step xs')
  end.

(** The loop over an interruption sequence, two entries at a time, with a
    body that may fail:
<<
      for i := 0; i < len(xs); i += 2 {
          if i+1 < len(xs) { body(xs[i], xs[i+1]) }
      }
>>
*)
Fixpoint pairLoop {St} (body : St -> TimeEntry -> TimeEntry -> result St)
    (fuel : nat) (i : nat) (xs : list TimeEntry) (st : St) : result St :=
  match fuel with
  | O => Ok st
  | S fuel' =>
      if (i <? length xs)%nat then
        if (i + 1 <? length xs)%nat then
          match xs !! i, xs !! (i + 1)%nat with
          | Some interruption, Some returnEntry =>
              bind (body st interruption returnEntry)
                   (pairLoop body fuel' (i + 2) xs)
          | _, _ => pairLoop body fuel' (i + 2) xs st
          end
        else pairLoop body fuel' (i + 2) xs st
      else Ok st
  end.

Definition forPairs {St} (body : St -> TimeEntry -> TimeEntry -> result St)
    (xs : list TimeEntry) (st : St) : result St :=
  pairLoop body (length xs) 0 xs st.

(** *** Statistics by tag *)

Record InterruptionTagStats := {
  statTag : InterruptionTag;
  Count : Z;
  TotalTime : Duration;         (* pure interruption time *)
  RecoveryTime : Duration;      (* recovery time *)
  TotalWithRecovery : Duration; (* interruption and recovery together *)
  AverageTime : Duration        (* average pure interruption time *)
}.

Definition newTagStats (tag : InterruptionTag) : InterruptionTagStats :=
  {| statTag := tag; Count := 0; TotalTime := 0; RecoveryTime := 0;
     TotalWithRecovery := 0; AverageTime := 0 |}.

(** The map as it is after the initialisation loop over the predeclared
    tags. *)
Definition initialStatsMap : gmap InterruptionTag InterruptionTagStats :=
  foldl (fun statsMap tag => <[tag := newTagStats tag]> statsMap) ∅
        GetInterruptionTags.

(** The tag of an interruption, with the fallback for an unset tag. *)
Definition tagOrOther (interruption : TimeEntry) : InterruptionTag :=
  if decide (Tag interruption = "") then TagOther else Tag interruption.

(** The body of the loop over completed interruptions. [statsMap[tag]] is
    a nil pointer when the tag has no entry, and [stats.Count++] then
    dereferences it. *)
Definition recordTagPair
    (statsMap : gmap InterruptionTag InterruptionTagStats)
    (interruption returnEntry : TimeEntry)
  : result (gmap InterruptionTag InterruptionTagStats) :=
  let tag := tagOrOther interruption in
  match statsMap !! tag with
  | None => Panic
  | Some stats =>
      let interruptDuration :=
        Sub (StartTime returnEntry) (StartTime interruption) in
      let recoveryTime := dmul 10 Minute in
      Ok (<[tag :=
             {| statTag := statTag stats;
                Count := wrap64 (Count stats + 1);
                TotalTime := dadd (TotalTime stats) interruptDuration;
                RecoveryTime := dadd (RecoveryTime stats) recoveryTime;
                TotalWithRecovery :=
                  dadd (TotalWithRecovery stats)
                       (dadd interruptDuration recoveryTime);
                AverageTime := AverageTime stats |}]> statsMap)
  end.

Definition withAverage (stats : InterruptionTagStats)
  : InterruptionTagStats :=
  if 0 <? Count stats then
    {| statTag := statTag stats; Count := Count stats;
       TotalTime := TotalTime stats; RecoveryTime := RecoveryTime stats;
       TotalWithRecovery := TotalWithRecovery stats;
       AverageTime := ddiv (TotalTime stats) (Count stats) |}
  else stats.

Definition collectTagStats (ds : DailySessions)
  : result (gmap InterruptionTag InterruptionTagStats) :=
  foldM (fun statsMap session =>
           forPairs recordTagPair (Interruptions session) statsMap)
        (Sessions ds) initialStatsMap.

(** [DailySessions.GetInterruptionTagStats]. The result lists the values
    of the map in the order of a [range] loop. *)
Definition GetInterruptionTagStats (ds : DailySessions)
  : result (list InterruptionTagStats) :=
  bind (collectTagStats ds)
       (fun statsMap => Ok (withAverage <$> (map_to_list statsMap).*2)).

(** *** Detailed statistics and the productivity score *)

Record DetailedStats := {
  StartDate : Time;
  EndDate : Time;
  TotalWorkDuration : Duration;
  TotalSessions : Z;
  LongestSession : Duration;
  AverageSessionTime : Duration;
  TotalInterruptions : Z;
  InterruptionsByTag : gmap InterruptionTag Z;
  InterruptionDurationByTag : gmap InterruptionTag Duration;
  DailyWorkDurations : gmap string Duration; (* date string to duration *)
  HourlyProductivity : gmap Z Duration;      (* hour (0-23) to duration *)
  ProductivityScore : float  (* 0-100 score, focus time vs interruptions *)
}.

(** The conversion [float64(x)] of a 64-bit integer: the nearest binary64
    value. *)
Definition float64 (x : Z) : float :=
  if x =? - 2 ^ 63 then
    PrimFloat.opp (PrimFloat.mul (PrimFloat.of_uint63 (Uint63.of_Z (2 ^ 62)))
                                 2%float)
  else if x <? 0 then PrimFloat.opp (PrimFloat.of_uint63 (Uint63.of_Z (- x)))
  else PrimFloat.of_uint63 (Uint63.of_Z x).

(** The binary64 values nearest to the decimal constants of the source. *)
Definition half : float := 0x1p-1%float.
Definition fifth : float := 0x1.999999999999ap-3%float.

(** [DetailedStats.CalculateProductivityScore]; the value is also stored
    in the field [ProductivityScore]. Every floating-point operation is
    rounded on its own. *)
Definition CalculateProductivityScore (s : DetailedStats) : float :=
  if TotalWorkDuration s =? 0 then 0%float
  else
    let totalInterruptionTime :=
      map_fold (fun (_ : InterruptionTag) (duration acc : Duration) =>
                  dadd acc duration)
               0 (InterruptionDurationByTag s) in
    (* 10 minutes of recovery for every interruption *)
    let recoveryTime := dmul (dmul (TotalInterruptions s) 10) Minute in
    let totalImpactedTime := dadd totalInterruptionTime recoveryTime in
    let totalTime := dadd (TotalWorkDuration s) totalImpactedTime in
    let workRatio :=
      PrimFloat.div (float64 (TotalWorkDuration s)) (float64 totalTime) in
    let score := PrimFloat.mul workRatio 100%float in
    let interruptionRatio :=
      PrimFloat.div (float64 (TotalInterruptions s))
                    (float64 (TotalSessions s)) in
    let score :=
      if PrimFloat.ltb half interruptionRatio then
        (* up to 20% penalty *)
        let penaltyFactor :=
          PrimFloat.mul (PrimFloat.sub interruptionRatio half) fifth in
        PrimFloat.mul score (PrimFloat.sub 1%float penaltyFactor)
      else score in
    (* cap the score at 100 *)
    if PrimFloat.ltb 100%float score then 100%float else score.

Definition storeProductivityScore (s : DetailedStats) : DetailedStats :=
  {| StartDate := StartDate s;
     EndDate := EndDate s;
     TotalWorkDuration := TotalWorkDuration s;
     TotalSessions := TotalSessions s;
     LongestSession := LongestSession s;
     AverageSessionTime := AverageSessionTime s;
     TotalInterruptions := TotalInterruptions s;
     InterruptionsByTag := InterruptionsByTag s;
     InterruptionDurationByTag := InterruptionDurationByTag s;
     DailyWorkDurations := DailyWorkDurations s;
     HourlyProductivity := HourlyProductivity s;
     ProductivityScore := CalculateProductivityScore s |}.

(** *** The most productive hour and the breakdown by tag

    Both functions range over a map, and the language leaves the order of
    the visit open: [visit] gives the order in which the loop sees the
    entries of the map. *)

(** The body of the loop of [GetMostProductiveHour]. *)
Definition moreProductive (st : Z * Duration) (entry : Z * Duration)
  : Z * Duration :=
  let '(maxHour, maxDuration) := st in
  let '(h, d) := entry in
  if maxDuration <? d then (h, d) else (maxHour, maxDuration).

(** [DetailedStats.GetMostProductiveHour]. *)
Definition GetMostProductiveHour (s : DetailedStats)
    (visit : list (Z * Duration) -> list (Z * Duration)) : Z * Duration :=
  fold_left moreProductive (visit (map_to_list (HourlyProductivity s)))
            (0, 0).

(** The body of the loop of [GetInterruptionBreakdown]; a tag without an
    entry in [InterruptionDurationByTag] reads 0. *)
Definition breakdownRow (s : DetailedStats) (entry : InterruptionTag * Z)
  : InterruptionTagStats :=
  let '(tag, count) := entry in
  let duration := default 0 (InterruptionDurationByTag s !! tag) in
  let recoveryTime := dmul (dmul count 10) Minute in
  {| statTag := tag;
     Count := count;
     TotalTime := duration;
     RecoveryTime := recoveryTime;
     TotalWithRecovery := dadd duration recoveryTime;
     AverageTime := if 0 <? count then ddiv duration count else 0 |}.

(** [DetailedStats.GetInterruptionBreakdown]. *)
Definition GetInterruptionBreakdown (s : DetailedStats)
    (visit : list (InterruptionTag * Z) -> list (InterruptionTag * Z))
  : list InterruptionTagStats :=
  breakdownRow s <$> visit (map_to_list (InterruptionsByTag s)).

End models.

Export models.

(** ** Package [storage] *)

Module storage.

Definition bytes := list Byte.byte.

(** *** What the package takes from outside

    The AEAD cipher of [crypto/cipher] (AES in Galois counter mode), the
    JSON encoding of a day with its schema version, the scanner of file
    names and the local time zone. *)

Record AEAD := {
  Seal : bytes -> bytes -> bytes -> bytes;       (* key, nonce, plaintext *)
  Open : bytes -> bytes -> bytes -> option bytes (* key, nonce, ciphertext *)
}.

Record Codec := {
  (** [json.MarshalIndent] of the day wrapped with its schema version *)
  marshal : Z -> DailySessions -> bytes;
  (** [json.Unmarshal] into the wrapped form *)
  unmarshal : bytes -> option (Z * DailySessions);
  (** [json.Unmarshal] into a bare [DailySessions] *)
  unmarshalOld : bytes -> option DailySessions
}.

Class Deps := {
  aesgcm : AEAD;
  json : Codec;
  (** [fmt.Sscanf(name, "sessions_%d-%d-%d.json", &year, &month, &day)] *)
  scanFileName : string -> option (Z * Z * Z);
  (** [time.Local] *)
  Local : Location
}.

(** Files by path, and the entries of directories. *)
Inductive File :=
| Content (data : bytes)
| Unreadable.

Record DirEntry := { Name : string; IsDir : bool }.

Record FileSystem := {
  files : gmap string File;
  directories : gmap string (list DirEntry)
}.

Definition writeFile (fs : FileSystem) (path : string) (data : bytes)
  : FileSystem :=
  {| files := <[path := Content data]> (files fs);
     directories := directories fs |}.

Record Storage := {
  dataDir : string;
  backupEnabled : bool;
  backupInterval : Z;
  encryptionEnabled : bool;
  encryptionKey : bytes
}.

(** [config.GetSchemaVersion]. *)
Definition CurrentSchemaVersion : Z := 1.

Definition wrapErr {A} (step : string) (r : result A) : result A :=
  match r with
  | Err msg => Err (step +:+ ": " +:+ msg)
  | other => other
  end.

Section WithDeps.
Context {deps : Deps}.

Definition getFilePath (s : Storage) (date : Time) : string :=
  dataDir s +:+ "/" +:+ "sessions_" +:+ FormatDate date +:+ ".json".

(** [timestamp.Format("2006-01-02_150405")]. *)
Definition FormatStamp (t : Time) : string :=
  FormatDate t +:+ "_" +:+ pad2 (HourOf t) +:+ pad2 (MinuteOf t)
  +:+ pad2 (SecondOf t).

Definition getBackupPath (s : Storage) (date timestamp : Time) : string :=
  dataDir s +:+ "/backups/" +:+ "sessions_" +:+ FormatDate date
  +:+ "_backup_" +:+ FormatStamp timestamp +:+ ".json".

(** [aes.NewCipher] accepts keys of 16, 24 or 32 bytes. *)
Definition validKey (key : bytes) : bool :=
  let n := length key in
  (n =? 16)%nat || (n =? 24)%nat || (n =? 32)%nat.

(** [Storage.encrypt]. [random] is what [io.ReadFull(rand.Reader, nonce)]
    delivers; fewer than 12 bytes is a failed read. *)
Definition encrypt (s : Storage) (random : bytes) (data : bytes)
  : result bytes :=
  if negb (encryptionEnabled s) then Ok data
  else if negb (validKey (encryptionKey s)) then
    Err "failed to create cipher"
  else if negb (length random =? 12)%nat then
    Err "failed to generate nonce"
  else
    let nonce := random in
    let ciphertext := Seal aesgcm (encryptionKey s) nonce data in
    (* the nonce is put in front of the ciphertext *)
    Ok (nonce ++ ciphertext).

(** [Storage.decrypt]. *)
Definition decrypt (s : Storage) (data : bytes) : result bytes :=
  if negb (encryptionEnabled s) then Ok data
  else if (length data <? 13)%nat then (* nonce and at least 1 byte *)
    Err "invalid encrypted data: too short"
  else if negb (validKey (encryptionKey s)) then
    Err "failed to create cipher"
  else
    let nonce := take 12 data in
    let ciphertext := drop 12 data in
    match Open aesgcm (encryptionKey s) nonce ciphertext with
    | Some plaintext => Ok plaintext
    | None => Err "failed to decrypt data"
    end.

Definition setID (session : Session) (id : string) : Session :=
  {| sessID := id; Start := Start session; End_ := End_ session;
     SubSessions := SubSessions session;
     Interruptions := Interruptions session |}.

(** [Storage.migrateSchema]: sessions without an identifier get one. *)
Definition migrateSession (now : Time) (session : Session) : result Session :=
  if decide (sessID session = "") then
    match Start session with
    | Some start =>
        Ok (setID session
              ("sess_" +:+ itoa (UnixNano (StartTime start)) +:+ "_"
               +:+ itoa (UnixNano now)))
    | None => Panic
    end
  else Ok session.

Fixpoint mapM {A B} (f : A -> result B) (xs : list A) : result (list B) :=
  match xs with
  | [] => Ok []
  | x :: xs' => bind (f x) (fun y => bind (mapM f xs') (fun ys => Ok (y :: ys)))
  end.

Definition migrateSchema (now : Time) (oldVersion : Z)
    (sessions : DailySessions) : result DailySessions :=
  bind (mapM (migrateSession now) (Sessions sessions))
       (fun ss => Ok {| Date_ := Date_ sessions; Sessions := ss |}).

(** [Storage.LoadDailySessions]. *)
Definition LoadDailySessions (s : Storage) (fs : FileSystem) (now : Time)
    (date : Time) : result DailySessions :=
  let filePath := getFilePath s date in
  match files fs !! filePath with
  | None =>
      (* no such file: empty sessions for the date *)
      Ok {| Date_ := Truncate date (24 * Hour); Sessions := [] |}
  | Some Unreadable => Err "failed to read sessions file"
  | Some (Content data) =>
      bind (if encryptionEnabled s
            then wrapErr "failed to decrypt sessions" (decrypt s data)
            else Ok data)
        (fun data =>
           match unmarshal json data with
           | None =>
               (* the format without schema version *)
               match unmarshalOld json data with
               | Some oldSessions => Ok oldSessions
               | None => Err "failed to unmarshal sessions"
               end
           | Some (schemaVersion, sessions) =>
               if schemaVersion <? CurrentSchemaVersion then
                 wrapErr "failed to migrate sessions"
                   (migrateSchema now schemaVersion sessions)
               else Ok sessions
           end)
  end.

(** [Storage.createBackup]; a file that cannot be read is an error, which
    the caller only logs. *)
Definition createBackup (s : Storage) (fs : FileSystem) (now : Time)
    (filePath : string) (date : Time) : FileSystem :=
  if negb (backupEnabled s) then fs
  else
    match files fs !! filePath with
    | Some (Content data) => writeFile fs (getBackupPath s date now) data
    | _ => fs
    end.

(** [Storage.SaveDailySessions]. *)
Definition SaveDailySessions (s : Storage) (fs : FileSystem) (now : Time)
    (random : bytes) (sessions : DailySessions) : result FileSystem :=
  let data := marshal json CurrentSchemaVersion sessions in
  let filePath := getFilePath s (Date_ sessions) in
  let fs := createBackup s fs now filePath (Date_ sessions) in
  bind (if encryptionEnabled s
        then wrapErr "failed to encrypt sessions" (encrypt s random data)
        else Ok data)
       (fun data => Ok (writeFile fs filePath data)).

(** [Storage.ListAvailableDays]. *)
Definition dayOfEntry (file : DirEntry) : option Time :=
  if IsDir file then None
  else
    match scanFileName (Name file) with
    | Some (year, month, day) => Some (Date year month day 0 0 0 0 Local)
    | None => None
    end.

Definition ListAvailableDays (s : Storage) (fs : FileSystem)
  : result (list Time) :=
  match directories fs !! dataDir s with
  | None => Err "failed to read data directory"
  | Some entries => Ok (omap dayOfEntry entries)
  end.

(** The search for the earliest date: a loop over all the days, started
    with the first of them. *)
Definition earliestOf (first : Time) (availableDays : list Time) : Time :=
  fold_left (fun earliest day => if Before day earliest then day else earliest)
            availableDays first.

(** [Storage.GetDateRange]. *)
Definition GetDateRange (s : Storage) (fs : FileSystem) (now : Time)
    (rangeType : string) : result (Time * Time) :=
  let today := Truncate now (24 * Hour) in
  if decide (rangeType = "day") then Ok (today, today)
  else if decide (rangeType = "week") then
    (* the start of the week (Monday) *)
    let weekday := Weekday now in
    let weekday := if weekday =? 0 then 7 (* Sunday *) else weekday in
    let startDate := AddDate today 0 0 (- (weekday - 1)) in
    Ok (startDate, today)
  else if decide (rangeType = "month") then
    let startDate :=
      Date (Year today) (Month today) 1 0 0 0 0 (location today) in
    Ok (startDate, today)
  else if decide (rangeType = "quarter") then
    let monthsToSubtract := Z.rem (Month today - 1) 3 in
    let startDate :=
      Date (Year today) (Month today - monthsToSubtract) 1 0 0 0 0
           (location today) in
    Ok (startDate, today)
  else if decide (rangeType = "year") then
    let startDate := Date (Year today) 1 1 0 0 0 0 (location today) in
    Ok (startDate, today)
  else if decide (rangeType = "all") then
    match ListAvailableDays s fs with
    | Ok (first :: rest) => Ok (earliestOf first (first :: rest), today)
    | _ => Ok (today, today)
    end
  else Err ("invalid range type: " +:+ rangeType).

(** The loop over the days of a range:
<<
      for d := startDate; !d.After(endDate); d = d.AddDate(0, 0, 1) { ... }
>>
    [fuel] bounds the number of iterations. *)
Fixpoint forEachDay {St} (body : St -> Time -> result St) (fuel : nat)
    (d endDate : Time) (st : St) : result St :=
  match fuel with
  | O => Ok st
  | S fuel' =>
      if After d endDate then Ok st
      else bind (body st d)
                (forEachDay body fuel' (AddDate d 0 0 1) endDate)
  end.

(** One more than the number of whole days from [startDate] to
    [endDate]. *)
Definition dayCount (startDate endDate : Time) : nat :=
  Z.to_nat ((unixNano endDate - unixNano startDate)
            / (secondsPerDay * Second) + 1).

(** A day that cannot be loaded is skipped. *)
Definition loadOrSkip {St} (s : Storage) (fs : FileSystem) (now : Time)
    (d : Time) (st : St) (k : DailySessions -> result St) : result St :=
  match LoadDailySessions s fs now d with
  | Ok sessions => k sessions
  | Err _ => Ok st
  | Panic => Panic
  end.

(** [Storage.GetStats]. *)
Definition rangeStatsDay (s : Storage) (fs : FileSystem) (now : Time)
    (acc : Totals) (d : Time) : result Totals :=
  loadOrSkip s fs now d acc
    (fun sessions =>
       let '(totalWork, totalInterruption, totalInterruptionCount) := acc in
       let '(workDuration, interruptionDuration, interruptionCount) :=
         models.GetStats now sessions in
       Ok (dadd totalWork workDuration,
           dadd totalInterruption interruptionDuration,
           wrap64 (totalInterruptionCount + interruptionCount))).

Definition GetStats (s : Storage) (fs : FileSystem) (now : Time)
    (rangeType : string) : result Totals :=
  bind (GetDateRange s fs now rangeType)
    (fun '(startDate, endDate) =>
       forEachDay (rangeStatsDay s fs now) (dayCount startDate endDate)
                  startDate endDate (0, 0, 0)).

(** *** Detailed statistics *)

(** [m[k] += v] on a map of 64-bit counters; a missing key reads 0. *)
Definition addAt `{Countable K} (m : gmap K Z) (k : K) (v : Z) : gmap K Z :=
  <[k := wrap64 (default 0 (m !! k) + v)]> m.

Definition emptyStats (startDate endDate : Time) : DetailedStats :=
  {| StartDate := startDate;
     EndDate := endDate;
     TotalWorkDuration := 0;
     TotalSessions := 0;
     LongestSession := 0;
     AverageSessionTime := 0;
     TotalInterruptions := 0;
     InterruptionsByTag := ∅;
     InterruptionDurationByTag := ∅;
     DailyWorkDurations := ∅;
     HourlyProductivity := ∅;
     ProductivityScore := 0%float |}.

(** The three updates of the statistics in the loop over pairs. *)
Definition countInterruption (stats : DetailedStats) (tag : InterruptionTag)
    (interruptDuration : Duration) : DetailedStats :=
  {| StartDate := StartDate stats;
     EndDate := EndDate stats;
     TotalWorkDuration := TotalWorkDuration stats;
     TotalSessions := TotalSessions stats;
     LongestSession := LongestSession stats;
     AverageSessionTime := AverageSessionTime stats;
     TotalInterruptions := wrap64 (TotalInterruptions stats + 1);
     InterruptionsByTag := addAt (InterruptionsByTag stats) tag 1;
     InterruptionDurationByTag :=
       addAt (InterruptionDurationByTag stats) tag interruptDuration;
     DailyWorkDurations := DailyWorkDurations stats;
     HourlyProductivity := HourlyProductivity stats;
     ProductivityScore := ProductivityScore stats |}.

(** The updates for a session that has ended. *)
Definition countSession (stats : DetailedStats) (pureWorkTime : Duration)
    (hour : Z) : DetailedStats :=
  {| StartDate := StartDate stats;
     EndDate := EndDate stats;
     TotalWorkDuration := TotalWorkDuration stats;
     TotalSessions := wrap64 (TotalSessions stats + 1);
     LongestSession :=
       if LongestSession stats <? pureWorkTime then pureWorkTime
       else LongestSession stats;
     AverageSessionTime := AverageSessionTime stats;
     TotalInterruptions := TotalInterruptions stats;
     InterruptionsByTag := InterruptionsByTag stats;
     InterruptionDurationByTag := InterruptionDurationByTag stats;
     DailyWorkDurations := DailyWorkDurations stats;
     HourlyProductivity :=
       addAt (HourlyProductivity stats) hour pureWorkTime;
     ProductivityScore := ProductivityScore stats |}.

(** The updates for a day. *)
Definition countDay (stats : DetailedStats) (key : string)
    (workDuration : Duration) : DetailedStats :=
  {| StartDate := StartDate stats;
     EndDate := EndDate stats;
     TotalWorkDuration := dadd (TotalWorkDuration stats) workDuration;
     TotalSessions := TotalSessions stats;
     LongestSession := LongestSession stats;
     AverageSessionTime := AverageSessionTime stats;
     TotalInterruptions := TotalInterruptions stats;
     InterruptionsByTag := InterruptionsByTag stats;
     InterruptionDurationByTag := InterruptionDurationByTag stats;
     DailyWorkDurations := <[key := workDuration]> (DailyWorkDurations stats);
     HourlyProductivity := HourlyProductivity stats;
     ProductivityScore := ProductivityScore stats |}.

Definition setAverageSessionTime (stats : DetailedStats)
    (average : Duration) : DetailedStats :=
  {| StartDate := StartDate stats;
     EndDate := EndDate stats;
     TotalWorkDuration := TotalWorkDuration stats;
     TotalSessions := TotalSessions stats;
     LongestSession := LongestSession stats;
     AverageSessionTime := average;
     TotalInterruptions := TotalInterruptions stats;
     InterruptionsByTag := InterruptionsByTag stats;
     InterruptionDurationByTag := InterruptionDurationByTag stats;
     DailyWorkDurations := DailyWorkDurations stats;
     HourlyProductivity := HourlyProductivity stats;
     ProductivityScore := ProductivityScore stats |}.

(** The body of the loop over the pairs of a session: the state is the
    interruption time of the session and the statistics. *)
Definition detailPair (st : Duration * DetailedStats)
    (interrupt returnEntry : TimeEntry) : result (Duration * DetailedStats) :=
  let '(interruptionTime, stats) := st in
  let interruptDuration :=
    Sub (StartTime returnEntry) (StartTime interrupt) in
  let tag := tagOrOther interrupt in
  Ok (dadd interruptionTime interruptDuration,
      countInterruption stats tag interruptDuration).

(** The state of the loops over days and sessions: the statistics and
    the sum of the pure work times of the sessions counted. *)
Definition detailSession (st : DetailedStats * Duration) (session : Session)
  : result (DetailedStats * Duration) :=
  let '(stats, totalDuration) := st in
  match Start session, End_ session with
  | Some start, Some end_ =>
      let sessionDuration := Sub (StartTime end_) (StartTime start) in
      bind (forPairs detailPair (Interruptions session) (0, stats))
        (fun '(interruptionTime, stats) =>
           let pureWorkTime := dsub sessionDuration interruptionTime in
           let hour := HourOf (StartTime start) in
           Ok (countSession stats pureWorkTime hour,
               dadd totalDuration pureWorkTime))
  | _, _ => Ok st
  end.

Definition detailDay (s : Storage) (fs : FileSystem) (now : Time)
    (st : DetailedStats * Duration) (d : Time)
  : result (DetailedStats * Duration) :=
  loadOrSkip s fs now d st
    (fun dailySessions =>
       let '(stats, totalDuration) := st in
       let '(workDuration, _, _) := models.GetStats now dailySessions in
       let stats := countDay stats (FormatDate d) workDuration in
       foldM detailSession (Sessions dailySessions) (stats, totalDuration)).

(** [Storage.GetDetailedStats]. *)
Definition GetDetailedStats (s : Storage) (fs : FileSystem) (now : Time)
    (rangeType : string) : result DetailedStats :=
  bind (GetDateRange s fs now rangeType)
    (fun '(startDate, endDate) =>
       bind (forEachDay (detailDay s fs now) (dayCount startDate endDate)
               startDate endDate (emptyStats startDate endDate, 0))
         (fun '(stats, totalDuration) =>
            if 0 <? TotalSessions stats then
              Ok (setAverageSessionTime stats
                    (ddiv totalDuration (TotalSessions stats)))
            else Ok stats)).

(** *** Merging and deleting sessions *)

(** [append(l[:i], l[i+1:]...)]. *)
Definition removeAt {A} (i : nat) (l : list A) : list A :=
  take i l ++ drop (i + 1) l.

Definition setStartTime (entry : TimeEntry) (t : Time) : TimeEntry :=
  {| ID := ID entry; Type_ := Type_ entry; StartTime := t;
     Description := Description entry; Tag := Tag entry |}.

(** The interruption and the return that fill the gap between two merged
    sessions. *)
Definition gapEntries (now : Time) (session1 session2 : Session)
  : list TimeEntry :=
  match End_ session1, Start session2 with
  | Some end1, Some start2 =>
      if Before (StartTime end1) (StartTime start2) then
        let interruptEntry :=
          setStartTime
            (NewInterruptionEntry now
               "Auto-created gap between merged sessions" TagOther)
            (StartTime end1) in
        let returnEntry :=
          setStartTime (NewTimeEntry now EntryTypeReturn "")
                       (StartTime start2) in
        [interruptEntry; returnEntry]
      else []
  | _, _ => []
  end.

Definition mergedSession (now : Time) (session1 session2 : Session)
  : Session :=
  {| sessID := "merged_" +:+ itoa (UnixNano now);
     Start := Start session1;
     End_ := End_ session2;
     SubSessions := SubSessions session1 ++ SubSessions session2;
     Interruptions :=
       (Interruptions session1 ++ Interruptions session2)
       ++ gapEntries now session1 session2 |}.

(** The part of [Storage.MergeSessions] between loading and saving. The
    start entries of both sessions are dereferenced without a check. *)
Definition mergeDay (now : Time) (sessions : DailySessions)
    (session1Index session2Index : Z) : result DailySessions :=
  let n := Z.of_nat (length (Sessions sessions)) in
  if (session1Index <? 0) || (n <=? session1Index)
     || (session2Index <? 0) || (n <=? session2Index)
     || (session1Index =? session2Index)
  then Err "invalid session indices"
  else
    let i1 := Z.to_nat session1Index in
    let i2 := Z.to_nat session2Index in
    match Sessions sessions !! i1, Sessions sessions !! i2 with
    | Some sa, Some sb =>
        match Start sa, Start sb with
        | Some startA, Some startB =>
            (* session1 is the one that starts first *)
            let '(i1, i2, session1, session2) :=
              if After (StartTime startA) (StartTime startB)
              then (i2, i1, sb, sa) else (i1, i2, sa, sb) in
            let merged := mergedSession now session1 session2 in
            (* the two sessions are removed, the later index first *)
            let rest :=
              if (i1 <? i2)%nat
              then removeAt i1 (removeAt i2 (Sessions sessions))
              else removeAt i2 (removeAt i1 (Sessions sessions)) in
            Ok {| Date_ := Date_ sessions; Sessions := rest ++ [merged] |}
        | _, _ => Panic
        end
    | _, _ => Panic
    end.

(** [Storage.MergeSessions]. *)
Definition MergeSessions (s : Storage) (fs : FileSystem) (now : Time)
    (random : bytes) (date : Time) (session1Index session2Index : Z)
  : result FileSystem :=
  bind (wrapErr "failed to load sessions" (LoadDailySessions s fs now date))
    (fun sessions =>
       bind (mergeDay now sessions session1Index session2Index)
            (SaveDailySessions s fs now random)).

(** [Storage.SecureDelete]. *)
Definition SecureDelete (s : Storage) (fs : FileSystem) (now : Time)
    (random : bytes) (date : Time) (sessionIndex : Z) : result FileSystem :=
  bind (wrapErr "failed to load sessions" (LoadDailySessions s fs now date))
    (fun sessions =>
       if (sessionIndex <? 0)
          || (Z.of_nat (length (Sessions sessions)) <=? sessionIndex)
       then Err "invalid session index"
       else
         SaveDailySessions s fs now random
           {| Date_ := Date_ sessions;
              Sessions := removeAt (Z.to_nat sessionIndex)
                                   (Sessions sessions) |}).

End WithDeps.

End storage.

(** The short name [GetStats] stands for [DailySessions.GetStats]; the
    function of the storage is [storage.GetStats]. *)
Export storage.
Export models.

(** ** Package [ui]: the session commands *)

Module ui.

(** The state of the front end that the session commands read and write.
    [activeSession] is a pointer to one of the sessions of [currentDay]:
    it is the position of that session. *)
Record TimerUI := {
  uiStorage : Storage;
  currentDay : DailySessions;
  activeSession : option nat;
  statusBar : string
}.

Section WithDeps.
Context {deps : Deps}.

Definition setStatus (ui : TimerUI) (text : string) : TimerUI :=
  {| uiStorage := uiStorage ui; currentDay := currentDay ui;
     activeSession := activeSession ui; statusBar := text |}.

Definition setSessions (ui : TimerUI) (ss : list Session) : TimerUI :=
  {| uiStorage := uiStorage ui;
     currentDay := {| Date_ := Date_ (currentDay ui); Sessions := ss |};
     activeSession := activeSession ui; statusBar := statusBar ui |}.

Definition setActive (ui : TimerUI) (active : option nat) : TimerUI :=
  {| uiStorage := uiStorage ui; currentDay := currentDay ui;
     activeSession := active; statusBar := statusBar ui |}.

(** The session that [activeSession] points to. *)
Definition active (ui : TimerUI) : option Session :=
  match activeSession ui with
  | Some i => Sessions (currentDay ui) !! i
  | None => None
  end.

(** A write through the pointer [activeSession]. *)
Definition updateActive (ui : TimerUI) (f : Session -> Session) : TimerUI :=
  match activeSession ui with
  | Some i => setSessions ui (alter f i (Sessions (currentDay ui)))
  | None => ui
  end.

(** [session.SubSessions[len(session.SubSessions)-1]]. *)
Definition currentSubSession (session : Session) : option SubSession :=
  last (SubSessions session).

Definition updateCurrentSubSession (f : SubSession -> SubSession)
    (session : Session) : Session :=
  {| sessID := sessID session; Start := Start session;
     End_ := End_ session;
     SubSessions :=
       alter f (length (SubSessions session) - 1)%nat (SubSessions session);
     Interruptions := Interruptions session |}.

Definition appendInterruption (entry : TimeEntry) (session : Session)
  : Session :=
  {| sessID := sessID session; Start := Start session;
     End_ := End_ session; SubSessions := SubSessions session;
     Interruptions := Interruptions session ++ [entry] |}.

Definition appendSubInterruption (entry : TimeEntry) (sub : SubSession)
  : SubSession :=
  {| subStart := subStart sub; subEnd := subEnd sub;
     subInterruptions := subInterruptions sub ++ [entry] |}.

(** An interruption is open when the sequence has an odd length. *)
Definition interrupted (xs : list TimeEntry) : bool :=
  (0 <? length xs)%nat && negb (length xs mod 2 =? 0)%nat.

(** Saving the day and reporting in the status bar. *)
Definition saveDay (ui : TimerUI) (fs : FileSystem) (now : Time)
    (random : bytes) (okText errText : string) : TimerUI * FileSystem :=
  match SaveDailySessions (uiStorage ui) fs now random (currentDay ui) with
  | Ok fs' => (setStatus ui okText, fs')
  | Err msg => (setStatus ui (errText +:+ msg), fs)
  | Panic => (ui, fs)
  end.

(** [TimerUI.recordInterruption]. *)
Definition recordInterruption (ui : TimerUI) (fs : FileSystem) (now : Time)
    (random : bytes) (entry : TimeEntry) : TimerUI * FileSystem :=
  let ui :=
    updateActive ui
      (fun session =>
         if (0 <? length (SubSessions session))%nat then
           (* the current sub-session, and the session for compatibility *)
           appendInterruption entry
             (updateCurrentSubSession (appendSubInterruption entry) session)
         else appendInterruption entry session) in
  saveDay ui fs now random "[yellow]Session interrupted"
          "[red]Error recording interruption: ".

(** What the user does in the dialog that asks for the kind of
    interruption: one of the four buttons, with a description for the
    fourth, or no choice. *)
Inductive TagChoice :=
| ChooseCall
| ChooseMeeting
| ChooseSpouse
| ChooseOther (description : string)
| NoChoice.

Definition chosenEntry (now : Time) (choice : TagChoice) : option TimeEntry :=
  match choice with
  | ChooseCall => Some (NewInterruptionEntry now "" TagCall)
  | ChooseMeeting => Some (NewInterruptionEntry now "" TagMeeting)
  | ChooseSpouse => Some (NewInterruptionEntry now "" TagSpouse)
  | ChooseOther description =>
      Some (NewInterruptionEntry now description TagOther)
  | NoChoice => None
  end.

(** [TimerUI.interruptSession], followed by the dialog. *)
Definition interruptSession (ui : TimerUI) (fs : FileSystem) (now : Time)
    (random : bytes) (choice : TagChoice) : TimerUI * FileSystem :=
  match active ui with
  | None => (setStatus ui "[red]No active session to interrupt", fs)
  | Some session =>
      match currentSubSession session with
      | None => (setStatus ui "[red]No active sub-session to interrupt", fs)
      | Some sub =>
          if interrupted (subInterruptions sub) then
            (setStatus ui "[red]Already interrupted. Press 'b' to return",
             fs)
          else
            match chosenEntry now choice with
            | Some entry => recordInterruption ui fs now random entry
            | None => (ui, fs)
            end
      end
  end.

(** [TimerUI.backFromInterruption]. *)
Definition backFromInterruption (ui : TimerUI) (fs : FileSystem)
    (now : Time) (random : bytes) : TimerUI * FileSystem :=
  match active ui with
  | None => (setStatus ui "[red]No active session", fs)
  | Some session =>
      match currentSubSession session with
      | None => (setStatus ui "[red]No active sub-session", fs)
      | Some sub =>
          if negb (interrupted (subInterruptions sub)) then
            (setStatus ui "[red]Not currently interrupted", fs)
          else
            let entry := NewTimeEntry now EntryTypeReturn "" in
            let ui :=
              updateActive ui
                (fun session =>
                   appendInterruption entry
                     (updateCurrentSubSession (appendSubInterruption entry)
                        session)) in
            saveDay ui fs now random "[green]Returned from interruption"
                    "[red]Error recording return: "
      end
  end.

(** [TimerUI.startSession], followed by the dialog that asks for the
    description: [description] is the text that the user submits, and
    there is none when the dialog is cancelled. The clock is read for the
    entry and for the identifier of the session; [now] stands for these
    readings. *)
Definition startSession (ui : TimerUI) (fs : FileSystem) (now : Time)
    (random : bytes) (description : option string) : TimerUI * FileSystem :=
  match activeSession ui with
  | Some _ =>
      (setStatus ui "[red]Cannot start a new session while one is active",
       fs)
  | None =>
      match description with
      | None => (ui, fs)
      | Some description =>
          let entry := NewTimeEntry now EntryTypeStart description in
          let session := NewSession now entry in
          let sessions := Sessions (currentDay ui) in
          let ui :=
            setActive (setSessions ui (sessions ++ [session]))
                      (Some (length sessions)) in
          saveDay ui fs now random "[green]Session started"
                  "[red]Error saving session: "
      end
  end.

Definition setEnd (entry : TimeEntry) (session : Session) : Session :=
  {| sessID := sessID session; Start := Start session;
     End_ := Some entry; SubSessions := SubSessions session;
     Interruptions := Interruptions session |}.

Definition setSubEnd (entry : TimeEntry) (sub : SubSession) : SubSession :=
  {| subStart := subStart sub; subEnd := Some entry;
     subInterruptions := subInterruptions sub |}.

(** The current sub-session has an interruption open. *)
Definition subInterrupted (session : Session) : bool :=
  match currentSubSession session with
  | Some sub => interrupted (subInterruptions sub)
  | None => false
  end.

(** [TimerUI.endSession]. *)
Definition endSession (ui : TimerUI) (fs : FileSystem) (now : Time)
    (random : bytes) : TimerUI * FileSystem :=
  match active ui with
  | None => (setStatus ui "[red]No active session to end", fs)
  | Some session =>
      if subInterrupted session then
        (setStatus ui
           "[red]Cannot end session while interrupted. Return from interruption first",
         fs)
      else
        let entry := NewTimeEntry now EntryTypeEnd "" in
        let ui :=
          updateActive ui
            (fun session =>
               updateCurrentSubSession (setSubEnd entry)
                 (setEnd entry session)) in
        let ui := setActive ui None in
        saveDay ui fs now random "[green]Session ended"
                "[red]Error ending session: "
  end.

(** The loop of [calculateSessionStats]:
<<
      for i := 0; i < len(xs); i += 2 {
          interruptionCount++
          if i+1 < len(xs) {
              interruptionDuration +=
                  xs[i+1].StartTime.Sub(xs[i].StartTime) + 10*time.Minute
          } else {
              interruptionDuration += time.Now().Sub(xs[i].StartTime)
          }
      }
>>
*)
Fixpoint sessionStatsLoop (now : Time) (fuel : nat) (i : nat)
    (xs : list TimeEntry) (interruptionDuration : Duration)
    (interruptionCount : Z) : Duration * Z :=
  match fuel with
  | O => (interruptionDuration, interruptionCount)
  | S fuel' =>
      if (i <? length xs)%nat then
        let interruptionCount := wrap64 (interruptionCount + 1) in
        match xs !! i with
        | Some interrupt =>
            let interruptStart := StartTime interrupt in
            if (i + 1 <? length xs)%nat then
              match xs !! (i + 1)%nat with
              | Some returnEntry =>
                  (* ten minutes of recovery for a completed interruption *)
                  sessionStatsLoop now fuel' (i + 2) xs
                    (dadd interruptionDuration
                       (dadd (Sub (StartTime returnEntry) interruptStart)
                             (10 * Minute)))
                    interruptionCount
              | None => (interruptionDuration, interruptionCount)
              end
            else
              (* the interruption is still open: no recovery time yet *)
              sessionStatsLoop now fuel' (i + 2) xs
                (dadd interruptionDuration (Sub now interruptStart))
                interruptionCount
        | None => (interruptionDuration, interruptionCount)
        end
      else (interruptionDuration, interruptionCount)
  end.

(** [calculateSessionStats]: the work time, the interruption time and the
    number of interruptions of a session for the table of the front end.
    The clock is read for a session without an end and for an open
    interruption; [now] stands for these readings. *)
Definition calculateSessionStats (now : Time) (session : Session)
  : Duration * Duration * Z :=
  match Start session with
  | None => (0, 0, 0)
  | Some start =>
      let endTime :=
        match End_ session with
        | Some e => StartTime e
        | None => now
        end in
      let totalDuration := Sub endTime (StartTime start) in
      let '(interruptionDuration, interruptionCount) :=
        sessionStatsLoop now (length (Interruptions session)) 0
          (Interruptions session) 0 0 in
      (* the interruption time does not exceed the total time *)
      let interruptionDuration :=
        if totalDuration <? interruptionDuration then totalDuration
        else interruptionDuration in
      (dsub totalDuration interruptionDuration, interruptionDuration,
       interruptionCount)
  end.

(** The search for a session that has not ended, with its position:
<<
      for _, session := range sessions {
          if session.End == nil { found = session; break }
      }
>>
*)
Fixpoint findActive (sessions : list Session) : option (nat * Session) :=
  match sessions with
  | [] => None
  | session :: rest =>
      match End_ session with
      | None => Some (0%nat, session)
      | Some _ => prod_map S id <$> findActive rest
      end
  end.

(** The text that [setupUI] puts in the status bar. *)
Definition standardInstructions : string :=
  "[yellow]Press (s)tart, (e)nd, (i)nterrupt, (b)ack, (d)elete, (r)ename, (u)ndo end, (v)iew stats, (q)uit".

(** [NewTimerUI]: the state of the front end at start, and the files
    after it. A session of the previous day that has not ended is moved
    to the current day; the sessions of a loaded day are distinct
    objects, so that the loop that drops the moved session from the
    previous day drops the session at its position. [random] and
    [random'] are the random bytes of the two writes. *)
Definition NewTimerUI (storage : Storage) (fs : FileSystem) (now : Time)
    (random random' : bytes) : result (TimerUI * FileSystem) :=
  let today := Truncate now (24 * Hour) in
  bind (wrapErr "failed to load daily sessions"
          (LoadDailySessions storage fs now today))
    (fun dailySessions =>
       let ui :=
         {| uiStorage := storage;
            currentDay := dailySessions;
            activeSession := fst <$> findActive (Sessions dailySessions);
            statusBar := standardInstructions |} in
       match activeSession ui with
       | Some _ => Ok (ui, fs)
       | None =>
           (* an active session of the previous day *)
           let previousDay := AddDate today 0 0 (-1) in
           match LoadDailySessions storage fs now previousDay with
           | Err _ => Ok (ui, fs) (* the previous day may not exist *)
           | Panic => Panic
           | Ok previousSessions =>
               match findActive (Sessions previousSessions) with
               | None => Ok (ui, fs)
               | Some (k, activeSessionFromPreviousDay) =>
                   let ui :=
                     setActive
                       (setSessions ui
                          (Sessions dailySessions
                           ++ [activeSessionFromPreviousDay]))
                       (Some (length (Sessions dailySessions))) in
                   bind (wrapErr
                           "failed to save session moved from previous day"
                           (SaveDailySessions storage fs now random
                              (currentDay ui)))
                     (fun fs =>
                        let previousSessions :=
                          {| Date_ := Date_ previousSessions;
                             Sessions :=
                               delete k (Sessions previousSessions) |} in
                        bind (wrapErr
                                "failed to update previous day after moving session"
                                (SaveDailySessions storage fs now random'
                                   previousSessions))
                          (fun fs => Ok (ui, fs)))
               end
           end
       end).

End WithDeps.

End ui.

Export ui.
Export models.

(** * Specification vocabulary *)

(** A value that fits a 64-bit signed integer. *)
Definition inInt64 (z : Z) : Prop := - 2 ^ 63 <= z < 2 ^ 63.

(** The sequence read two entries at a time; a last entry without a
    partner is dropped. *)
Fixpoint pairs (xs : list TimeEntry) : list (TimeEntry * TimeEntry) :=
  match xs with
  | a :: b :: rest => (a, b) :: pairs rest
  | _ => []
  end.

Definition span (p : TimeEntry * TimeEntry) : Duration :=
  Sub (StartTime p.2) (StartTime p.1).

Definition sumZ (l : list Z) : Z := foldr Z.add 0 l.

Definition pairSpans (xs : list TimeEntry) : Z := sumZ (span <$> pairs xs).

Definition pairCount (xs : list TimeEntry) : Z := Z.of_nat (length (pairs xs)).

(** ** Accounting periods

    A period of work is what [GetStats] accounts as one piece: a start,
    an end and the interruption sequence recorded between them. *)
Record Period := {
  periodStart : Time;
  periodEnd : Time;
  periodInterruptions : list TimeEntry
}.

Definition completed (s : Session) : Prop :=
  is_Some (Start s) /\ is_Some (End_ s).

Definition subCompleted (sub : SubSession) : Prop :=
  is_Some (subStart sub) /\ is_Some (subEnd sub).

Definition legacyShape (s : Session) : Prop := SubSessions s = [].

Definition subPeriod (sub : SubSession) : option Period :=
  match subStart sub, subEnd sub with
  | Some a, Some b =>
      Some {| periodStart := StartTime a; periodEnd := StartTime b;
              periodInterruptions := subInterruptions sub |}
  | _, _ => None
  end.

Definition sessionPeriod (s : Session) : option Period :=
  match Start s, End_ s with
  | Some a, Some b =>
      Some {| periodStart := StartTime a; periodEnd := StartTime b;
              periodInterruptions := Interruptions s |}
  | _, _ => None
  end.

(** The periods of a session: its sub-sessions when it has any, the
    session itself otherwise. *)
Definition periods (s : Session) : list Period :=
  match SubSessions s with
  | [] => option_list (sessionPeriod s)
  | subs => omap subPeriod subs
  end.

(** Every period of the session has both of its ends. *)
Definition settled (s : Session) : Prop :=
  match SubSessions s with
  | [] => completed s
  | subs => Forall subCompleted subs
  end.

Definition periodWork (p : Period) : Z :=
  Sub (periodEnd p) (periodStart p) - pairSpans (periodInterruptions p).

Definition periodTotals (ps : list Period) : Totals :=
  (wrap64 (sumZ (periodWork <$> ps)),
   wrap64 (sumZ ((fun p => pairSpans (periodInterruptions p)) <$> ps)),
   wrap64 (sumZ ((fun p => pairCount (periodInterruptions p)) <$> ps))).

(** The totals as the sentence on completed sessions reads: every session
    counted by its own start, end and interruption sequence. *)
Definition sessionSpan (s : Session) : Z :=
  match Start s, End_ s with
  | Some a, Some b => Sub (StartTime b) (StartTime a)
  | _, _ => 0
  end.

Definition statedTotals (ds : DailySessions) : Totals :=
  (wrap64 (sumZ ((fun s => sessionSpan s - pairSpans (Interruptions s))
                   <$> Sessions ds)),
   wrap64 (sumZ ((fun s => pairSpans (Interruptions s)) <$> Sessions ds)),
   wrap64 (sumZ ((fun s => pairCount (Interruptions s)) <$> Sessions ds))).

(** An interruption sequence made of (interruption, return) pairs, with
    at most one interruption left open at the end. *)
Fixpoint pairedSequence (xs : list TimeEntry) : Prop :=
  match xs with
  | [] => True
  | [a] => Type_ a = EntryTypeInterruption
  | a :: b :: rest =>
      Type_ a = EntryTypeInterruption /\ Type_ b = EntryTypeReturn /\
      pairedSequence rest
  end.

(** A legacy-shaped session that is still running, and the amount the
    sentence on active sessions expects it to add to the totals. *)
Definition legacyActive (s : Session) : Prop :=
  legacyShape s /\ is_Some (Start s) /\ End_ s = None.

Definition provisionalTotals (now : Time) (acc : Totals) (s : Session)
  : Totals :=
  match Start s with
  | Some start => account acc (StartTime start) now (Interruptions s)
  | None => acc
  end.

Definition setInterruptions (s : Session) (xs : list TimeEntry) : Session :=
  {| sessID := sessID s; Start := Start s; End_ := End_ s;
     SubSessions := SubSessions s; Interruptions := xs |}.

Definition setSubInterruptions (sub : SubSession) (xs : list TimeEntry)
  : SubSession :=
  {| subStart := subStart sub; subEnd := subEnd sub;
     subInterruptions := xs |}.

(** ** Statistics by tag, as sums over pairs *)

Definition dayPairs (ds : DailySessions) : list (TimeEntry * TimeEntry) :=
  Sessions ds ≫= (fun s => pairs (Interruptions s)).

Definition pairTag (p : TimeEntry * TimeEntry) : InterruptionTag :=
  tagOrOther p.1.

Definition pairsTagged (tag : InterruptionTag)
    (ps : list (TimeEntry * TimeEntry)) : list (TimeEntry * TimeEntry) :=
  filter (fun p => pairTag p = tag) ps.

Definition knownTag (tag : InterruptionTag) : Prop :=
  tag ∈ GetInterruptionTags.

(** The statistics of one tag over a list of completed pairs, in 64-bit
    arithmetic. *)
Definition tagStatsOf (ps : list (TimeEntry * TimeEntry))
    (tag : InterruptionTag) : InterruptionTagStats :=
  let qs := pairsTagged tag ps in
  let count := wrap64 (Z.of_nat (length qs)) in
  let total := wrap64 (sumZ (span <$> qs)) in
  let recovery := wrap64 (10 * Minute * Z.of_nat (length qs)) in
  {| statTag := tag;
     Count := count;
     TotalTime := total;
     RecoveryTime := recovery;
     TotalWithRecovery := wrap64 (total + recovery);
     AverageTime := if 0 <? count then wrap64 (Z.quot total count) else 0 |}.

(** ** The invariant of interruption sequences *)

Definition subPaired (sub : SubSession) : Prop :=
  pairedSequence (subInterruptions sub).

(** The sequence kept on the session has an interruption open exactly
    when the sequence of the current sub-session has. *)
Definition mirrored (s : Session) : Prop :=
  match currentSubSession s with
  | Some sub =>
      interrupted (Interruptions s) = interrupted (subInterruptions sub)
  | None => True
  end.

(** The sentence on merging as it is written: whenever the sequences of
    the sessions of a day are paired, so are those of the day after the
    merge. *)
Definition merge_keeps_paired (now : Time) (day : DailySessions)
    (session1Index session2Index : Z) : Prop :=
  Forall (fun s => pairedSequence (Interruptions s)) (Sessions day) ->
  forall day',
    mergeDay now day session1Index session2Index = Ok day' ->
    Forall (fun s => pairedSequence (Interruptions s)) (Sessions day').

(** ** Merging *)



(** ** The contract of the cipher

    What the storage relies on from an AEAD: opening what was sealed
    under the same key and nonce gives the plaintext back, and a sealed
    message is never empty (the cipher appends its authentication
    tag). *)
Definition aeadCorrect (c : AEAD) : Prop :=
  forall key nonce plaintext,
    Open c key nonce (Seal c key nonce plaintext) = Some plaintext.

Definition aeadTagged (c : AEAD) : Prop :=
  forall key nonce plaintext, Seal c key nonce plaintext <> [].

(** The shape of AES in Galois counter mode as [cipher.NewGCM] gives it:
    under a key that [aes.NewCipher] accepts and a nonce of twelve bytes,
    a sealed message is the plaintext's length and a tag of sixteen
    bytes long. *)
Definition gcmShaped (c : AEAD) : Prop :=
  forall key nonce plaintext,
    validKey key = true -> length nonce = 12%nat ->
    length (Seal c key nonce plaintext) = (length plaintext + 16)%nat.


(** Bytes are finitely many: a byte is eight bits. *)
#[export] Instance byte_eq_dec : EqDecision Byte.byte := Byte.byte_eq_dec.

#[export] Instance of_bits_surj : Surj (=) Byte.of_bits.
Proof. intros b. exists (Byte.to_bits b). apply Byte.of_bits_to_bits. Qed.

#[export] Instance byte_finite : Finite Byte.byte :=
  surjective_finite Byte.of_bits.


(** ** Checking the calendar over one cycle of 400 years

    The Gregorian calendar repeats after 146097 days. Both conversions
    split their argument into the number of the cycle and a position in
    it, so that they are inverse to each other as soon as they are on the
    positions of one cycle, which is checked by computation. *)

(** [f] holds for [start], [start + 1], ..., [start + n - 1]. *)
Fixpoint allFrom (f : Z -> bool) (n : nat) (start : Z) : bool :=
  match n with
  | O => true
  | S n' => f start && allFrom f n' (start + 1)
  end.

(** The day [doe] of a cycle: the year of the cycle, the month and the day
    that [civilFromDays] finds, and the day of the cycle that
    [daysFromCivil] finds for them. *)
Definition checkDay (doe : Z) : bool :=
  let yoe := (doe - doe / 1460 + doe / 36524 - doe / 146096) / 365 in
  let doy := doe - (365 * yoe + yoe / 4 - yoe / 100) in
  let mp := (5 * doy + 2) / 153 in
  let d := doy - (153 * mp + 2) / 5 + 1 in
  let m := if mp <? 10 then mp + 3 else mp - 9 in
  let mp' := if 2 <? m then m - 3 else m + 9 in
  let doy' := (153 * mp' + 2) / 5 + d - 1 in
  let doe' := yoe * 365 + yoe / 4 - yoe / 100 + doy' in
  (0 <=? yoe) && (yoe <? 400) && (1 <=? m) && (m <=? 12)
  && (1 <=? d) && (d <=? daysIn (if m <=? 2 then yoe + 1 else yoe) m)
  && (doe' =? doe).

(** The date [d] of month [m] in the year [yoe] of a cycle (years begin
    in March): when the date exists, the day of the cycle that
    [daysFromCivil] finds and the date [civilFromDays] finds for it. *)
Definition checkDate (yoe m d : Z) : bool :=
  let mp := if 2 <? m then m - 3 else m + 9 in
  let doy := (153 * mp + 2) / 5 + d - 1 in
  let doe := yoe * 365 + yoe / 4 - yoe / 100 + doy in
  let yoe' := (doe - doe / 1460 + doe / 36524 - doe / 146096) / 365 in
  let doy' := doe - (365 * yoe' + yoe' / 4 - yoe' / 100) in
  let mp' := (5 * doy' + 2) / 153 in
  let d' := doy' - (153 * mp' + 2) / 5 + 1 in
  let m' := if mp' <? 10 then mp' + 3 else mp' - 9 in
  if d <=? daysIn (if m <=? 2 then yoe + 1 else yoe) m then
    (0 <=? doe) && (doe <? 146097) && (yoe' =? yoe) && (m' =? m)
    && (d' =? d)
  else true.

Definition checkYear (yoe : Z) : bool :=
  allFrom (fun m => allFrom (checkDate yoe m) 31 1) 12 1.

(** ** Detailed statistics over the days of a range *)

Definition dayNanos : Z := 24 * Hour.

(** The days that the loop over a range visits. *)
Definition rangeDays (startDate endDate : Time) : list Time :=
  (fun k => Add startDate (Z.of_nat k * dayNanos))
    <$> seq 0 (dayCount startDate endDate).

(** The days of a list that can be loaded, each with its date. *)
Fixpoint loadedDays `{deps : Deps} (s : Storage) (fs : FileSystem)
    (now : Time) (ds : list Time) : result (list (Time * DailySessions)) :=
  match ds with
  | [] => Ok []
  | d :: ds' =>
      match LoadDailySessions s fs now d with
      | Ok day => bind (loadedDays s fs now ds') (fun l => Ok ((d, day) :: l))
      | Err _ => loadedDays s fs now ds'
      | Panic => Panic
      end
  end.

(** The steps of [GetDetailedStats] as functions that cannot fail. *)
Definition detailPairStep (st : Duration * DetailedStats)
    (p : TimeEntry * TimeEntry) : Duration * DetailedStats :=
  (dadd st.1 (span p), countInterruption st.2 (pairTag p) (span p)).

Definition detailSessionStep (st : DetailedStats * Duration)
    (session : Session) : DetailedStats * Duration :=
  match Start session, End_ session with
  | Some start, Some end_ =>
      let after :=
        fold_left detailPairStep (pairs (Interruptions session)) (0, st.1) in
      let pureWorkTime :=
        dsub (Sub (StartTime end_) (StartTime start)) after.1 in
      (countSession after.2 pureWorkTime (HourOf (StartTime start)),
       dadd st.2 pureWorkTime)
  | _, _ => st
  end.

Definition workOf (now : Time) (day : DailySessions) : Duration :=
  (GetStats now day).1.1.

Definition detailDayStep (now : Time) (st : DetailedStats * Duration)
    (entry : Time * DailySessions) : DetailedStats * Duration :=
  fold_left detailSessionStep (Sessions entry.2)
    (countDay st.1 (FormatDate entry.1) (workOf now entry.2), st.2).

Definition withAverageSessionTime (st : DetailedStats * Duration)
  : DetailedStats :=
  if 0 <? TotalSessions st.1 then
    setAverageSessionTime st.1 (ddiv st.2 (TotalSessions st.1))
  else st.1.

(** The statistics of a list of loaded days. *)
Definition summary (now : Time) (startDate endDate : Time)
    (days : list (Time * DailySessions)) : DetailedStats :=
  withAverageSessionTime
    (fold_left (detailDayStep now) days (emptyStats startDate endDate, 0)).

(** The fields that describe sessions and interruptions. *)
Definition sameSessionFields (a b : DetailedStats) : Prop :=
  TotalSessions a = TotalSessions b /\
  LongestSession a = LongestSession b /\
  AverageSessionTime a = AverageSessionTime b /\
  TotalInterruptions a = TotalInterruptions b /\
  InterruptionsByTag a = InterruptionsByTag b /\
  InterruptionDurationByTag a = InterruptionDurationByTag b /\
  HourlyProductivity a = HourlyProductivity b.

Definition hasBothEnds (s : Session) : bool :=
  match Start s, End_ s with
  | Some _, Some _ => true
  | _, _ => false
  end.

(** A day without its sessions that lack a start or an end. *)
Definition endedOnly (entry : Time * DailySessions) : Time * DailySessions :=
  (entry.1,
   {| Date_ := Date_ entry.2;
      Sessions := filter (fun s => hasBothEnds s = true) (Sessions entry.2) |}).

(** The sentence on running sessions as it is written: the time of a
    running session, from its start to the current time without its
    completed interruptions, is part of the total work duration. For a
    day with that session alone, the total is that time. *)
Definition running_time_counted `{deps : Deps} (s : Storage)
    (fs : FileSystem) (now : Time) (session : Session) : Prop :=
  is_Some (Start session) -> End_ session = None ->
  LoadDailySessions s fs now (Truncate now (24 * Hour)) =
    Ok {| Date_ := Truncate now (24 * Hour); Sessions := [session] |} ->
  exists stats,
    storage.GetDetailedStats s fs now "day" = Ok stats /\
    TotalWorkDuration stats = (provisionalTotals now (0, 0, 0) session).1.1.

(** ** Sample data

    Instants of one day in UTC, written as minutes after midnight of
    1970-01-01, and entries at these instants. *)
Definition atMinute (m : Z) : Time :=
  {| unixNano := m * Minute; location := UTC |}.

Definition entryAt (ty : EntryType) (tag : InterruptionTag) (m : Z)
  : TimeEntry :=
  {| ID := ""; Type_ := ty; StartTime := atMinute m; Description := "";
     Tag := tag |}.

(** A session worked from 9:00 to 10:00, ended, resumed at 11:00 and ended
    at 12:00. *)
Definition resumedSession : Session :=
  {| sessID := "sess_1";
     Start := Some (entryAt EntryTypeStart "" 540);
     End_ := Some (entryAt EntryTypeEnd "" 720);
     SubSessions :=
       [ {| subStart := Some (entryAt EntryTypeStart "" 540);
            subEnd := Some (entryAt EntryTypeEnd "" 600);
            subInterruptions := [] |};
         {| subStart := Some (entryAt EntryTypeStart "" 660);
            subEnd := Some (entryAt EntryTypeEnd "" 720);
            subInterruptions := [] |} ];
     Interruptions := [] |}.

(** A stored session without sub-sessions: 9:00 to 11:00 with a call from
    9:30 to 10:00. *)
Definition legacySession : Session :=
  {| sessID := "";
     Start := Some (entryAt EntryTypeStart "" 540);
     End_ := Some (entryAt EntryTypeEnd "" 660);
     SubSessions := [];
     Interruptions :=
       [ entryAt EntryTypeInterruption TagCall 570;
         entryAt EntryTypeReturn "" 600 ] |}.

(** The same without its end entry. *)
Definition legacyRunning : Session :=
  {| sessID := "";
     Start := Some (entryAt EntryTypeStart "" 540);
     End_ := None;
     SubSessions := [];
     Interruptions :=
       [ entryAt EntryTypeInterruption TagCall 570;
         entryAt EntryTypeReturn "" 600 ] |}.

Definition dayOf (ss : list Session) : DailySessions :=
  {| Date_ := atMinute 0; Sessions := ss |}.

(** A stored session whose interruption carries a label of the user's own:
    lunch from 12:00 to 12:30. *)
Definition lunchSession : Session :=
  {| sessID := "sess_2";
     Start := Some (entryAt EntryTypeStart "" 660);
     End_ := Some (entryAt EntryTypeEnd "" 840);
     SubSessions := [];
     Interruptions :=
       [ entryAt EntryTypeInterruption "lunch" 720;
         entryAt EntryTypeReturn "" 750 ] |}.

(** One hour of work in one session, with six interruptions of one minute
    each. *)
Definition busyHour : DetailedStats :=
  {| StartDate := atMinute 0;
     EndDate := atMinute 0;
     TotalWorkDuration := 1 * Hour;
     TotalSessions := 1;
     LongestSession := 1 * Hour;
     AverageSessionTime := 1 * Hour;
     TotalInterruptions := 6;
     InterruptionsByTag := {[ TagOther := 6 ]};
     InterruptionDurationByTag := {[ TagOther := 6 * Minute ]};
     DailyWorkDurations := {[ "1970-01-01" := 1 * Hour ]};
     HourlyProductivity := {[ 9 := 1 * Hour ]};
     ProductivityScore := 0%float |}.

(** A session begun at 9:00, ended, resumed at 12:00 and interrupted at
    12:30 by a call that is still going on. *)
Definition pausedSession : Session :=
  {| sessID := "sess_3";
     Start := Some (entryAt EntryTypeStart "" 540);
     End_ := None;
     SubSessions :=
       [ {| subStart := Some (entryAt EntryTypeStart "" 540);
            subEnd := Some (entryAt EntryTypeEnd "" 600);
            subInterruptions := [] |};
         {| subStart := Some (entryAt EntryTypeStart "" 720);
            subEnd := None;
            subInterruptions :=
              [ entryAt EntryTypeInterruption TagCall 750 ] |} ];
     Interruptions := [ entryAt EntryTypeInterruption TagCall 750 ] |}.

(** A session from 10:00 to 11:00 with a meeting from 10:10 to 10:20. *)
Definition meetingSession : Session :=
  {| sessID := "sess_4";
     Start := Some (entryAt EntryTypeStart "" 600);
     End_ := Some (entryAt EntryTypeEnd "" 660);
     SubSessions :=
       [ {| subStart := Some (entryAt EntryTypeStart "" 600);
            subEnd := Some (entryAt EntryTypeEnd "" 660);
            subInterruptions :=
              [ entryAt EntryTypeInterruption TagMeeting 610;
                entryAt EntryTypeReturn "" 620 ] |} ];
     Interruptions :=
       [ entryAt EntryTypeInterruption TagMeeting 610;
         entryAt EntryTypeReturn "" 620 ] |}.

(** A session from 7:00 to 8:00 without interruptions. *)
Definition earlySession : Session :=
  {| sessID := "sess_5";
     Start := Some (entryAt EntryTypeStart "" 420);
     End_ := Some (entryAt EntryTypeEnd "" 480);
     SubSessions :=
       [ {| subStart := Some (entryAt EntryTypeStart "" 420);
            subEnd := Some (entryAt EntryTypeEnd "" 480);
            subInterruptions := [] |} ];
     Interruptions := [] |}.

(** ** A small world for the examples

    A cipher that binds the ciphertext to the key by writing the key in
    front of the plaintext, a decoder that knows the documents of a table,
    and a scanner that knows the file names of a table. *)

Fixpoint bytes_eqb (a b : bytes) : bool :=
  match a, b with
  | [], [] => true
  | x :: a', y :: b' => Byte.eqb x y && bytes_eqb a' b'
  | _, _ => false
  end.

Definition keyMark (key : bytes) : Byte.byte :=
  if (length key =? 16)%nat then Byte.x10
  else if (length key =? 24)%nat then Byte.x18
  else Byte.x20.

Definition keyPrefixCipher : AEAD :=
  {| Seal := fun key nonce plaintext => keyMark key :: key ++ plaintext;
     Open := fun key nonce ciphertext =>
       match ciphertext with
       | mark :: rest =>
           if Byte.eqb mark (keyMark key)
              && bytes_eqb (take (length key) rest) key
           then Some (drop (length key) rest)
           else None
       | [] => None
       end |}.

Definition tableCodec (documents : list (bytes * DailySessions)) : Codec :=
  {| marshal := fun _ _ => [];
     unmarshal := fun data =>
       match filter (fun d => bytes_eqb d.1 data = true) documents with
       | d :: _ => Some (CurrentSchemaVersion, d.2)
       | [] => None
       end;
     unmarshalOld := fun _ => None |}.

Definition tableScanner (names : list (string * (Z * Z * Z))) (name : string)
  : option (Z * Z * Z) :=
  match filter (fun d => d.1 = name) names with
  | d :: _ => Some d.2
  | [] => None
  end.

Definition worldOf (zone : Location)
    (documents : list (bytes * DailySessions))
    (names : list (string * (Z * Z * Z))) : Deps :=
  {| aesgcm := keyPrefixCipher;
     json := tableCodec documents;
     scanFileName := tableScanner names;
     Local := zone |}.

Definition plainStorage : Storage :=
  {| dataDir := "data"; backupEnabled := false; backupInterval := 7;
     encryptionEnabled := false; encryptionKey := [] |}.

Definition noFiles : FileSystem := {| files := ∅; directories := ∅ |}.

(** The front end with [pausedSession] as its only and active session. *)
Definition pausedUI : TimerUI :=
  {| uiStorage := plainStorage;
     currentDay := dayOf [pausedSession];
     activeSession := Some 0%nat;
     statusBar := "" |}.

(** A storage with encryption under a key of 32 bytes, another one under a
    different key, and twelve bytes for a nonce. *)
Definition key32 (b : Byte.byte) : bytes := replicate 32 b.

Definition sealedStorage (key : bytes) : Storage :=
  {| dataDir := "data"; backupEnabled := false; backupInterval := 7;
     encryptionEnabled := true; encryptionKey := key |}.

Definition nonce12 : bytes := replicate 12 Byte.x07.


(** A zone one hour east of UTC, and half past midnight of Monday
    2025-03-10 on its wall clock (23:30 of Sunday in UTC). *)
Definition plusOne : Location := {| zoneOffset := 3600 |}.

Definition mondayEarly : Time := Date 2025 3 10 0 30 0 0 plusOne.

(** Noon of Wednesday 2025-03-12 in UTC. *)
Definition wednesdayNoon : Time := Date 2025 3 12 12 0 0 0 UTC.

(** A data directory with the file of 1970-01-01, and a decoder that
    reads it as a day with the given sessions. *)
Definition oneDayFiles : FileSystem :=
  {| files := {[ "data/sessions_1970-01-01.json" := Content [Byte.x01] ]};
     directories := ∅ |}.

Definition oneDayWorld (ss : list Session) : Deps :=
  worldOf UTC [([Byte.x01], dayOf ss)] [].

(** ** Auxiliary notions of the proofs *)

Definition addPeriod (acc : Totals) (p : Period) : Totals :=
  account acc (periodStart p) (periodEnd p) (periodInterruptions p).

(** The sentence C1 as it is written: sums taken over the sessions, each
    with its own start, end and interruption sequence. *)
Definition GetStats_stated (now : Time) (ds : DailySessions) : Prop :=
  Forall completed (Sessions ds) ->
  Forall (fun s => pairedSequence (Interruptions s)) (Sessions ds) ->
  GetStats now ds = statedTotals ds.

(** The sentence C2 as it is written: the running session is accounted
    from its start to the current time. *)
Definition legacy_active_stated (now : Time) (acc : Totals) (s : Session)
  : Prop :=
  legacyActive s -> statsSession now acc s = provisionalTotals now acc s.

Definition onPair {St} (body : St -> TimeEntry -> TimeEntry -> result St)
    (st : St) (p : TimeEntry * TimeEntry) : result St :=
  body st p.1 p.2.

Definition bumpStats (stats : InterruptionTagStats)
    (p : TimeEntry * TimeEntry) : InterruptionTagStats :=
  {| statTag := statTag stats;
     Count := wrap64 (Count stats + 1);
     TotalTime := dadd (TotalTime stats) (span p);
     RecoveryTime := dadd (RecoveryTime stats) (dmul 10 Minute);
     TotalWithRecovery :=
       dadd (TotalWithRecovery stats) (dadd (span p) (dmul 10 Minute));
     AverageTime := AverageTime stats |}.

(** The entry appended to both sequences by the two commands. *)
Definition appendBoth (entry : TimeEntry) (session : Session) : Session :=
  appendInterruption entry
    (updateCurrentSubSession (appendSubInterruption entry) session).

(** What a command leaves of the active session: the session [s'] now at
    the position [i] keeps the pairing of the sequences of its
    sub-sessions and, when the sequence of the session mirrors the
    current sub-session, of its own sequence; the other sessions are
    unchanged. *)
Definition keepsPairing (ui ui' : TimerUI) (i : nat) (s : Session) : Prop :=
  exists s',
    Sessions (currentDay ui') !! i = Some s' /\
    (forall j, j <> i ->
       Sessions (currentDay ui') !! j = Sessions (currentDay ui) !! j) /\
    (Forall subPaired (SubSessions s) -> Forall subPaired (SubSessions s')) /\
    (pairedSequence (Interruptions s) -> mirrored s ->
     pairedSequence (Interruptions s') /\ mirrored s').

(** A date that exists in the calendar. *)
Definition validDate (y m d : Z) : Prop :=
  1 <= m <= 12 /\ 1 <= d <= daysIn y m.

Definition sameTally (x y : DetailedStats * Duration) : Prop :=
  sameSessionFields x.1 y.1 /\ x.2 = y.2.

Definition addWork (now : Time) (m : gmap string Duration)
    (entry : Time * DailySessions) : gmap string Duration :=
  <[FormatDate entry.1 := workOf now entry.2]> m.

(** ** Further sample data *)

(** A decoder that reads every document as one given day, and an encoder
    that writes one byte. *)
Definition echoCodec (day : DailySessions) : Codec :=
  {| marshal := fun _ _ => [Byte.x01];
     unmarshal := fun _ => Some (CurrentSchemaVersion, day);
     unmarshalOld := fun _ => None |}.

Definition echoWorld (day : DailySessions) : Deps :=
  {| aesgcm := keyPrefixCipher;
     json := echoCodec day;
     scanFileName := fun _ => None;
     Local := UTC |}.

(** A session as files written before identifiers existed hold it. *)
Definition unnamedSession : Session :=
  {| sessID := "";
     Start := Some (entryAt EntryTypeStart "" 300);
     End_ := Some (entryAt EntryTypeEnd "" 360);
     SubSessions := [];
     Interruptions := [] |}.

(** A storage that keeps backups. *)
Definition backupStorage : Storage :=
  {| dataDir := "data"; backupEnabled := true; backupInterval := 7;
     encryptionEnabled := false; encryptionKey := [] |}.

(** An encoder that writes the number of sessions of a day as one byte,
    and a decoder that reads the byte as the first day of a table with
    that many sessions. *)
Definition countCodec (table : list DailySessions) : Codec :=
  {| marshal := fun _ day =>
       match Byte.of_nat (length (Sessions day)) with
       | Some b => [b]
       | None => []
       end;
     unmarshal := fun data =>
       match data with
       | [b] =>
           match filter (fun day => length (Sessions day) = Byte.to_nat b)
                        table with
           | day :: _ => Some (CurrentSchemaVersion, day)
           | [] => None
           end
       | _ => None
       end;
     unmarshalOld := fun _ => None |}.

Definition countWorld (table : list DailySessions) : Deps :=
  {| aesgcm := keyPrefixCipher;
     json := countCodec table;
     scanFileName := fun _ => None;
     Local := UTC |}.

(** The file of 1970-01-01 holding the byte 2. *)
Definition twoSessionFiles : FileSystem :=
  {| files := {[ "data/sessions_1970-01-01.json" := Content [Byte.x02] ]};
     directories := ∅ |}.

(** The day that merging [earlySession] and [meetingSession] gives. *)
Definition mergedSample : DailySessions :=
  dayOf [mergedSession (atMinute 800) earlySession meetingSession].

(** The storage can seal with the random bytes it got whenever
    encryption is enabled. *)
Definition canSeal (s : Storage) (random : bytes) : Prop :=
  encryptionEnabled s = true ->
  validKey (encryptionKey s) = true /\ length random = 12%nat.

(** ** Notions of the statistics over a range *)

(** The totals of a loaded day added to the running totals. *)
Definition addTotals (now : Time) (acc : Totals)
    (entry : Time * DailySessions) : Totals :=
  let '(totalWork, totalInterruption, totalInterruptionCount) := acc in
  let '(workDuration, interruptionDuration, interruptionCount) :=
    GetStats now entry.2 in
  (dadd totalWork workDuration,
   dadd totalInterruption interruptionDuration,
   wrap64 (totalInterruptionCount + interruptionCount)).

(** The sums of the three totals of the days. *)
Definition dayTotals (now : Time) (days : list (Time * DailySessions))
  : Totals :=
  (wrap64 (sumZ ((fun entry => (GetStats now entry.2).1.1) <$> days)),
   wrap64 (sumZ ((fun entry => (GetStats now entry.2).1.2) <$> days)),
   wrap64 (sumZ ((fun entry => (GetStats now entry.2).2) <$> days))).

(** The two range statistics give the same answer about the work. *)
Definition sameWork (totals : result Totals) (stats : result DetailedStats)
  : Prop :=
  match totals, stats with
  | Ok totals, Ok stats => TotalWorkDuration stats = totals.1.1
  | Err msg, Err msg' => msg = msg'
  | Panic, Panic => True
  | _, _ => False
  end.

(** The sum of the values of a map of counters. *)
Definition sumValues `{Countable K} (m : gmap K Z) : Z :=
  map_fold (fun _ v acc => acc + v) 0 m.

(** The pure work time of a session that has both of its ends: the time
    from its start to its end without the completed interruptions of the
    sequence kept on the session. *)
Definition pureWorkTime (session : Session) : option Duration :=
  match Start session, End_ session with
  | Some start, Some end_ =>
      Some (dsub (Sub (StartTime end_) (StartTime start))
                 (wrap64 (pairSpans (Interruptions session))))
  | _, _ => None
  end.

(** The pure work times of the ended sessions of the days, in order. *)
Definition endedTimes (days : list (Time * DailySessions)) : list Duration :=
  days ≫= (fun entry => omap pureWorkTime (Sessions entry.2)).

Definition maxZ (l : list Z) : Z := foldr Z.max 0 l.

(** What the loops of [GetDetailedStats] keep true of the statistics and
    of the sum of the pure work times. *)
Definition tallyKept (st : DetailedStats * Duration) : Prop :=
  wrap64 (sumValues (InterruptionsByTag st.1)) = TotalInterruptions st.1 /\
  (forall tag,
     is_Some (InterruptionsByTag st.1 !! tag) <->
     is_Some (InterruptionDurationByTag st.1 !! tag)) /\
  InterruptionsByTag st.1 !! "" = None /\
  (forall h d, HourlyProductivity st.1 !! h = Some d -> 0 <= h < 24) /\
  wrap64 (sumValues (HourlyProductivity st.1)) = st.2.

(** A visit of the entries of a map sees every entry once. *)
Definition visitsAll {A} (visit : list A -> list A) : Prop :=
  forall l, visit l ≡ₚ l.

(** Statistics with the same work in two hours. *)
Definition tiedHours : DetailedStats :=
  {| StartDate := atMinute 0;
     EndDate := atMinute 0;
     TotalWorkDuration := 2 * Hour;
     TotalSessions := 2;
     LongestSession := 1 * Hour;
     AverageSessionTime := 1 * Hour;
     TotalInterruptions := 0;
     InterruptionsByTag := ∅;
     InterruptionDurationByTag := ∅;
     DailyWorkDurations := {[ "1970-01-01" := 2 * Hour ]};
     HourlyProductivity := {[ 9 := 1 * Hour; 14 := 1 * Hour ]};
     ProductivityScore := 0%float |}.

(** ** Notions of the session table *)

(** What [calculateSessionStats] charges for the interruptions of a
    sequence: the span and ten minutes of recovery for a completed
    interruption, the time up to the current time for an open one. *)
Fixpoint charges (now : Time) (xs : list TimeEntry) : list Duration :=
  match xs with
  | a :: b :: rest =>
      dadd (Sub (StartTime b) (StartTime a)) (10 * Minute)
      :: charges now rest
  | [a] => [Sub now (StartTime a)]
  | [] => []
  end.

(** The end of a session, or the current time while it runs. *)
Definition sessionEnd (now : Time) (session : Session) : Time :=
  match End_ session with
  | Some e => StartTime e
  | None => now
  end.

(** ** Notions of the session commands *)

(** The sessions that have not ended are the active session: the session
    at a position has no end entry exactly when [activeSession] points to
    that position. *)
Definition runningIsActive (ui : TimerUI) : Prop :=
  forall j s,
    Sessions (currentDay ui) !! j = Some s ->
    (End_ s = None <-> activeSession ui = Some j).

(** The active session is the last session of the day. *)
Definition lastActive (ui : TimerUI) (ss : list Session) (x : Session)
  : Prop :=
  Sessions (currentDay ui) = ss ++ [x] /\
  activeSession ui = Some (length ss).

(** The front end with no session yet. *)
Definition idleUI : TimerUI :=
  {| uiStorage := plainStorage;
     currentDay := dayOf [];
     activeSession := None;
     statusBar := "" |}.

(** The totals of a day and those of one more period of work with one
    interruption. *)
Definition withPeriod (totals : Totals) (work interruption : Duration)
  : Totals :=
  (dadd totals.1.1 (dsub work interruption),
   dadd totals.1.2 interruption,
   wrap64 (totals.2 + 1)).

(** No session before the position [i] is running, and the session at
    [i] is. *)
Definition firstRunning (sessions : list Session) (i : nat) : Prop :=
  (exists s, sessions !! i = Some s /\ End_ s = None) /\
  forall j s, (j < i)%nat -> sessions !! j = Some s -> End_ s <> None.

(** At most one session of the list has no end entry. *)
Definition oneRunning (sessions : list Session) : Prop :=
  forall j k s s',
    sessions !! j = Some s -> sessions !! k = Some s' ->
    End_ s = None -> End_ s' = None -> j = k.

(** The encoding of a day is read back as that day. *)
Definition readsBack `{deps : Deps} (sessions : DailySessions) : Prop :=
  unmarshal json (marshal json CurrentSchemaVersion sessions) =
  Some (CurrentSchemaVersion, sessions).

(** A day with one more session at its end, and a day without the
    session at a position. *)
Definition withSession (day : DailySessions) (x : Session) : DailySessions :=
  {| Date_ := Date_ day; Sessions := Sessions day ++ [x] |}.

Definition withoutSession (day : DailySessions) (k : nat) : DailySessions :=
  {| Date_ := Date_ day; Sessions := delete k (Sessions day) |}.

(** A previous day with a session left running between two ended ones,
    the current day after the session was moved to it, and the previous
    day without the session. *)
Definition leftRunning : DailySessions :=
  dayOf [earlySession; pausedSession; meetingSession].

Definition carriedOver : DailySessions :=
  {| Date_ := atMinute 1440; Sessions := [pausedSession] |}.

Definition leftEnded : DailySessions := dayOf [earlySession; meetingSession].

(** The file of 1970-01-01 holding the byte 3. *)
Definition threeSessionFiles : FileSystem :=
  {| files := {[ "data/sessions_1970-01-01.json" := Content [Byte.x03] ]};
     directories := ∅ |}.

(** A cipher of the shape of AES in Galois counter mode that opens what
    it sealed: the plaintext followed by sixteen bytes. *)
Definition tagCipher : AEAD :=
  {| Seal := fun key nonce plaintext => plaintext ++ replicate 16 Byte.x00;
     Open := fun key nonce ciphertext =>
       if (length ciphertext <? 16)%nat then None
       else Some (take (length ciphertext - 16) ciphertext) |}.

(** * Properties *)

(** ** 64-bit arithmetic *)


Lemma wrap64_range z : inInt64 (wrap64 z).
Proof.
  unfold inInt64, wrap64.
  pose proof (Z.mod_pos_bound (z + 2 ^ 63) (2 ^ 64) ltac:(lia)). lia.
Qed.

Lemma wrap64_id z : inInt64 z -> wrap64 z = z.
Proof.
  unfold inInt64, wrap64. intros H.
  rewrite Z.mod_small by lia. lia.
Qed.

Lemma wrap64_add_l a b : wrap64 (wrap64 a + b) = wrap64 (a + b).
Proof.
  unfold wrap64.
  replace ((a + 2 ^ 63) mod 2 ^ 64 - 2 ^ 63 + b + 2 ^ 63)
    with ((a + 2 ^ 63) mod 2 ^ 64 + b) by lia.
  rewrite Zplus_mod_idemp_l. f_equal. f_equal. lia.
Qed.

Lemma wrap64_add_r a b : wrap64 (a + wrap64 b) = wrap64 (a + b).
Proof. rewrite Z.add_comm, wrap64_add_l. f_equal. lia. Qed.

Lemma wrap64_sub_l a b : wrap64 (wrap64 a - b) = wrap64 (a - b).
Proof. unfold Z.sub. apply wrap64_add_l. Qed.

Lemma wrap64_opp a : wrap64 (- wrap64 a) = wrap64 (- a).
Proof.
  unfold wrap64.
  replace (- ((a + 2 ^ 63) mod 2 ^ 64 - 2 ^ 63) + 2 ^ 63)
    with (2 ^ 64 - (a + 2 ^ 63) mod 2 ^ 64) by lia.
  replace (- a + 2 ^ 63) with (2 ^ 64 - (a + 2 ^ 63)) by lia.
  rewrite Zminus_mod_idemp_r. reflexivity.
Qed.

Lemma wrap64_sub_r a b : wrap64 (a - wrap64 b) = wrap64 (a - b).
Proof.
  unfold Z.sub. rewrite <- wrap64_add_r, wrap64_opp, wrap64_add_r.
  reflexivity.
Qed.

Lemma wrap64_idem a : wrap64 (wrap64 a) = wrap64 a.
Proof. apply wrap64_id, wrap64_range. Qed.

Lemma Sub_range t u : inInt64 (Sub t u).
Proof.
  unfold Sub, inInt64, minDuration, maxDuration.
  repeat case_match; lia.
Qed.

Lemma Sub_exact t u :
  inInt64 (unixNano t - unixNano u) -> Sub t u = unixNano t - unixNano u.
Proof.
  unfold Sub, inInt64, minDuration, maxDuration. intros H.
  repeat case_match; lia.
Qed.

(** ** Pairs of an interruption sequence *)

Lemma sumZ_app l1 l2 : sumZ (l1 ++ l2) = sumZ l1 + sumZ l2.
Proof. induction l1 as [|x l1 IH]; simpl; lia. Qed.

Lemma pairs_app_even xs ys :
  Nat.Even (length xs) -> pairs (xs ++ ys) = pairs xs ++ pairs ys.
Proof.
  revert ys. induction xs as [xs IH] using (induction_ltof1 _ (@length _)).
  unfold ltof in IH. intros ys Hev.
  destruct xs as [|a [|b xs]]; simpl in *.
  - reflexivity.
  - destruct Hev as [k Hk]. lia.
  - f_equal. apply IH; [lia|].
    destruct Hev as [k Hk]. exists (k - 1)%nat. lia.
Qed.

Lemma pairs_trailing xs x :
  Nat.Even (length xs) -> pairs (xs ++ [x]) = pairs xs.
Proof.
  intros H. rewrite pairs_app_even by assumption. simpl.
  apply app_nil_r.
Qed.

Lemma pairs_length xs : length (pairs xs) = (length xs / 2)%nat.
Proof.
  induction xs as [xs IH] using (induction_ltof1 _ (@length _)).
  unfold ltof in IH.
  destruct xs as [|a [|b xs]]; try reflexivity.
  cbn [pairs length]. rewrite IH by (simpl; lia).
  change (S (S (length xs))) with (1 * 2 + length xs)%nat at 1.
  symmetry. rewrite Nat.add_comm, Nat.div_add by lia. lia.
Qed.

Lemma halfLen_pairCount xs : halfLen xs = pairCount xs.
Proof.
  unfold halfLen, pairCount. rewrite pairs_length.
  rewrite Z.quot_div_nonneg by lia.
  rewrite (Nat2Z.inj_div _ 2). reflexivity.
Qed.

(** ** The interruption loop computes the sum of the pair spans *)

Lemma interruptionLoop_done fuel i xs acc :
  (length xs <= i)%nat -> interruptionLoop fuel i xs acc = acc.
Proof.
  intros H. destruct fuel; simpl; [reflexivity|].
  destruct (Nat.ltb_spec i (length xs)); [lia | reflexivity].
Qed.

Lemma interruptionLoop_spec fuel i xs acc :
  inInt64 acc ->
  (length xs <= i + fuel)%nat ->
  interruptionLoop fuel i xs acc = wrap64 (acc + pairSpans (drop i xs)).
Proof.
  revert i acc. induction fuel as [|fuel IH]; intros i acc Hacc Hfuel.
  - simpl. rewrite drop_ge by lia.
    unfold pairSpans; simpl. rewrite Z.add_0_r, wrap64_id; auto.
  - simpl. destruct (Nat.ltb_spec i (length xs)) as [Hi|Hi].
    + destruct (Nat.ltb_spec (i + 1) (length xs)) as [Hi1|Hi1].
      * destruct (lookup_lt_is_Some_2 xs i Hi) as [a Ha].
        destruct (lookup_lt_is_Some_2 xs (i + 1) Hi1) as [b Hb].
        rewrite Ha, Hb.
        rewrite IH; [| apply wrap64_range | lia].
        rewrite (drop_S xs a i Ha).
        replace (S i) with (i + 1)%nat by lia.
        rewrite (drop_S xs b (i + 1) Hb).
        replace (S (i + 1)) with (i + 2)%nat by lia.
        unfold pairSpans at 2. cbn [pairs fmap list_fmap sumZ foldr].
        fold (sumZ (span <$> pairs (drop (i + 2) xs))).
        fold (pairSpans (drop (i + 2) xs)).
        unfold dadd, span. cbn [fst snd].
        rewrite wrap64_add_l. f_equal. lia.
      * rewrite interruptionLoop_done by lia.
        destruct (lookup_lt_is_Some_2 xs i Hi) as [a Ha].
        rewrite (drop_S xs a i Ha), drop_ge by lia.
        unfold pairSpans; simpl. rewrite Z.add_0_r, wrap64_id; auto.
    + rewrite drop_ge by lia.
      unfold pairSpans; simpl. rewrite Z.add_0_r, wrap64_id; auto.
Qed.

Lemma interruptionTime_spec xs :
  interruptionTime xs = wrap64 (pairSpans xs).
Proof.
  unfold interruptionTime.
  rewrite interruptionLoop_spec; [| unfold inInt64; lia | lia].
  rewrite drop_0. reflexivity.
Qed.

(** ** Daily totals *)

Lemma account_spec w i c startTime endTime xs :
  account (w, i, c) startTime endTime xs =
  (wrap64 (w + (Sub endTime startTime - pairSpans xs)),
   wrap64 (i + pairSpans xs),
   wrap64 (c + pairCount xs)).
Proof.
  unfold account, dadd, dsub.
  rewrite interruptionTime_spec, halfLen_pairCount.
  rewrite wrap64_sub_r, !wrap64_add_r. reflexivity.
Qed.

Lemma fold_addPeriod ps w i c :
  inInt64 w -> inInt64 i -> inInt64 c ->
  fold_left addPeriod ps (w, i, c) =
  (wrap64 (w + sumZ (periodWork <$> ps)),
   wrap64 (i + sumZ ((fun p => pairSpans (periodInterruptions p)) <$> ps)),
   wrap64 (c + sumZ ((fun p => pairCount (periodInterruptions p)) <$> ps))).
Proof.
  revert w i c. induction ps as [|p ps IH]; intros w i c Hw Hi Hc.
  - simpl. rewrite !Z.add_0_r, !wrap64_id by assumption. reflexivity.
  - cbn [fold_left]. unfold addPeriod at 2. rewrite account_spec.
    rewrite IH by apply wrap64_range.
    rewrite !wrap64_add_l. cbn [fmap list_fmap sumZ foldr].
    unfold periodWork at 2.
    unfold sumZ. f_equal; [f_equal|]; f_equal; lia.
Qed.

Lemma fold_statsSubSession now subs acc :
  Forall subCompleted subs ->
  fold_left (statsSubSession now) subs acc =
  fold_left addPeriod (omap subPeriod subs) acc.
Proof.
  intros H. revert acc. induction H as [|sub subs [[a Ha] [b Hb]] _ IH];
    intros acc; [reflexivity|].
  cbn [fold_left omap list_omap]. unfold subPeriod at 1.
  unfold statsSubSession at 2. rewrite Ha, Hb.
  cbn [fold_left]. apply IH.
Qed.

Lemma statsSession_periods now acc s :
  settled s -> statsSession now acc s = fold_left addPeriod (periods s) acc.
Proof.
  unfold settled, statsSession, periods.
  destruct (SubSessions s) as [|sub subs] eqn:Hsubs.
  - intros [[a Ha] [b Hb]]. unfold sessionPeriod. rewrite Ha, Hb.
    reflexivity.
  - intros H. cbn [length Nat.ltb Nat.leb].
    apply fold_statsSubSession, H.
Qed.

Lemma fold_statsSession now ss acc :
  Forall settled ss ->
  fold_left (statsSession now) ss acc =
  fold_left addPeriod (ss ≫= periods) acc.
Proof.
  intros H. revert acc. induction H as [|s ss Hs _ IH]; intros acc;
    [reflexivity|].
  cbn [fold_left mbind list_bind]. rewrite fold_left_app.
  rewrite statsSession_periods by assumption. apply IH.
Qed.

Lemma GetStats_periodTotals now ds :
  Forall settled (Sessions ds) ->
  GetStats now ds = periodTotals (Sessions ds ≫= periods).
Proof.
  intros H. unfold GetStats. rewrite fold_statsSession by assumption.
  rewrite fold_addPeriod by (unfold inInt64; lia).
  reflexivity.
Qed.

Lemma account_trailing acc startTime endTime xs x :
  Nat.Even (length xs) ->
  account acc startTime endTime (xs ++ [x]) = account acc startTime endTime xs.
Proof.
  intros H. destruct acc as [[w i] c]. rewrite !account_spec.
  unfold pairSpans, pairCount. rewrite pairs_trailing by assumption.
  reflexivity.
Qed.

Lemma statsSession_setInterruptions_trailing now acc s xs x :
  Nat.Even (length xs) ->
  statsSession now acc (setInterruptions s (xs ++ [x])) =
  statsSession now acc (setInterruptions s xs).
Proof.
  intros H. unfold statsSession. cbn [setInterruptions SubSessions Start End_
    Interruptions].
  destruct (0 <? length (SubSessions s))%nat; [reflexivity|].
  destruct (Start s), (End_ s); try reflexivity.
  apply account_trailing, H.
Qed.

Lemma statsSubSession_trailing now acc sub xs x :
  Nat.Even (length xs) ->
  statsSubSession now acc (setSubInterruptions sub (xs ++ [x])) =
  statsSubSession now acc (setSubInterruptions sub xs).
Proof.
  intros H. unfold statsSubSession.
  cbn [setSubInterruptions subStart subEnd subInterruptions].
  destruct (subStart sub); [|reflexivity].
  apply account_trailing, H.
Qed.

Lemma periods_legacy ss :
  Forall legacyShape ss -> Forall completed ss ->
  periodTotals (ss ≫= periods) = statedTotals (dayOf ss).
Proof.
  intros Hl Hc. unfold periodTotals, statedTotals. cbn [dayOf Sessions].
  assert (E : forall f : Period -> Z, forall g : Session -> Z,
             (forall s a b, Start s = Some a -> End_ s = Some b ->
                g s = f {| periodStart := StartTime a;
                           periodEnd := StartTime b;
                           periodInterruptions := Interruptions s |}) ->
             sumZ (f <$> (ss ≫= periods)) = sumZ (g <$> ss)).
  { intros f g Hfg. induction Hl as [|s ss Hs Hss IH]; [reflexivity|].
    inversion Hc as [|? ? [[a Ha] [b Hb]] Hc']; subst.
    cbn [mbind list_bind]. rewrite fmap_app, sumZ_app, IH by assumption.
    cbn [fmap list_fmap sumZ foldr]. f_equal.
    unfold periods. rewrite Hs. unfold sessionPeriod. rewrite Ha, Hb.
    cbn. rewrite (Hfg s a b Ha Hb). lia. }
  f_equal; [f_equal|]; f_equal; apply E; intros s a b Ha Hb;
    unfold periodWork, sessionSpan; rewrite ?Ha, ?Hb; reflexivity.
Qed.

(** C1 (as the code has it). When every period of every session has its
    two ends, [GetStats] returns, in 64-bit arithmetic, work = the sum
    over the periods of (end - start) minus the spans of the period's
    interruption pairs, interruption = the sum of these spans and count =
    the number of pairs. The periods of a session are its sub-sessions
    when it has any, and the session itself otherwise; so for sessions
    without sub-sessions the sums run over the sessions. No session gives
    (0, 0, 0), and an interruption left without a return at the end of a
    sequence of even length changes none of the totals. *)
Theorem GetStats_sums_periods (now : Time) (ds : DailySessions) :
  Forall settled (Sessions ds) ->
  GetStats now ds = periodTotals (Sessions ds ≫= periods)
  /\ (Forall legacyShape (Sessions ds) ->
      GetStats now ds = statedTotals ds)
  /\ GetStats now {| Date_ := Date_ ds; Sessions := [] |} = (0, 0, 0)
  /\ (forall acc s xs x, Nat.Even (length xs) ->
        statsSession now acc (setInterruptions s (xs ++ [x])) =
        statsSession now acc (setInterruptions s xs))
  /\ (forall acc sub xs x, Nat.Even (length xs) ->
        statsSubSession now acc (setSubInterruptions sub (xs ++ [x])) =
        statsSubSession now acc (setSubInterruptions sub xs)).
Proof.
  intros Hs. split; [apply GetStats_periodTotals, Hs|].
  split.
  { intros Hl. rewrite GetStats_periodTotals by assumption.
    destruct ds as [d ss]. cbn [Sessions] in *.
    apply periods_legacy; [assumption|].
    clear -Hs Hl. induction Hs as [|s ss Hs _ IH]; constructor.
    - inversion Hl as [|? ? Hshape _]; subst.
      unfold settled in Hs. rewrite Hshape in Hs. exact Hs.
    - apply IH. inversion Hl; assumption. }
  split; [reflexivity|].
  split.
  - intros. apply statsSession_setInterruptions_trailing. assumption.
  - intros. apply statsSubSession_trailing. assumption.
Qed.

Lemma GetStats_sums_periods_witness :
  Forall settled (Sessions (dayOf [legacySession; resumedSession])) /\
  GetStats (atMinute 800) (dayOf [legacySession; resumedSession]) =
  (wrap64 (210 * Minute), wrap64 (30 * Minute), 1).
Proof.
  split.
  - repeat constructor; eexists; reflexivity.
  - rewrite (proj1 (GetStats_sums_periods (atMinute 800)
               (dayOf [legacySession; resumedSession])
               ltac:(repeat constructor; eexists; reflexivity))).
    reflexivity.
Defined.

Lemma GetStats_stated_fails_on_resumed :
  ~ GetStats_stated (atMinute 800) (dayOf [resumedSession]).
Proof.
  unfold GetStats_stated. intros H.
  assert (E : GetStats (atMinute 800) (dayOf [resumedSession]) =
              statedTotals (dayOf [resumedSession])).
  { apply H; repeat constructor; eexists; reflexivity. }
  vm_compute in E. discriminate E.
Qed.

(** ** Sessions that are still running *)

Lemma statsSession_legacy_active now acc s :
  legacyShape s -> End_ s = None -> statsSession now acc s = acc.
Proof.
  unfold legacyShape, statsSession. intros -> ->. simpl.
  destruct (Start s); reflexivity.
Qed.

Lemma statsSubSession_active now acc sub start :
  subStart sub = Some start -> subEnd sub = None ->
  statsSubSession now acc sub =
  account acc (StartTime start) now (subInterruptions sub).
Proof. unfold statsSubSession. intros -> ->. reflexivity. Qed.

(** C2 (as the code has it). A session without sub-sessions whose end
    entry is absent adds nothing to the totals of [GetStats]: the branch
    of sessions without sub-sessions requires both the start and the end.
    Only a sub-session without an end is accounted up to the current time,
    as (now - start) minus the spans of its interruption pairs. *)
Theorem GetStats_skips_legacy_active (now : Time) (s : Session)
    (earlier later : list Session) :
  legacyShape s -> End_ s = None ->
  GetStats now (dayOf (earlier ++ s :: later)) =
  GetStats now (dayOf (earlier ++ later))
  /\ (forall acc, statsSession now acc s = acc)
  /\ (forall acc sub start,
        subStart sub = Some start -> subEnd sub = None ->
        statsSubSession now acc sub =
        account acc (StartTime start) now (subInterruptions sub)).
Proof.
  intros Hshape Hend. split; [|split].
  - unfold GetStats. cbn [dayOf Sessions].
    rewrite !fold_left_app. cbn [fold_left].
    rewrite statsSession_legacy_active by assumption. reflexivity.
  - intros acc. apply statsSession_legacy_active; assumption.
  - intros acc sub start. apply statsSubSession_active.
Qed.

Lemma GetStats_skips_legacy_active_witness :
  legacyShape legacyRunning /\ End_ legacyRunning = None /\
  GetStats (atMinute 700) (dayOf ([legacySession] ++ legacyRunning :: [])) =
  GetStats (atMinute 700) (dayOf ([legacySession] ++ [])).
Proof.
  split; [reflexivity|]. split; [reflexivity|].
  apply (GetStats_skips_legacy_active (atMinute 700) legacyRunning
           [legacySession] []); reflexivity.
Defined.

Lemma legacy_active_stated_fails :
  ~ legacy_active_stated (atMinute 700) (0, 0, 0) legacyRunning.
Proof.
  unfold legacy_active_stated. intros H.
  assert (E : statsSession (atMinute 700) (0, 0, 0) legacyRunning =
              provisionalTotals (atMinute 700) (0, 0, 0) legacyRunning).
  { apply H. repeat split. eexists; reflexivity. }
  vm_compute in E. discriminate E.
Qed.

(** ** The loop over pairs *)

Lemma bind_Ok {A B} (a : A) (k : A -> result B) : bind (Ok a) k = k a.
Proof. reflexivity. Qed.

Lemma foldM_app {A St} (step : St -> A -> result St) xs ys st :
  foldM step (xs ++ ys) st = bind (foldM step xs st) (foldM step ys).
Proof.
  revert st. induction xs as [|x xs IH]; intros st; [reflexivity|].
  simpl. destruct (step st x); simpl; auto.
Qed.

Lemma pairLoop_foldM {St} (body : St -> TimeEntry -> TimeEntry -> result St)
    fuel i xs st :
  (length xs <= i + fuel)%nat ->
  pairLoop body fuel i xs st = foldM (onPair body) (pairs (drop i xs)) st.
Proof.
  revert i st. induction fuel as [|fuel IH]; intros i st Hfuel.
  - simpl. rewrite drop_ge by lia. reflexivity.
  - simpl. destruct (Nat.ltb_spec i (length xs)) as [Hi|Hi].
    + destruct (lookup_lt_is_Some_2 xs i Hi) as [a Ha].
      destruct (Nat.ltb_spec (i + 1) (length xs)) as [Hi1|Hi1].
      * destruct (lookup_lt_is_Some_2 xs (i + 1) Hi1) as [b Hb].
        rewrite Ha, Hb, (drop_S xs a i Ha).
        replace (S i) with (i + 1)%nat by lia.
        rewrite (drop_S xs b (i + 1) Hb).
        replace (S (i + 1)) with (i + 2)%nat by lia.
        cbn [pairs foldM]. unfold onPair at 1. cbn [fst snd].
        destruct (body st a b); simpl; auto.
        apply IH. lia.
      * rewrite (drop_S xs a i Ha), drop_ge by lia.
        rewrite IH by lia. rewrite drop_ge by lia. reflexivity.
    + rewrite drop_ge by lia. reflexivity.
Qed.

Lemma forPairs_foldM {St} (body : St -> TimeEntry -> TimeEntry -> result St)
    xs st :
  forPairs body xs st = foldM (onPair body) (pairs xs) st.
Proof.
  unfold forPairs. rewrite pairLoop_foldM by lia.
  rewrite drop_0. reflexivity.
Qed.

Lemma foldM_sessions {St} (body : St -> TimeEntry -> TimeEntry -> result St)
    (ss : list Session) st :
  foldM (fun st session => forPairs body (Interruptions session) st) ss st =
  foldM (onPair body) (ss ≫= (fun s => pairs (Interruptions s))) st.
Proof.
  revert st. induction ss as [|s ss IH]; intros st; [reflexivity|].
  cbn [foldM mbind list_bind]. rewrite foldM_app, forPairs_foldM.
  destruct (foldM (onPair body) (pairs (Interruptions s)) st); simpl; auto.
Qed.

(** ** Statistics by tag *)

Lemma recordTagPair_Some m p stats :
  m !! pairTag p = Some stats ->
  onPair recordTagPair m p = Ok (<[pairTag p := bumpStats stats p]> m).
Proof.
  unfold onPair, recordTagPair, pairTag. intros ->. reflexivity.
Qed.

Lemma recordTagPair_None m p :
  m !! pairTag p = None -> onPair recordTagPair m p = Panic.
Proof. unfold onPair, recordTagPair, pairTag. intros ->. reflexivity. Qed.

Lemma pairsTagged_cons_eq p ps :
  pairsTagged (pairTag p) (p :: ps) = p :: pairsTagged (pairTag p) ps.
Proof. unfold pairsTagged. rewrite filter_cons_True; auto. Qed.

Lemma pairsTagged_cons_ne tag p ps :
  pairTag p <> tag -> pairsTagged tag (p :: ps) = pairsTagged tag ps.
Proof. intros H. unfold pairsTagged. rewrite filter_cons_False; auto. Qed.

Lemma collect_known ps (m : gmap InterruptionTag InterruptionTagStats) :
  Forall (fun p => is_Some (m !! pairTag p)) ps ->
  exists m',
    foldM (onPair recordTagPair) ps m = Ok m' /\
    forall tag,
      m' !! tag =
      (fun stats => fold_left bumpStats (pairsTagged tag ps) stats)
        <$> (m !! tag).
Proof.
  revert m. induction ps as [|p ps IH]; intros m Hall.
  - exists m. split; [reflexivity|]. intros tag.
    destruct (m !! tag); reflexivity.
  - inversion Hall as [|? ? [stats Hstats] Hrest]; subst.
    destruct (IH (<[pairTag p := bumpStats stats p]> m)) as [m' [Hm' Hlook]].
    { eapply Forall_impl; [exact Hrest|]. intros q [st Hq].
      destruct (decide (pairTag p = pairTag q)) as [E|E].
      - rewrite <- E, lookup_insert_eq. eauto.
      - rewrite lookup_insert_ne by assumption. eauto. }
    exists m'. split.
    + cbn [foldM]. rewrite (recordTagPair_Some _ _ _ Hstats). exact Hm'.
    + intros tag. rewrite Hlook.
      destruct (decide (pairTag p = tag)) as [<-|E].
      * rewrite lookup_insert_eq, Hstats, pairsTagged_cons_eq. reflexivity.
      * rewrite lookup_insert_ne, pairsTagged_cons_ne by assumption.
        reflexivity.
Qed.

Lemma collect_unknown ps (m : gmap InterruptionTag InterruptionTagStats) :
  Exists (fun p => m !! pairTag p = None) ps ->
  foldM (onPair recordTagPair) ps m = Panic.
Proof.
  revert m. induction ps as [|p ps IH]; intros m Hex.
  - inversion Hex.
  - cbn [foldM]. destruct (m !! pairTag p) as [stats|] eqn:Hp.
    + rewrite (recordTagPair_Some _ _ _ Hp). cbn [bind]. apply IH.
      inversion Hex as [? ? Hhead|? ? Htail]; subst; [congruence|].
      eapply Exists_impl; [exact Htail|]. intros q Hq. cbn beta in *.
      destruct (decide (pairTag p = pairTag q)) as [E|E].
      * rewrite <- E in Hq. congruence.
      * rewrite lookup_insert_ne by assumption. exact Hq.
    + rewrite (recordTagPair_None _ _ Hp). reflexivity.
Qed.

Lemma bumpStats_fold qs stats :
  inInt64 (Count stats) -> inInt64 (TotalTime stats) ->
  inInt64 (RecoveryTime stats) -> inInt64 (TotalWithRecovery stats) ->
  fold_left bumpStats qs stats =
  {| statTag := statTag stats;
     Count := wrap64 (Count stats + Z.of_nat (length qs));
     TotalTime := wrap64 (TotalTime stats + sumZ (span <$> qs));
     RecoveryTime :=
       wrap64 (RecoveryTime stats + 10 * Minute * Z.of_nat (length qs));
     TotalWithRecovery :=
       wrap64 (TotalWithRecovery stats + sumZ (span <$> qs)
               + 10 * Minute * Z.of_nat (length qs));
     AverageTime := AverageTime stats |}.
Proof.
  revert stats. induction qs as [|q qs IH]; intros stats Hc Ht Hr Hw.
  - cbn [fold_left length fmap list_fmap sumZ foldr].
    change (Z.of_nat 0) with 0.
    rewrite !Z.mul_0_r, !Z.add_0_r, !wrap64_id by assumption.
    destruct stats; reflexivity.
  - cbn [fold_left]. rewrite IH by (cbn; apply wrap64_range).
    cbn [bumpStats statTag Count TotalTime RecoveryTime TotalWithRecovery
         AverageTime length fmap list_fmap sumZ foldr].
    unfold dadd, dmul.
    replace (wrap64 (10 * Minute)) with (10 * Minute) by reflexivity.
    rewrite !wrap64_add_r, <- !Z.add_assoc, !wrap64_add_l.
    rewrite Nat2Z.inj_succ. unfold sumZ.
    f_equal; f_equal; lia.
Qed.

Lemma withAverage_fold ps tag :
  withAverage (fold_left bumpStats (pairsTagged tag ps) (newTagStats tag)) =
  tagStatsOf ps tag.
Proof.
  rewrite bumpStats_fold by (cbn; unfold inInt64; lia).
  unfold withAverage, tagStatsOf, ddiv.
  cbn [newTagStats statTag Count TotalTime RecoveryTime TotalWithRecovery
       AverageTime].
  rewrite !Z.add_0_l, wrap64_add_l, wrap64_add_r.
  destruct (0 <? wrap64 (Z.of_nat (length (pairsTagged tag ps))));
    reflexivity.
Qed.

Lemma knownTag_iff tag :
  knownTag tag <->
  tag = TagCall \/ tag = TagMeeting \/ tag = TagSpouse \/ tag = TagOther.
Proof.
  unfold knownTag, GetInterruptionTags.
  rewrite !elem_of_cons, elem_of_nil. tauto.
Qed.

Ltac tag_distinct :=
  let E := fresh in
  intros E; subst;
  match goal with H : _ <> _ |- _ => apply H; reflexivity end.

Lemma initialStatsMap_lookup tag :
  initialStatsMap !! tag =
  if decide (knownTag tag) then Some (newTagStats tag) else None.
Proof.
  unfold initialStatsMap, GetInterruptionTags. cbn [foldl].
  destruct (decide (tag = TagOther)) as [->|H1];
    [rewrite lookup_insert_eq, decide_True by (apply knownTag_iff; auto);
     reflexivity|].
  rewrite lookup_insert_ne by tag_distinct.
  destruct (decide (tag = TagSpouse)) as [->|H2];
    [rewrite lookup_insert_eq, decide_True by (apply knownTag_iff; auto);
     reflexivity|].
  rewrite lookup_insert_ne by tag_distinct.
  destruct (decide (tag = TagMeeting)) as [->|H3];
    [rewrite lookup_insert_eq, decide_True by (apply knownTag_iff; auto);
     reflexivity|].
  rewrite lookup_insert_ne by tag_distinct.
  destruct (decide (tag = TagCall)) as [->|H4];
    [rewrite lookup_insert_eq, decide_True by (apply knownTag_iff; auto);
     reflexivity|].
  rewrite lookup_insert_ne by tag_distinct.
  rewrite lookup_empty, decide_False; [reflexivity|].
  rewrite knownTag_iff. tauto.
Qed.

Lemma collectTagStats_pairs ds :
  collectTagStats ds =
  foldM (onPair recordTagPair) (dayPairs ds) initialStatsMap.
Proof. unfold collectTagStats, dayPairs. apply foldM_sessions. Qed.

(** When every completed pair carries one of the four predeclared tags or
    no tag, the result holds exactly one record for each predeclared tag,
    with the fields of [tagStatsOf]. *)
Lemma GetInterruptionTagStats_known ds :
  Forall (fun p => knownTag (pairTag p)) (dayPairs ds) ->
  exists l,
    GetInterruptionTagStats ds = Ok l /\
    l ≡ₚ tagStatsOf (dayPairs ds) <$> GetInterruptionTags.
Proof.
  intros Hknown.
  destruct (collect_known (dayPairs ds) initialStatsMap) as [m' [Hm' Hlook]].
  { eapply Forall_impl; [exact Hknown|]. intros p Hp. cbn beta.
    rewrite initialStatsMap_lookup, decide_True by assumption. eauto. }
  unfold GetInterruptionTagStats. rewrite collectTagStats_pairs, Hm'.
  cbn [bind]. eexists. split; [reflexivity|].
  set (F := fun tag =>
              fold_left bumpStats (pairsTagged tag (dayPairs ds))
                        (newTagStats tag)).
  assert (E : m' = list_to_map ((fun tag => (tag, F tag))
                                  <$> GetInterruptionTags)).
  { apply map_eq. intros tag. rewrite Hlook, initialStatsMap_lookup.
    unfold GetInterruptionTags. cbn [fmap list_fmap list_to_map foldr].
    destruct (decide (tag = TagCall)) as [->|H1];
      [rewrite lookup_insert_eq; reflexivity|].
    rewrite lookup_insert_ne by tag_distinct.
    destruct (decide (tag = TagMeeting)) as [->|H2];
      [rewrite lookup_insert_eq; reflexivity|].
    rewrite lookup_insert_ne by tag_distinct.
    destruct (decide (tag = TagSpouse)) as [->|H3];
      [rewrite lookup_insert_eq; reflexivity|].
    rewrite lookup_insert_ne by tag_distinct.
    destruct (decide (tag = TagOther)) as [->|H4];
      [rewrite lookup_insert_eq; reflexivity|].
    rewrite lookup_insert_ne by tag_distinct.
    rewrite lookup_empty, decide_False; [reflexivity|].
    rewrite knownTag_iff. tauto. }
  rewrite E, map_to_list_to_map.
  - rewrite <- !list_fmap_compose. apply Permutation_refl'.
    cbn. unfold F. rewrite !withAverage_fold. reflexivity.
  - rewrite <- list_fmap_compose. cbn.
    apply (bool_decide_unpack _). vm_compute. exact I.
Qed.

(** C3. A completed interruption whose tag is none of the four
    predeclared tags stops [GetInterruptionTagStats] with a nil-pointer
    panic: the map holds entries for the predeclared tags only and the
    entry of another tag is never created. *)
Theorem GetInterruptionTagStats_custom_tag_panics (ds : DailySessions) :
  Exists (fun p => ~ knownTag (pairTag p)) (dayPairs ds) ->
  GetInterruptionTagStats ds = Panic.
Proof.
  intros Hex. unfold GetInterruptionTagStats.
  rewrite collectTagStats_pairs, collect_unknown; [reflexivity|].
  eapply Exists_impl; [exact Hex|]. intros p Hp. cbn beta.
  rewrite initialStatsMap_lookup, decide_False by assumption. reflexivity.
Qed.

Lemma GetInterruptionTagStats_custom_tag_panics_witness :
  Exists (fun p => ~ knownTag (pairTag p)) (dayPairs (dayOf [lunchSession]))
  /\ GetInterruptionTagStats (dayOf [lunchSession]) = Panic.
Proof.
  assert (H : Exists (fun p => ~ knownTag (pairTag p))
                (dayPairs (dayOf [lunchSession]))).
  { constructor. rewrite knownTag_iff.
    intros [E|[E|[E|E]]]; discriminate E. }
  split; [exact H|].
  exact (GetInterruptionTagStats_custom_tag_panics (dayOf [lunchSession]) H).
Defined.

(** One completed call of 30 minutes: the record of the tag "call". *)
Example GetInterruptionTagStats_call_30m :
  exists l,
    GetInterruptionTagStats (dayOf [legacySession]) = Ok l /\
    length l = 4%nat /\
    {| statTag := TagCall; Count := 1; TotalTime := 30 * Minute;
       RecoveryTime := 10 * Minute; TotalWithRecovery := 40 * Minute;
       AverageTime := 30 * Minute |} ∈ l.
Proof.
  destruct (GetInterruptionTagStats_known (dayOf [legacySession]))
    as [l [Hl Hperm]].
  { repeat constructor. }
  exists l. split; [exact Hl|]. split.
  - rewrite Hperm. reflexivity.
  - rewrite Hperm. apply list_elem_of_here.
Defined.

(** ** The productivity score *)

Lemma CalculateProductivityScore_no_work s :
  TotalWorkDuration s = 0 -> CalculateProductivityScore s = 0%float.
Proof. unfold CalculateProductivityScore. intros ->. reflexivity. Qed.

(** The cap: the score is never above 100. *)
Lemma CalculateProductivityScore_capped s :
  PrimFloat.ltb 100%float (CalculateProductivityScore s) = false.
Proof.
  unfold CalculateProductivityScore.
  destruct (TotalWorkDuration s =? 0); [reflexivity|].
  cbv zeta.
  match goal with
  | |- context [if PrimFloat.ltb 100%float ?x then _ else _] =>
      destruct (PrimFloat.ltb 100%float x) eqn:E
  end; [reflexivity | exact E].
Qed.

(** C4. With six interruptions in one session the penalty factor is
    (6 - 0.5) x 0.2 = 1.1, the score is multiplied by a negative number
    and nothing raises it back to 0: the result lies below the interval
    [0, 100]. *)
Theorem CalculateProductivityScore_below_zero :
  TotalWorkDuration busyHour <> 0 /\
  PrimFloat.ltb (CalculateProductivityScore busyHour) 0%float = true /\
  PrimFloat.ltb (CalculateProductivityScore busyHour) (-4.75)%float = true /\
  PrimFloat.ltb (-4.875)%float (CalculateProductivityScore busyHour) = true.
Proof. split; [discriminate|]. vm_compute. auto. Qed.

(** ** Paired sequences *)

Lemma pair_induction (P : list TimeEntry -> Prop) :
  P [] -> (forall a, P [a]) ->
  (forall a b rest, P rest -> P (a :: b :: rest)) ->
  forall xs, P xs.
Proof.
  intros H0 H1 H2.
  assert (H : forall xs, P xs /\ forall a, P (a :: xs)).
  { induction xs as [|x xs [IH1 IH2]]; split; auto. }
  intros xs. apply H.
Qed.

Lemma interrupted_odd xs : interrupted xs = true <-> Nat.Odd (length xs).
Proof.
  unfold interrupted.
  destruct (Nat.Even_or_Odd (length xs)) as [[k Hk]|[k Hk]]; rewrite Hk.
  - replace ((2 * k) mod 2)%nat with 0%nat
      by (rewrite Nat.mul_comm, Nat.Div0.mod_mul; reflexivity).
    cbn [Nat.eqb negb]. rewrite andb_false_r.
    split; [discriminate|]. intros [j Hj]. lia.
  - replace ((2 * k + 1) mod 2)%nat with 1%nat
      by (rewrite Nat.add_comm, Nat.mul_comm, Nat.Div0.mod_add; reflexivity).
    replace (0 <? 2 * k + 1)%nat with true
      by (symmetry; apply Nat.ltb_lt; lia).
    split; [intros _; exists k; reflexivity | reflexivity].
Qed.

Lemma interrupted_even xs : interrupted xs = false <-> Nat.Even (length xs).
Proof.
  destruct (Nat.Even_or_Odd (length xs)) as [He|Ho].
  - split; [auto|]. intros _.
    destruct (interrupted xs) eqn:E; [|reflexivity].
    apply interrupted_odd in E.
    exfalso. apply (Nat.Even_Odd_False _ He E).
  - split; [|intros He; exfalso; apply (Nat.Even_Odd_False _ He Ho)].
    apply interrupted_odd in Ho. congruence.
Qed.

Lemma paired_app xs ys :
  pairedSequence xs -> Nat.Even (length xs) -> pairedSequence ys ->
  pairedSequence (xs ++ ys).
Proof.
  revert xs. apply (pair_induction
    (fun xs => pairedSequence xs -> Nat.Even (length xs) ->
               pairedSequence ys -> pairedSequence (xs ++ ys))).
  - intros _ _ H. exact H.
  - intros a _ [k Hk]. simpl in Hk. lia.
  - intros a b rest IH (Ha & Hb & Hrest) [k Hk] Hys.
    cbn [app pairedSequence]. repeat split; auto.
    apply IH; auto. exists (k - 1)%nat. simpl in Hk. lia.
Qed.

Lemma paired_app_odd xs y ys :
  pairedSequence xs -> Nat.Odd (length xs) ->
  pairedSequence (xs ++ y :: ys) ->
  Type_ y = EntryTypeReturn /\ pairedSequence ys.
Proof.
  revert xs. apply (pair_induction
    (fun xs => pairedSequence xs -> Nat.Odd (length xs) ->
               pairedSequence (xs ++ y :: ys) ->
               Type_ y = EntryTypeReturn /\ pairedSequence ys)).
  - intros _ [k Hk]. simpl in Hk. lia.
  - intros a _ _ H. cbn [app pairedSequence] in H. tauto.
  - intros a b rest IH (_ & _ & Hrest) [k Hk] H.
    cbn [app pairedSequence] in H. destruct H as (_ & _ & H).
    apply IH; auto. exists (k - 1)%nat. simpl in Hk. lia.
Qed.

Lemma paired_snoc_return xs y :
  pairedSequence xs -> Nat.Odd (length xs) -> Type_ y = EntryTypeReturn ->
  pairedSequence (xs ++ [y]).
Proof.
  revert xs. apply (pair_induction
    (fun xs => pairedSequence xs -> Nat.Odd (length xs) ->
               Type_ y = EntryTypeReturn -> pairedSequence (xs ++ [y]))).
  - intros _ [k Hk]. simpl in Hk. lia.
  - intros a Ha _ Hy. cbn. auto.
  - intros a b rest IH (Ha & Hb & Hrest) [k Hk] Hy.
    cbn [app pairedSequence]. repeat split; auto.
    apply IH; auto. exists (k - 1)%nat. simpl in Hk. lia.
Qed.

Lemma paired_head ys : pairedSequence ys -> ys <> [] ->
  exists y rest, ys = y :: rest /\ Type_ y = EntryTypeInterruption.
Proof.
  destruct ys as [|y [|z rest]]; [congruence| |]; intros H _.
  - exists y, []. auto.
  - exists y, (z :: rest). split; [reflexivity|]. apply H.
Qed.

(** When both sequences are paired, their concatenation is paired exactly
    when the first has no interruption open or the second is empty. *)
Lemma paired_app_iff xs ys :
  pairedSequence xs -> pairedSequence ys ->
  (pairedSequence (xs ++ ys) <-> Nat.Even (length xs) \/ ys = []).
Proof.
  intros Hxs Hys. split.
  - intros H. destruct (Nat.Even_or_Odd (length xs)) as [He|Ho]; [auto|].
    right. destruct ys as [|y rest]; [reflexivity|].
    destruct (paired_app_odd xs y rest Hxs Ho H) as [Hy _].
    destruct (paired_head (y :: rest) Hys ltac:(discriminate))
      as (y' & rest' & E & Hy').
    inversion E; subst. congruence.
  - intros [He | ->]; [apply paired_app; auto|].
    rewrite app_nil_r. exact Hxs.
Qed.

Lemma gapEntries_paired now s1 s2 : pairedSequence (gapEntries now s1 s2).
Proof.
  unfold gapEntries. repeat case_match; cbn; auto.
Qed.

Lemma gapEntries_even now s1 s2 : Nat.Even (length (gapEntries now s1 s2)).
Proof.
  unfold gapEntries. repeat case_match; cbn; try (exists 0%nat; reflexivity).
  exists 1%nat; reflexivity.
Qed.

(** The sequence of a merged session is paired exactly when no
    interruption is left open in front of entries that follow it. *)
Lemma mergedSession_paired_iff now s1 s2 :
  pairedSequence (Interruptions s1) -> pairedSequence (Interruptions s2) ->
  (pairedSequence (Interruptions (mergedSession now s1 s2)) <->
   (Nat.Even (length (Interruptions s1)) \/ Interruptions s2 = []) /\
   (Nat.Even (length (Interruptions s1 ++ Interruptions s2)) \/
    gapEntries now s1 s2 = [])).
Proof.
  intros H1 H2. cbn [mergedSession Interruptions].
  pose proof (gapEntries_paired now s1 s2) as Hg.
  pose proof (paired_app_iff _ _ H1 H2) as E12.
  split.
  - intros H.
    assert (H12 : pairedSequence (Interruptions s1 ++ Interruptions s2)).
    { destruct (gapEntries now s1 s2) as [|g gs] eqn:Eg.
      - rewrite app_nil_r in H. exact H.
      - destruct (Nat.Even_or_Odd (length (Interruptions s1))) as [He|Ho];
          [apply paired_app; auto|].
        destruct (Interruptions s2) as [|y rest] eqn:E2.
        + rewrite app_nil_r. exact H1.
        + rewrite <- !app_assoc in H. cbn [app] in H.
          destruct (paired_app_odd _ _ _ H1 Ho H) as [Hy _].
          destruct (paired_head (y :: rest) H2 ltac:(discriminate))
            as (y' & rest' & E & Hy').
          inversion E; subst. congruence. }
    split; [apply E12, H12|].
    apply (paired_app_iff _ _ H12 Hg), H.
  - intros [Ha Hb].
    assert (H12 : pairedSequence (Interruptions s1 ++ Interruptions s2))
      by (apply E12, Ha).
    apply (paired_app_iff _ _ H12 Hg), Hb.
Qed.

(** ** The commands that interrupt and resume *)

Section Commands.
Context {deps : Deps}.

Lemma saveDay_state ui fs now random okText errText :
  currentDay (saveDay ui fs now random okText errText).1 = currentDay ui /\
  activeSession (saveDay ui fs now random okText errText).1 =
  activeSession ui.
Proof. unfold saveDay. case_match; auto. Qed.

Lemma currentSubSession_update f s :
  currentSubSession (updateCurrentSubSession f s) =
  f <$> currentSubSession s.
Proof.
  unfold currentSubSession, updateCurrentSubSession. cbn [SubSessions].
  rewrite !last_lookup, length_alter, <- Nat.sub_1_r.
  apply list_lookup_alter_eq.
Qed.

Lemma updateActive_lookup ui f i s :
  activeSession ui = Some i ->
  Sessions (currentDay ui) !! i = Some s ->
  Sessions (currentDay (updateActive ui f)) !! i = Some (f s) /\
  (forall j, j <> i ->
     Sessions (currentDay (updateActive ui f)) !! j =
     Sessions (currentDay ui) !! j) /\
  activeSession (updateActive ui f) = Some i.
Proof.
  intros Hi Hs. unfold updateActive. rewrite Hi.
  cbn [setSessions currentDay Sessions activeSession].
  rewrite list_lookup_alter_eq, Hs. repeat split; auto.
  intros j Hj. apply list_lookup_alter_ne. auto.
Qed.

Lemma interrupted_snoc xs e : interrupted (xs ++ [e]) = negb (interrupted xs).
Proof.
  destruct (Nat.Even_or_Odd (length xs)) as [He|Ho].
  - rewrite (proj2 (interrupted_even xs) He). apply interrupted_odd.
    rewrite length_app. destruct He as [k Hk]. exists k. simpl. lia.
  - rewrite (proj2 (interrupted_odd xs) Ho). apply interrupted_even.
    rewrite length_app. destruct Ho as [k Hk]. exists (k + 1)%nat.
    simpl. lia.
Qed.

Lemma appendBoth_keeps entry s sub :
  currentSubSession s = Some sub ->
  (interrupted (subInterruptions sub) = false /\
   Type_ entry = EntryTypeInterruption) \/
  (interrupted (subInterruptions sub) = true /\
   Type_ entry = EntryTypeReturn) ->
  (Forall subPaired (SubSessions s) ->
   Forall subPaired (SubSessions (appendBoth entry s))) /\
  (pairedSequence (Interruptions s) -> mirrored s ->
   pairedSequence (Interruptions (appendBoth entry s)) /\
   mirrored (appendBoth entry s)).
Proof.
  intros Hsub Hcase.
  assert (Hsnoc : forall xs, pairedSequence xs ->
            interrupted xs = interrupted (subInterruptions sub) ->
            pairedSequence (xs ++ [entry])).
  { intros xs Hxs Hsame.
    destruct Hcase as [[Hint Hty]|[Hint Hty]]; rewrite Hint in Hsame.
    - apply paired_app; [exact Hxs | apply interrupted_even, Hsame |].
      cbn. exact Hty.
    - apply paired_snoc_return;
        [exact Hxs | apply interrupted_odd, Hsame | exact Hty]. }
  split.
  - intros Hall. unfold appendBoth, appendInterruption.
    cbn [SubSessions updateCurrentSubSession].
    apply Forall_alter; [exact Hall|].
    intros sub' Hlook Hp.
    unfold currentSubSession in Hsub.
    rewrite last_lookup, <- Nat.sub_1_r, Hlook in Hsub.
    inversion Hsub; subst sub'.
    unfold subPaired, appendSubInterruption. cbn [subInterruptions].
    apply Hsnoc; [exact Hp | reflexivity].
  - intros Hp Hm. unfold mirrored in Hm. rewrite Hsub in Hm. split.
    + unfold appendBoth, appendInterruption. cbn [Interruptions].
      apply Hsnoc; assumption.
    + unfold mirrored, appendBoth, appendInterruption.
      unfold currentSubSession at 1. cbn [SubSessions Interruptions].
      fold (currentSubSession
              (updateCurrentSubSession (appendSubInterruption entry) s)).
      rewrite currentSubSession_update, Hsub. cbn [fmap option_fmap option_map
        appendSubInterruption subInterruptions].
      cbn [updateCurrentSubSession Interruptions].
      rewrite !interrupted_snoc, Hm. reflexivity.
Qed.

Lemma chosenEntry_type now choice entry :
  chosenEntry now choice = Some entry -> Type_ entry = EntryTypeInterruption.
Proof. destruct choice; intros H; inversion H; reflexivity. Qed.

Lemma currentSubSession_nonempty s sub :
  currentSubSession s = Some sub -> (0 <? length (SubSessions s))%nat = true.
Proof.
  unfold currentSubSession. destruct (SubSessions s); [discriminate|].
  reflexivity.
Qed.

Lemma keepsPairing_refl ui ui' i s :
  currentDay ui' = currentDay ui ->
  Sessions (currentDay ui) !! i = Some s -> keepsPairing ui ui' i s.
Proof.
  intros E Hs. exists s. rewrite E. repeat split; auto.
Qed.

Lemma keepsPairing_appendBoth ui fs now random okText errText entry i s sub :
  activeSession ui = Some i ->
  Sessions (currentDay ui) !! i = Some s ->
  currentSubSession s = Some sub ->
  (interrupted (subInterruptions sub) = false /\
   Type_ entry = EntryTypeInterruption) \/
  (interrupted (subInterruptions sub) = true /\
   Type_ entry = EntryTypeReturn) ->
  keepsPairing ui
    (saveDay (updateActive ui (appendBoth entry)) fs now random
             okText errText).1 i s.
Proof.
  intros Hi Hs Hsub Hcase.
  destruct (updateActive_lookup ui (appendBoth entry) i s Hi Hs)
    as (Hl & Hother & _).
  destruct (saveDay_state (updateActive ui (appendBoth entry)) fs now random
              okText errText) as [Hday _].
  destruct (appendBoth_keeps entry s sub Hsub Hcase) as [Hsubs Hseq].
  exists (appendBoth entry s). rewrite Hday. repeat split; auto.
  - apply Hseq; assumption.
  - apply Hseq; assumption.
Qed.

Lemma interruptSession_keeps ui fs now random choice i s :
  activeSession ui = Some i ->
  Sessions (currentDay ui) !! i = Some s ->
  keepsPairing ui (interruptSession ui fs now random choice).1 i s.
Proof.
  intros Hi Hs. unfold interruptSession, active. rewrite Hi, Hs.
  destruct (currentSubSession s) as [sub|] eqn:Hsub;
    [|apply keepsPairing_refl; auto].
  destruct (interrupted (subInterruptions sub)) eqn:Hint;
    [apply keepsPairing_refl; auto|].
  destruct (chosenEntry now choice) as [entry|] eqn:Hentry;
    [|apply keepsPairing_refl; auto].
  unfold recordInterruption.
  replace (updateActive ui _) with (updateActive ui (appendBoth entry)).
  - eapply keepsPairing_appendBoth; eauto.
    left. split; [exact Hint|]. eapply chosenEntry_type; eauto.
  - unfold updateActive. rewrite Hi. f_equal.
    apply list_alter_ext; [|reflexivity].
    intros s0 Hs0. rewrite Hs in Hs0. inversion Hs0; subst s0.
    rewrite (currentSubSession_nonempty s sub Hsub). reflexivity.
Qed.

Lemma backFromInterruption_keeps ui fs now random i s :
  activeSession ui = Some i ->
  Sessions (currentDay ui) !! i = Some s ->
  keepsPairing ui (backFromInterruption ui fs now random).1 i s.
Proof.
  intros Hi Hs. unfold backFromInterruption, active. rewrite Hi, Hs.
  destruct (currentSubSession s) as [sub|] eqn:Hsub;
    [|apply keepsPairing_refl; auto].
  destruct (interrupted (subInterruptions sub)) eqn:Hint; cbn [negb];
    [|apply keepsPairing_refl; auto].
  eapply (keepsPairing_appendBoth ui fs now random _ _
            (NewTimeEntry now EntryTypeReturn "")); eauto.
Qed.

Lemma interruptSession_refused ui fs now random choice s sub :
  active ui = Some s -> currentSubSession s = Some sub ->
  interrupted (subInterruptions sub) = true ->
  interruptSession ui fs now random choice =
  (setStatus ui "[red]Already interrupted. Press 'b' to return", fs).
Proof.
  intros Ha Hsub Hint. unfold interruptSession.
  rewrite Ha, Hsub, Hint. reflexivity.
Qed.

Lemma backFromInterruption_refused ui fs now random s sub :
  active ui = Some s -> currentSubSession s = Some sub ->
  interrupted (subInterruptions sub) = false ->
  backFromInterruption ui fs now random =
  (setStatus ui "[red]Not currently interrupted", fs).
Proof.
  intros Ha Hsub Hint. unfold backFromInterruption.
  rewrite Ha, Hsub, Hint. reflexivity.
Qed.

End Commands.

Lemma mergedSession_subPaired now s1 s2 :
  Forall subPaired (SubSessions s1) -> Forall subPaired (SubSessions s2) ->
  Forall subPaired (SubSessions (mergedSession now s1 s2)).
Proof. intros H1 H2. cbn [mergedSession SubSessions]. apply Forall_app; auto. Qed.

(** C5 (as the code has it). Interrupting and returning act on the
    active session only. Interrupting is refused while the current
    sub-session has an interruption open, returning is refused while it
    has none; when they are accepted, the sequences of the sub-sessions
    stay paired, and so does the sequence kept on the session provided it
    mirrors the current sub-session. Merging concatenates the two
    sequences and appends the entries of the gap; when both sequences are
    paired the result is paired exactly when the first has no
    interruption open (or nothing follows it) and the concatenation has
    none open in front of the entries of the gap. *)
Theorem sequences_stay_paired `{deps : Deps} (ui : TimerUI)
    (fs : FileSystem) (now : Time) (random : bytes) (i : nat) (s : Session) :
  activeSession ui = Some i ->
  Sessions (currentDay ui) !! i = Some s ->
  (forall choice,
     keepsPairing ui (interruptSession ui fs now random choice).1 i s)
  /\ keepsPairing ui (backFromInterruption ui fs now random).1 i s
  /\ (forall sub choice,
        currentSubSession s = Some sub ->
        interrupted (subInterruptions sub) = true ->
        interruptSession ui fs now random choice =
        (setStatus ui "[red]Already interrupted. Press 'b' to return", fs))
  /\ (forall sub,
        currentSubSession s = Some sub ->
        interrupted (subInterruptions sub) = false ->
        backFromInterruption ui fs now random =
        (setStatus ui "[red]Not currently interrupted", fs))
  /\ (forall s1 s2,
        pairedSequence (Interruptions s1) ->
        pairedSequence (Interruptions s2) ->
        (pairedSequence (Interruptions (mergedSession now s1 s2)) <->
         (Nat.Even (length (Interruptions s1)) \/ Interruptions s2 = []) /\
         (Nat.Even (length (Interruptions s1 ++ Interruptions s2)) \/
          gapEntries now s1 s2 = [])))
  /\ (forall s1 s2,
        Forall subPaired (SubSessions s1) ->
        Forall subPaired (SubSessions s2) ->
        Forall subPaired (SubSessions (mergedSession now s1 s2))).
Proof.
  intros Hi Hs.
  assert (Ha : active ui = Some s) by (unfold active; rewrite Hi; exact Hs).
  split; [intros choice; apply interruptSession_keeps; assumption|].
  split; [apply backFromInterruption_keeps; assumption|].
  split; [intros sub choice; apply interruptSession_refused; assumption|].
  split; [intros sub; apply backFromInterruption_refused; assumption|].
  split; [intros s1 s2; apply mergedSession_paired_iff|].
  intros s1 s2. apply mergedSession_subPaired.
Qed.

Lemma sequences_stay_paired_witness :
  activeSession pausedUI = Some 0%nat /\
  Sessions (currentDay pausedUI) !! 0%nat = Some pausedSession /\
  keepsPairing pausedUI
    (backFromInterruption (deps := worldOf UTC [] []) pausedUI noFiles
       (atMinute 800) []).1 0%nat pausedSession.
Proof.
  split; [reflexivity|]. split; [reflexivity|].
  exact (proj1 (proj2 (sequences_stay_paired (deps := worldOf UTC [] [])
           pausedUI noFiles (atMinute 800) [] 0%nat pausedSession
           eq_refl eq_refl))).
Defined.

(** The sentence C5 on merging, as it is written, fails when the session
    that starts first has an interruption open. *)
Lemma merge_keeps_paired_fails :
  ~ merge_keeps_paired (atMinute 800) (dayOf [pausedSession; meetingSession])
      0 1.
Proof.
  unfold merge_keeps_paired. intros H.
  assert (Hp : Forall (fun s => pairedSequence (Interruptions s))
                 (Sessions (dayOf [pausedSession; meetingSession])))
    by (repeat constructor).
  specialize (H Hp _ eq_refl). cbn in H.
  inversion H as [|? ? Hm _]. destruct Hm as (_ & Hret & _).
  discriminate Hret.
Qed.

(** ** Merging two sessions *)





Lemma mergeDay_invalid_indices now day session1Index session2Index :
  session1Index < 0 \/ Z.of_nat (length (Sessions day)) <= session1Index \/
  session2Index < 0 \/ Z.of_nat (length (Sessions day)) <= session2Index \/
  session1Index = session2Index ->
  mergeDay now day session1Index session2Index = Err "invalid session indices".
Proof.
  intros H. unfold mergeDay.
  replace ((session1Index <? 0)
           || (Z.of_nat (length (Sessions day)) <=? session1Index)
           || (session2Index <? 0)
           || (Z.of_nat (length (Sessions day)) <=? session2Index)
           || (session1Index =? session2Index)) with true; [reflexivity|].
  symmetry. rewrite !orb_true_iff.
  rewrite !Z.ltb_lt, !Z.leb_le, Z.eqb_eq. tauto.
Qed.


(** ** Encryption *)

Lemma encrypt_disabled `{deps : Deps} s random data :
  encryptionEnabled s = false ->
  encrypt s random data = Ok data /\ decrypt s data = Ok data.
Proof. intros H. unfold encrypt, decrypt. rewrite H. auto. Qed.


Lemma decrypt_sealed `{deps : Deps} s key nonce plaintext :
  aeadTagged aesgcm ->
  encryptionEnabled s = true -> validKey (encryptionKey s) = true ->
  length nonce = 12%nat ->
  decrypt s (nonce ++ Seal aesgcm key nonce plaintext) =
  match Open aesgcm (encryptionKey s) nonce (Seal aesgcm key nonce plaintext)
  with
  | Some p => Ok p
  | None => Err "failed to decrypt data"
  end.
Proof.
  intros Htag He Hk Hn. unfold decrypt. rewrite He, Hk. cbn [negb].
  assert (Hlen : (length (nonce ++ Seal aesgcm key nonce plaintext) <? 13)%nat
                 = false).
  { apply Nat.ltb_ge. rewrite length_app, Hn.
    specialize (Htag key nonce plaintext).
    destruct (Seal aesgcm key nonce plaintext); [congruence|]. simpl. lia. }
  rewrite Hlen.
  rewrite <- Hn at 1 2. rewrite take_app_length, drop_app_length.
  reflexivity.
Qed.



(** *** No cipher of the shape of AES-GCM rejects every other key

    There are more keys of 32 bytes than sealed messages of a given
    length, so that two keys seal a short payload to the same bytes; what
    one of them sealed the other one opens. *)



(** The shape is that of a cipher that opens what it sealed. *)
Lemma tagCipher_shaped : aeadCorrect tagCipher /\ gcmShaped tagCipher.
Proof.
  split.
  - intros key nonce plaintext. cbn [tagCipher Seal Open].
    rewrite length_app, length_replicate.
    rewrite (proj2 (Nat.ltb_ge _ _)) by lia.
    replace (length plaintext + 16 - 16)%nat with (length plaintext) by lia.
    rewrite take_app_length. reflexivity.
  - intros key nonce plaintext _ _. cbn [tagCipher Seal].
    rewrite length_app, length_replicate. reflexivity.
Qed.


(** The cipher of the examples honours the contract. *)
Lemma bytes_eqb_eq a b : bytes_eqb a b = true <-> a = b.
Proof.
  revert b. induction a as [|x a IH]; intros [|y b]; simpl;
    try (split; [discriminate|discriminate]); [tauto|].
  rewrite andb_true_iff, IH. split.
  - intros [Hxy ->]. apply Byte.byte_dec_bl in Hxy. congruence.
  - intros E. inversion E; subst. split; [apply Byte.byte_dec_lb|];
      reflexivity.
Qed.

Lemma keyPrefixCipher_correct : aeadCorrect keyPrefixCipher.
Proof.
  intros key nonce plaintext. cbn.
  rewrite (Byte.byte_dec_lb eq_refl), take_app_length, drop_app_length.
  rewrite (proj2 (bytes_eqb_eq key key) eq_refl). reflexivity.
Qed.

Lemma keyPrefixCipher_tagged : aeadTagged keyPrefixCipher.
Proof. intros key nonce plaintext. discriminate. Qed.

Lemma validKey_length key :
  validKey key = true ->
  length key = 16%nat \/ length key = 24%nat \/ length key = 32%nat.
Proof.
  unfold validKey. rewrite !orb_true_iff, !Nat.eqb_eq. tauto.
Qed.


(** ** Loading a day *)

(** Truncation to 24 hours is the midnight of UTC at or before the
    instant; the location is kept. *)
Lemma Truncate_day t :
  unixNano (Truncate t (24 * Hour)) = dayNanos * (unixNano t / dayNanos) /\
  location (Truncate t (24 * Hour)) = location t.
Proof.
  unfold Truncate. change (24 * Hour <=? 0) with false. cbn [Add unixNano
    location]. split; [|reflexivity].
  fold dayNanos.
  replace (unixNano t - zeroUnixNano)
    with (unixNano t + 719162 * dayNanos) by reflexivity.
  rewrite Z.mod_add by discriminate.
  pose proof (Z.div_mod (unixNano t) dayNanos ltac:(discriminate)). lia.
Qed.

(** C9. When the file of the date does not exist, [LoadDailySessions]
    returns no error and a [DailySessions] with no session, dated with
    the date truncated to 24 hours. *)
Theorem LoadDailySessions_missing_file `{deps : Deps} (s : Storage)
    (fs : FileSystem) (now date : Time) :
  files fs !! getFilePath s date = None ->
  LoadDailySessions s fs now date =
  Ok {| Date_ := Truncate date (24 * Hour); Sessions := [] |}
  /\ unixNano (Truncate date (24 * Hour)) =
     dayNanos * (unixNano date / dayNanos)
  /\ location (Truncate date (24 * Hour)) = location date.
Proof.
  intros H. split; [|apply Truncate_day].
  unfold LoadDailySessions. rewrite H. reflexivity.
Qed.

Lemma LoadDailySessions_missing_file_witness :
  files noFiles !! getFilePath plainStorage (atMinute 800) = None /\
  LoadDailySessions (deps := worldOf UTC [] []) plainStorage noFiles
    (atMinute 900) (atMinute 800) =
  Ok {| Date_ := atMinute 0; Sessions := [] |}.
Proof.
  split; [reflexivity|].
  exact (proj1 (LoadDailySessions_missing_file (deps := worldOf UTC [] [])
                  plainStorage noFiles (atMinute 900) (atMinute 800)
                  eq_refl)).
Defined.

(** ** The calendar *)

Lemma allFrom_spec f n start :
  allFrom f n start = true ->
  forall x, start <= x < start + Z.of_nat n -> f x = true.
Proof.
  revert start. induction n as [|n IH]; intros start H x Hx; [lia|].
  cbn [allFrom] in H. apply andb_true_iff in H. destruct H as [H0 H1].
  destruct (Z.eq_dec x start) as [->|Hne]; [exact H0|].
  apply (IH (start + 1) H1). lia.
Qed.

Lemma checkDay_cycle : allFrom checkDay (Z.to_nat 146097) 0 = true.
Proof. vm_compute. reflexivity. Qed.

Lemma checkYear_cycle : allFrom checkYear 400 0 = true.
Proof. vm_compute. reflexivity. Qed.

Lemma checkDay_ok doe : 0 <= doe < 146097 -> checkDay doe = true.
Proof.
  intros H. apply (allFrom_spec _ _ _ checkDay_cycle). lia.
Qed.

Lemma checkDate_ok yoe m d :
  0 <= yoe < 400 -> 1 <= m <= 12 -> 1 <= d <= 31 ->
  checkDate yoe m d = true.
Proof.
  intros Hy Hm Hd.
  pose proof (allFrom_spec _ _ _ checkYear_cycle yoe ltac:(lia)) as H.
  unfold checkYear in H.
  pose proof (allFrom_spec _ _ _ H m ltac:(lia)) as H'. cbv beta in H'.
  apply (allFrom_spec _ _ _ H'). lia.
Qed.

Lemma isLeap_cycle y k : isLeap (y + k * 400) = isLeap y.
Proof.
  unfold isLeap.
  replace (y + k * 400) with (y + (k * 100) * 4) at 1 by lia.
  replace (y + k * 400) with (y + (k * 4) * 100) at 1 by lia.
  rewrite !Z.mod_add by discriminate. reflexivity.
Qed.

Lemma daysIn_cycle y k m : daysIn (y + k * 400) m = daysIn y m.
Proof. unfold daysIn. rewrite isLeap_cycle. reflexivity. Qed.

Lemma daysIn_bound y m : 28 <= daysIn y m <= 31.
Proof. unfold daysIn. repeat case_match; lia. Qed.

(** From days to a date and back. *)
Lemma daysFromCivil_civilFromDays z :
  match civilFromDays z with
  | (y, m, d) => validDate y m d /\ daysFromCivil y m d = z
  end.
Proof.
  unfold civilFromDays.
  set (z' := z + 719468).
  set (era := z' / 146097). set (doe := z' mod 146097).
  assert (Hdoe : 0 <= doe < 146097) by (apply Z.mod_pos_bound; lia).
  assert (Hz : z' = era * 146097 + doe).
  { unfold era, doe. pose proof (Z.div_mod z' 146097 ltac:(lia)). lia. }
  pose proof (checkDay_ok doe Hdoe) as Hc. unfold checkDay in Hc.
  set (yoe := (doe - doe / 1460 + doe / 36524 - doe / 146096) / 365) in *.
  set (doy := doe - (365 * yoe + yoe / 4 - yoe / 100)) in *.
  set (mp := (5 * doy + 2) / 153) in *.
  set (d := doy - (153 * mp + 2) / 5 + 1) in *.
  set (m := if mp <? 10 then mp + 3 else mp - 9) in *.
  cbv zeta in Hc.
  repeat (apply andb_true_iff in Hc; destruct Hc as [Hc ?]).
  repeat match goal with
         | H : (_ <=? _) = true |- _ => apply Z.leb_le in H
         | H : (_ <? _) = true |- _ => apply Z.ltb_lt in H
         | H : (_ =? _) = true |- _ => apply Z.eqb_eq in H
         end.
  assert (Hyear : (if m <=? 2 then yoe + era * 400 + 1 else yoe + era * 400)
                  = (if m <=? 2 then yoe + 1 else yoe) + era * 400)
    by (destruct (m <=? 2); lia).
  split.
  - unfold validDate. rewrite Hyear, daysIn_cycle. lia.
  - unfold daysFromCivil.
    replace (if m <=? 2
             then (if m <=? 2 then yoe + era * 400 + 1 else yoe + era * 400)
                  - 1
             else (if m <=? 2 then yoe + era * 400 + 1 else yoe + era * 400))
      with (yoe + era * 400) by (destruct (m <=? 2); lia).
    rewrite Z.div_add, Z.mod_add by lia.
    rewrite Z.div_small, Z.mod_small by lia.
    fold m. lia.
Qed.

(** From a date to days and back. *)
Lemma civilFromDays_daysFromCivil y m d :
  validDate y m d -> civilFromDays (daysFromCivil y m d) = (y, m, d).
Proof.
  intros [Hm Hd]. unfold daysFromCivil.
  set (y' := if m <=? 2 then y - 1 else y).
  set (era := y' / 400). set (yoe := y' mod 400).
  assert (Hyoe : 0 <= yoe < 400) by (apply Z.mod_pos_bound; lia).
  assert (Hy' : y' = era * 400 + yoe).
  { unfold era, yoe. pose proof (Z.div_mod y' 400 ltac:(lia)). lia. }
  pose proof (daysIn_bound y m) as Hb.
  pose proof (checkDate_ok yoe m d Hyoe Hm ltac:(lia)) as Hc.
  unfold checkDate in Hc.
  set (mp := if 2 <? m then m - 3 else m + 9) in *.
  set (doy := (153 * mp + 2) / 5 + d - 1) in *.
  set (doe := yoe * 365 + yoe / 4 - yoe / 100 + doy) in *.
  cbv zeta in Hc.
  assert (Hyear : y = (if m <=? 2 then yoe + 1 else yoe) + era * 400).
  { unfold y' in Hy'. destruct (m <=? 2); lia. }
  assert (Hin : (d <=? daysIn (if m <=? 2 then yoe + 1 else yoe) m) = true).
  { apply Z.leb_le. rewrite <- (daysIn_cycle _ era), <- Hyear. lia. }
  rewrite Hin in Hc.
  set (yoe' := (doe - doe / 1460 + doe / 36524 - doe / 146096) / 365) in *.
  set (doy' := doe - (365 * yoe' + yoe' / 4 - yoe' / 100)) in *.
  set (mp' := (5 * doy' + 2) / 153) in *.
  set (d' := doy' - (153 * mp' + 2) / 5 + 1) in *.
  set (m' := if mp' <? 10 then mp' + 3 else mp' - 9) in *.
  apply andb_true_iff in Hc; destruct Hc as [Hc Ed].
  apply andb_true_iff in Hc; destruct Hc as [Hc Em].
  apply andb_true_iff in Hc; destruct Hc as [Hc Ey].
  apply andb_true_iff in Hc; destruct Hc as [Hlo Hhi].
  apply Z.eqb_eq in Ed, Em, Ey. apply Z.leb_le in Hlo. apply Z.ltb_lt in Hhi.
  unfold civilFromDays.
  replace (era * 146097 + doe - 719468 + 719468) with (doe + era * 146097)
    by lia.
  rewrite Z.div_add, Z.mod_add by lia.
  rewrite (Z.div_small doe 146097), (Z.mod_small doe 146097) by lia.
  fold yoe'. fold doy'. fold mp'. fold d'. fold m'.
  rewrite Ey, Em, Ed. f_equal. f_equal.
  destruct (m <=? 2); lia.
Qed.

(** ** Dates of instants *)

Lemma DateOf_valid t :
  validDate (Year t) (Month t) (Day t) /\
  daysFromCivil (Year t) (Month t) (Day t) = localDays t.
Proof.
  unfold Year, Month, Day, DateOf.
  pose proof (daysFromCivil_civilFromDays (localDays t)) as H.
  destruct (civilFromDays (localDays t)) as [[y m] d]. exact H.
Qed.

Lemma daysFromCivil_day y m d :
  daysFromCivil y m d = daysFromCivil y m 1 + (d - 1).
Proof. unfold daysFromCivil. lia. Qed.

Lemma clock_sum t :
  HourOf t * 3600 + MinuteOf t * 60 + SecondOf t = secondOfDay t.
Proof.
  unfold HourOf, MinuteOf, SecondOf.
  set (sod := secondOfDay t).
  pose proof (Z.div_mod sod 3600 ltac:(lia)).
  pose proof (Z.div_mod (sod mod 3600) 60 ltac:(lia)).
  assert (E : (sod mod 3600) mod 60 = sod mod 60).
  { replace (sod mod 3600) with (sod + (- (60 * (sod / 3600))) * 60) by lia.
    apply Z.mod_add. discriminate. }
  lia.
Qed.

Lemma localSeconds_split t :
  localDays t * secondsPerDay + secondOfDay t = localSeconds t.
Proof.
  unfold localDays, secondOfDay, secondsPerDay.
  pose proof (Z.div_mod (localSeconds t) 86400 ltac:(lia)). lia.
Qed.

(** Adding days to a date moves the instant by as many times 24 hours
    (the zone has a fixed offset). *)
Lemma AddDate_days t n : AddDate t 0 0 n = Add t (n * dayNanos).
Proof.
  destruct (DateOf_valid t) as [[Hm Hd] Hdays].
  unfold AddDate, Date, Add. f_equal.
  rewrite !Z.add_0_r.
  replace ((Month t - 1) / 12) with 0
    by (symmetry; apply Z.div_small; lia).
  rewrite Z.mod_small by lia.
  replace (Month t - 1 + 1) with (Month t) by lia.
  rewrite Z.add_0_r.
  replace (daysFromCivil (Year t) (Month t) 1 + (Day t + n - 1))
    with (localDays t + n) by (rewrite <- Hdays, (daysFromCivil_day _ _ (Day t)); lia).
  pose proof (clock_sum t) as Hclock.
  pose proof (localSeconds_split t) as Hsplit.
  unfold NanosecondOf, dayNanos, Hour, Minute.
  assert (Hsec : localSeconds t = unixNano t / Second + zoneOffset (location t))
    by reflexivity.
  pose proof (Z.div_mod (unixNano t) Second ltac:(discriminate)) as Hnano.
  unfold secondsPerDay in *. nia.
Qed.

Lemma localDays_Add_days t n :
  localDays (Add t (n * dayNanos)) = localDays t + n.
Proof.
  unfold localDays, localSeconds, Add. cbn [unixNano location].
  replace (unixNano t + n * dayNanos)
    with (unixNano t + (n * 86400) * Second)
    by (unfold dayNanos, Hour, Minute, Second; lia).
  rewrite Z.div_add by discriminate.
  replace (unixNano t / Second + n * 86400 + zoneOffset (location t))
    with (unixNano t / Second + zoneOffset (location t) + n * secondsPerDay)
    by (unfold secondsPerDay; lia).
  rewrite Z.div_add by discriminate. reflexivity.
Qed.

Lemma Weekday_Add_days t n :
  Weekday (Add t (n * dayNanos)) = (Weekday t + n) mod 7.
Proof.
  unfold Weekday. rewrite localDays_Add_days.
  replace (localDays t + n + 4) with (localDays t + 4 + n) by lia.
  rewrite Zplus_mod_idemp_l. reflexivity.
Qed.

(** The instant that [Date] builds for midnight of the first day of a
    month carries that date on the wall clock of its location. *)
Lemma Date_first_of_month y m loc :
  1 <= m <= 12 ->
  let t := Date y m 1 0 0 0 0 loc in
  DateOf t = (y, m, 1) /\ secondOfDay t = 0 /\ NanosecondOf t = 0 /\
  location t = loc.
Proof.
  intros Hm t.
  assert (Hsecs : localSeconds t = daysFromCivil y m 1 * secondsPerDay).
  { unfold t, Date, localSeconds. cbn [unixNano location].
    replace ((m - 1) / 12) with 0 by (symmetry; apply Z.div_small; lia).
    rewrite Z.mod_small by lia.
    replace (m - 1 + 1) with m by lia.
    rewrite !Z.add_0_r, Z.div_mul by discriminate.
    replace (1 - 1) with 0 by reflexivity. lia. }
  assert (Hdays : localDays t = daysFromCivil y m 1).
  { unfold localDays. rewrite Hsecs. apply Z.div_mul. discriminate. }
  split; [|split; [|split]].
  - unfold DateOf. rewrite Hdays. apply civilFromDays_daysFromCivil.
    pose proof (daysIn_bound y m). unfold validDate. lia.
  - unfold secondOfDay. rewrite Hsecs. apply Z.mod_mul. discriminate.
  - unfold NanosecondOf, t, Date. cbn [unixNano].
    rewrite Z.add_0_r. apply Z.mod_mul. discriminate.
  - reflexivity.
Qed.

(** ** Date ranges *)

Section DateRange.
Context {deps : Deps}.
Variables (s : Storage) (fs : FileSystem) (now : Time).

Local Abbreviation today := (Truncate now (24 * Hour)).

Lemma GetDateRange_day : GetDateRange s fs now "day" = Ok (today, today).
Proof. reflexivity. Qed.

(** The start of the week is [today] moved back by the days since Monday
    on the wall clock of [now]. *)
Lemma GetDateRange_week :
  exists back,
    GetDateRange s fs now "week" = Ok (Add today (- back * dayNanos), today)
    /\ 0 <= back <= 6 /\ (Weekday now - 1 - back) mod 7 = 0.
Proof.
  assert (Hw : 0 <= Weekday now < 7) by (apply Z.mod_pos_bound; lia).
  exists ((if Weekday now =? 0 then 7 else Weekday now) - 1).
  split; [|split].
  - change (GetDateRange s fs now "week")
      with (Ok (A := Time * Time)
              (AddDate today 0 0
                 (- ((if Weekday now =? 0 then 7 else Weekday now) - 1)),
               today)).
    rewrite AddDate_days. reflexivity.
  - destruct (Z.eqb_spec (Weekday now) 0); lia.
  - destruct (Z.eqb_spec (Weekday now) 0) as [E|E].
    + rewrite E. reflexivity.
    + replace (Weekday now - 1 - (Weekday now - 1)) with 0 by lia.
      reflexivity.
Qed.

(** When [today] falls on the same day of the week as [now], the week
    starts on the most recent Monday at or before [today]. *)
Lemma GetDateRange_week_monday :
  Weekday today = Weekday now ->
  exists startDate,
    GetDateRange s fs now "week" = Ok (startDate, today) /\
    Weekday startDate = 1 /\
    unixNano startDate <= unixNano today < unixNano startDate + 7 * dayNanos.
Proof.
  intros Hsame. destruct GetDateRange_week as (back & Hr & Hb & Hmod).
  exists (Add today (- back * dayNanos)). split; [exact Hr|]. split.
  - rewrite Weekday_Add_days, Hsame.
    assert (Hw : 0 <= Weekday now < 7) by (apply Z.mod_pos_bound; lia).
    apply Z.mod_divide in Hmod; [|lia]. destruct Hmod as [k Hk].
    assert (k = 0 \/ k = -1) as [-> | ->] by lia.
    + replace (Weekday now + - back) with 1 by lia. reflexivity.
    + replace (Weekday now + - back) with (1 + (-1) * 7) by lia.
      rewrite Z.mod_add by lia. reflexivity.
  - cbn [Add unixNano]. unfold dayNanos, Hour, Minute, Second. lia.
Qed.

Lemma GetDateRange_month :
  exists startDate,
    GetDateRange s fs now "month" = Ok (startDate, today) /\
    DateOf startDate = (Year today, Month today, 1) /\
    secondOfDay startDate = 0 /\ NanosecondOf startDate = 0.
Proof.
  destruct (DateOf_valid today) as [[Hm _] _].
  eexists. split; [reflexivity|]. fold today.
  destruct (Date_first_of_month (Year today) (Month today) (location today)
              Hm) as (H1 & H2 & H3 & _). auto.
Qed.

Lemma GetDateRange_quarter :
  exists startDate,
    GetDateRange s fs now "quarter" = Ok (startDate, today) /\
    DateOf startDate =
    (Year today, 3 * ((Month today - 1) / 3) + 1, 1) /\
    secondOfDay startDate = 0 /\ NanosecondOf startDate = 0.
Proof.
  destruct (DateOf_valid today) as [[Hm _] _].
  eexists. split; [reflexivity|]. fold today.
  assert (E : Month today - Z.rem (Month today - 1) 3 =
              3 * ((Month today - 1) / 3) + 1).
  { rewrite Z.rem_mod_nonneg by lia.
    pose proof (Z.div_mod (Month today - 1) 3 ltac:(lia)). lia. }
  rewrite E.
  assert (Hq : 1 <= 3 * ((Month today - 1) / 3) + 1 <= 12).
  { pose proof (Z.div_mod (Month today - 1) 3 ltac:(lia)).
    pose proof (Z.mod_pos_bound (Month today - 1) 3 ltac:(lia)). lia. }
  destruct (Date_first_of_month (Year today) _ (location today) Hq)
    as (H1 & H2 & H3 & _). auto.
Qed.

Lemma GetDateRange_year :
  exists startDate,
    GetDateRange s fs now "year" = Ok (startDate, today) /\
    DateOf startDate = (Year today, 1, 1) /\
    secondOfDay startDate = 0 /\ NanosecondOf startDate = 0.
Proof.
  eexists. split; [reflexivity|]. fold today.
  destruct (Date_first_of_month (Year today) 1 (location today)
              ltac:(lia)) as (H1 & H2 & H3 & _). auto.
Qed.

Lemma earliestOf_least first days :
  (earliestOf first days = first \/ earliestOf first days ∈ days) /\
  unixNano (earliestOf first days) <= unixNano first /\
  Forall (fun d => unixNano (earliestOf first days) <= unixNano d) days.
Proof.
  revert first. induction days as [|d days IH]; intros first.
  - split; [auto|]. split; [cbn; lia|constructor].
  - change (earliestOf first (d :: days))
      with (earliestOf (if Before d first then d else first) days).
    unfold Before.
    destruct (Z.ltb_spec (unixNano d) (unixNano first)) as [Hlt|Hge].
    + destruct (IH d) as (Hin & Hle & Hall). split; [|split].
      * right. destruct Hin as [-> | Hin];
          [apply list_elem_of_here | apply list_elem_of_further, Hin].
      * lia.
      * constructor; assumption.
    + destruct (IH first) as (Hin & Hle & Hall). split; [|split].
      * destruct Hin as [-> | Hin];
          [auto | right; apply list_elem_of_further, Hin].
      * lia.
      * constructor; [lia | assumption].
Qed.

(** The range "all" starts at the earliest of the days that have a file
    in the data directory and ends today; without such a day, or when the
    directory cannot be read, it is today alone. *)
Lemma GetDateRange_all :
  match ListAvailableDays s fs with
  | Ok (first :: rest) =>
      exists earliest,
        GetDateRange s fs now "all" = Ok (earliest, today) /\
        earliest ∈ first :: rest /\
        Forall (fun d => unixNano earliest <= unixNano d) (first :: rest)
  | _ => GetDateRange s fs now "all" = Ok (today, today)
  end.
Proof.
  change (GetDateRange s fs now "all")
    with (match ListAvailableDays s fs with
          | Ok (first :: rest) => Ok (earliestOf first (first :: rest), today)
          | _ => Ok (today, today)
          end).
  destruct (ListAvailableDays s fs) as [[|first rest]| |]; try reflexivity.
  eexists. split; [reflexivity|].
  destruct (earliestOf_least first (first :: rest)) as (Hin & _ & Hall).
  split; [|exact Hall].
  destruct Hin as [-> | Hin]; [apply list_elem_of_here | exact Hin].
Qed.

(** A range type other than the six known ones is an error that names
    it. *)
Lemma GetDateRange_other rangeType :
  rangeType <> "day" -> rangeType <> "week" -> rangeType <> "month" ->
  rangeType <> "quarter" -> rangeType <> "year" -> rangeType <> "all" ->
  GetDateRange s fs now rangeType =
  Err ("invalid range type: " +:+ rangeType).
Proof.
  intros. unfold GetDateRange.
  repeat (rewrite decide_False by assumption). reflexivity.
Qed.

(** On a clock in UTC, [today] is the day of [now]. *)
Lemma Truncate_same_day :
  zoneOffset (location now) = 0 -> localDays today = localDays now.
Proof.
  intros Hz. destruct (Truncate_day now) as [Hn Hl]. fold today in Hn, Hl.
  unfold localDays, localSeconds. rewrite Hl, Hz, Hn, !Z.add_0_r.
  rewrite !Z.div_div by (unfold secondsPerDay; try discriminate; lia).
  replace (Second * secondsPerDay) with dayNanos by reflexivity.
  rewrite Z.mul_comm, Z.div_mul by discriminate. reflexivity.
Qed.

End DateRange.

(** On a clock in UTC the week starts on a Monday. *)
Lemma GetDateRange_week_utc `{deps : Deps} s fs now :
  zoneOffset (location now) = 0 ->
  exists startDate,
    GetDateRange s fs now "week" = Ok (startDate, Truncate now (24 * Hour)) /\
    Weekday startDate = 1 /\
    unixNano startDate <= unixNano (Truncate now (24 * Hour))
      < unixNano startDate + 7 * dayNanos.
Proof.
  intros Hz. apply GetDateRange_week_monday.
  unfold Weekday. rewrite Truncate_same_day by assumption. reflexivity.
Qed.

Example GetDateRange_week_wednesday :
  exists startDate today,
    GetDateRange (deps := worldOf UTC [] []) plainStorage noFiles
      wednesdayNoon "week" = Ok (startDate, today) /\
    DateOf startDate = (2025, 3, 10) /\ Weekday startDate = 1 /\
    DateOf today = (2025, 3, 12).
Proof. eexists _, _. split; [reflexivity|]. vm_compute. auto. Qed.

(** C7. The weekday is read from the wall clock of [now], the date from
    [today], which is the instant truncated to a multiple of 24 hours,
    a midnight of UTC. One hour east of UTC, at half past midnight of
    Monday 2025-03-10, [today] is still Sunday 2025-03-09 (at 1:00), the
    weekday of [now] is Monday, nothing is subtracted and the week starts
    on that Sunday instead of a Monday. *)
Theorem GetDateRange_week_starts_on_sunday :
  DateOf mondayEarly = (2025, 3, 10) /\ Weekday mondayEarly = 1 /\
  exists startDate today,
    GetDateRange (deps := worldOf plusOne [] []) plainStorage noFiles
      mondayEarly "week" = Ok (startDate, today) /\
    today = Truncate mondayEarly (24 * Hour) /\
    startDate = today /\
    DateOf startDate = (2025, 3, 9) /\ HourOf startDate = 1 /\
    Weekday startDate = 0.
Proof.
  split; [reflexivity|]. split; [reflexivity|].
  eexists _, _. split; [reflexivity|]. vm_compute. auto.
Qed.

(** ** The loop over the days of a range *)

Lemma Add_zero t : Add t (Z.of_nat 0 * dayNanos) = t.
Proof. destruct t. unfold Add. cbn. f_equal. lia. Qed.

Lemma Add_next t k :
  Add (Add t dayNanos) (Z.of_nat k * dayNanos) =
  Add t (Z.of_nat (S k) * dayNanos).
Proof. unfold Add. cbn [unixNano location]. f_equal. lia. Qed.

Lemma forEachDay_foldM {St} (body : St -> Time -> result St) fuel d endDate
    st :
  fuel = dayCount d endDate ->
  forEachDay body fuel d endDate st =
  foldM body ((fun k => Add d (Z.of_nat k * dayNanos)) <$> seq 0 fuel) st.
Proof.
  revert d st. induction fuel as [|fuel IH]; intros d st Hfuel;
    [reflexivity|].
  assert (Hq : (unixNano endDate - unixNano d) / dayNanos + 1
               = Z.of_nat (S fuel)).
  { unfold dayCount in Hfuel. fold dayNanos in Hfuel.
    change (secondsPerDay * Second) with dayNanos in Hfuel. lia. }
  assert (Hle : unixNano d <= unixNano endDate).
  { destruct (Z.le_gt_cases (unixNano d) (unixNano endDate)) as [H|H];
      [exact H|].
    assert ((unixNano endDate - unixNano d) / dayNanos < 0)
      by (apply Z.div_lt_upper_bound; [reflexivity | lia]).
    lia. }
  cbn [forEachDay]. unfold After.
  rewrite (proj2 (Z.ltb_ge _ _) Hle).
  cbn [seq fmap list_fmap foldM]. rewrite Add_zero.
  destruct (body st d) as [st'| |]; cbn [bind]; try reflexivity.
  rewrite AddDate_days. replace (1 * dayNanos) with dayNanos by lia.
  rewrite IH.
  - f_equal. rewrite <- fmap_S_seq, <- list_fmap_compose.
    apply list_fmap_ext. intros _ k _. cbn. apply Add_next.
  - unfold dayCount. change (secondsPerDay * Second) with dayNanos.
    cbn [Add unixNano].
    replace (unixNano endDate - (unixNano d + dayNanos))
      with (unixNano endDate - unixNano d + (-1) * dayNanos) by lia.
    rewrite Z.div_add by discriminate. lia.
Qed.

Lemma forEachDay_rangeDays {St} (body : St -> Time -> result St)
    startDate endDate st :
  forEachDay body (dayCount startDate endDate) startDate endDate st =
  foldM body (rangeDays startDate endDate) st.
Proof. apply forEachDay_foldM. reflexivity. Qed.

(** ** Detailed statistics *)

Lemma foldM_pure {A St} (step : St -> A -> result St) (f : St -> A -> St)
    xs st :
  (forall st x, step st x = Ok (f st x)) ->
  foldM step xs st = Ok (fold_left f xs st).
Proof.
  intros H. revert st. induction xs as [|x xs IH]; intros st;
    [reflexivity|].
  cbn [foldM fold_left]. rewrite H. cbn [bind]. apply IH.
Qed.

Lemma detailPair_step st p :
  onPair detailPair st p = Ok (detailPairStep st p).
Proof. destruct st as [t stats]. reflexivity. Qed.

Lemma detailSession_step st session :
  detailSession st session = Ok (detailSessionStep st session).
Proof.
  destruct st as [stats total]. unfold detailSession, detailSessionStep.
  destruct (Start session) as [start|]; [|reflexivity].
  destruct (End_ session) as [end_|]; [|reflexivity].
  rewrite forPairs_foldM, (foldM_pure _ _ _ _ detailPair_step).
  cbn [bind fst snd].
  destruct (fold_left detailPairStep (pairs (Interruptions session))
              (0, stats)) as [t stats']. reflexivity.
Qed.

Lemma detailDay_step `{deps : Deps} s fs now st d :
  detailDay s fs now st d =
  match LoadDailySessions s fs now d with
  | Ok day => Ok (detailDayStep now st (d, day))
  | Err _ => Ok st
  | Panic => Panic
  end.
Proof.
  unfold detailDay, loadOrSkip.
  destruct (LoadDailySessions s fs now d) as [day| |]; try reflexivity.
  destruct st as [stats total]. unfold detailDayStep, workOf.
  cbn [fst snd]. destruct (GetStats now day) as [[w i] c]. cbn [fst snd].
  apply foldM_pure. apply detailSession_step.
Qed.

Lemma foldM_detailDay `{deps : Deps} s fs now ds st :
  foldM (detailDay s fs now) ds st =
  bind (loadedDays s fs now ds)
       (fun days => Ok (fold_left (detailDayStep now) days st)).
Proof.
  revert st. induction ds as [|d ds IH]; intros st; [reflexivity|].
  cbn [foldM loadedDays]. rewrite detailDay_step.
  destruct (LoadDailySessions s fs now d) as [day| |]; cbn [bind];
    try reflexivity; rewrite IH.
  - destruct (loadedDays s fs now ds); reflexivity.
  - reflexivity.
Qed.

(** [GetDetailedStats] resolves the range, loads the days of the range
    that can be loaded and summarises them. *)
Lemma GetDetailedStats_summary `{deps : Deps} s fs now rangeType :
  storage.GetDetailedStats s fs now rangeType =
  bind (GetDateRange s fs now rangeType)
    (fun range =>
       bind (loadedDays s fs now (rangeDays range.1 range.2))
            (fun days => Ok (summary now range.1 range.2 days))).
Proof.
  unfold storage.GetDetailedStats.
  destruct (GetDateRange s fs now rangeType) as [[startDate endDate]| |];
    try reflexivity.
  cbn [bind fst snd]. rewrite forEachDay_rangeDays, foldM_detailDay.
  destruct (loadedDays s fs now (rangeDays startDate endDate)) as [days| |];
    try reflexivity.
  cbn [bind]. unfold summary, withAverageSessionTime.
  destruct (fold_left (detailDayStep now) days
              (emptyStats startDate endDate, 0)) as [stats total].
  cbn [fst snd]. destruct (0 <? TotalSessions stats); reflexivity.
Qed.

(** *** Sessions without both ends leave the session fields alone *)

Ltac same_fields :=
  unfold sameSessionFields in *; cbn;
  repeat match goal with H : _ /\ _ |- _ => destruct H end;
  repeat split;
  first [ congruence
        | repeat match goal with
                 | H : _ = _ |- _ => rewrite ?H; clear H
                 end; reflexivity ].

Lemma sameSessionFields_refl a : sameSessionFields a a.
Proof. same_fields. Qed.

Lemma countInterruption_same a b tag d :
  sameSessionFields a b ->
  sameSessionFields (countInterruption a tag d) (countInterruption b tag d).
Proof. intros H. same_fields. Qed.

Lemma countSession_same a b w h :
  sameSessionFields a b ->
  sameSessionFields (countSession a w h) (countSession b w h).
Proof. intros H. same_fields. Qed.

Lemma countDay_same a b k k' w w' :
  sameSessionFields a b ->
  sameSessionFields (countDay a k w) (countDay b k' w').
Proof. intros H. same_fields. Qed.

Lemma fold_detailPairStep_same ps t a b :
  sameSessionFields a b ->
  (fold_left detailPairStep ps (t, a)).1 =
  (fold_left detailPairStep ps (t, b)).1 /\
  sameSessionFields (fold_left detailPairStep ps (t, a)).2
                    (fold_left detailPairStep ps (t, b)).2.
Proof.
  revert t a b. induction ps as [|p ps IH]; intros t a b H;
    [split; [reflexivity | exact H]|].
  cbn [fold_left]. unfold detailPairStep at 2 4. cbn [fst snd].
  apply IH, countInterruption_same, H.
Qed.

Lemma detailSessionStep_same x y session :
  sameTally x y ->
  sameTally (detailSessionStep x session) (detailSessionStep y session).
Proof.
  intros [Hs Ht]. unfold detailSessionStep.
  destruct (Start session) as [start|]; [|split; assumption].
  destruct (End_ session) as [end_|]; [|split; assumption].
  destruct (fold_detailPairStep_same (pairs (Interruptions session)) 0
              x.1 y.1 Hs) as [E1 E2].
  unfold Duration in *. cbv zeta. rewrite E1, Ht.
  split; cbn [fst snd]; [|reflexivity].
  apply countSession_same, E2.
Qed.

Lemma detailSessionStep_skip x session :
  hasBothEnds session = false -> detailSessionStep x session = x.
Proof.
  unfold hasBothEnds, detailSessionStep.
  destruct (Start session), (End_ session); try discriminate; reflexivity.
Qed.

Lemma fold_detailSessionStep_filter ss x y :
  sameTally x y ->
  sameTally (fold_left detailSessionStep ss x)
            (fold_left detailSessionStep
               (filter (fun s => hasBothEnds s = true) ss) y).
Proof.
  revert x y. induction ss as [|s ss IH]; intros x y H; [exact H|].
  destruct (hasBothEnds s) eqn:E.
  - rewrite filter_cons_True by assumption. cbn [fold_left].
    apply IH, detailSessionStep_same, H.
  - rewrite filter_cons_False by congruence. cbn [fold_left].
    rewrite detailSessionStep_skip by assumption. apply IH, H.
Qed.

Lemma detailDayStep_endedOnly now x y entry :
  sameTally x y ->
  sameTally (detailDayStep now x entry) (detailDayStep now y (endedOnly entry)).
Proof.
  intros [Hs Ht]. unfold detailDayStep, endedOnly. cbn [fst snd Sessions].
  apply fold_detailSessionStep_filter. split; cbn [fst snd];
    [apply countDay_same, Hs | exact Ht].
Qed.

Lemma fold_detailDayStep_endedOnly now days x y :
  sameTally x y ->
  sameTally (fold_left (detailDayStep now) days x)
            (fold_left (detailDayStep now) (endedOnly <$> days) y).
Proof.
  revert x y. induction days as [|e days IH]; intros x y H; [exact H|].
  cbn [fmap list_fmap fold_left]. apply IH, detailDayStep_endedOnly, H.
Qed.

Lemma withAverageSessionTime_same x y :
  sameTally x y ->
  sameSessionFields (withAverageSessionTime x) (withAverageSessionTime y).
Proof.
  intros [Hs Ht]. unfold withAverageSessionTime.
  assert (E : TotalSessions x.1 = TotalSessions y.1) by apply Hs.
  rewrite E, Ht. destruct (0 <? TotalSessions y.1); [|exact Hs].
  same_fields.
Qed.

Lemma summary_endedOnly now startDate endDate days :
  sameSessionFields (summary now startDate endDate days)
    (summary now startDate endDate (endedOnly <$> days)).
Proof.
  unfold summary. apply withAverageSessionTime_same.
  apply fold_detailDayStep_endedOnly. split;
    [apply sameSessionFields_refl | reflexivity].
Qed.

(** *** The work fields come from the daily accounting *)

Lemma detailSessionStep_work x session :
  TotalWorkDuration (detailSessionStep x session).1 = TotalWorkDuration x.1 /\
  DailyWorkDurations (detailSessionStep x session).1 =
  DailyWorkDurations x.1.
Proof.
  unfold detailSessionStep.
  destruct (Start session) as [start|]; [|auto].
  destruct (End_ session) as [end_|]; [|auto].
  cbv zeta. cbn [fst snd countSession TotalWorkDuration DailyWorkDurations].
  generalize (0 : Duration).
  generalize (pairs (Interruptions session)). intros ps. revert x.
  induction ps as [|p ps IH]; intros x t; [auto|].
  cbn [fold_left]. unfold detailPairStep at 2 4. cbn [fst snd].
  apply (IH (countInterruption x.1 (pairTag p) (span p), x.2)).
Qed.

Lemma fold_detailSessionStep_work ss x :
  TotalWorkDuration (fold_left detailSessionStep ss x).1 =
  TotalWorkDuration x.1 /\
  DailyWorkDurations (fold_left detailSessionStep ss x).1 =
  DailyWorkDurations x.1.
Proof.
  revert x. induction ss as [|s ss IH]; intros x; [auto|].
  cbn [fold_left]. destruct (IH (detailSessionStep x s)) as [E1 E2].
  destruct (detailSessionStep_work x s) as [F1 F2].
  split; congruence.
Qed.

Lemma fold_detailDayStep_work now days x :
  inInt64 (TotalWorkDuration x.1) ->
  TotalWorkDuration (fold_left (detailDayStep now) days x).1 =
  wrap64 (TotalWorkDuration x.1
          + sumZ ((fun entry => workOf now entry.2) <$> days)) /\
  DailyWorkDurations (fold_left (detailDayStep now) days x).1 =
  fold_left (addWork now) days (DailyWorkDurations x.1).
Proof.
  revert x. induction days as [|e days IH]; intros x Hx.
  - cbn. rewrite Z.add_0_r, wrap64_id by assumption. auto.
  - cbn [fold_left fmap list_fmap sumZ foldr].
    destruct (fold_detailSessionStep_work (Sessions e.2)
                (countDay x.1 (FormatDate e.1) (workOf now e.2), x.2))
      as [E1 E2].
    cbn [fst snd countDay TotalWorkDuration DailyWorkDurations] in E1, E2.
    destruct (IH (detailDayStep now x e)) as [F1 F2].
    { unfold detailDayStep. rewrite E1. apply wrap64_range. }
    rewrite F1, F2. unfold detailDayStep. rewrite E1, E2.
    unfold dadd. rewrite wrap64_add_l. unfold sumZ.
    split; [f_equal; lia | reflexivity].
Qed.

Lemma withAverageSessionTime_work x :
  TotalWorkDuration (withAverageSessionTime x) = TotalWorkDuration x.1 /\
  DailyWorkDurations (withAverageSessionTime x) = DailyWorkDurations x.1.
Proof.
  unfold withAverageSessionTime.
  destruct (0 <? TotalSessions x.1); auto.
Qed.

Lemma summary_work now startDate endDate days :
  TotalWorkDuration (summary now startDate endDate days) =
  wrap64 (sumZ ((fun entry => workOf now entry.2) <$> days)) /\
  DailyWorkDurations (summary now startDate endDate days) =
  fold_left (addWork now) days ∅.
Proof.
  unfold summary.
  destruct (withAverageSessionTime_work
              (fold_left (detailDayStep now) days
                 (emptyStats startDate endDate, 0))) as [E1 E2].
  destruct (fold_detailDayStep_work now days
              (emptyStats startDate endDate, 0)) as [F1 F2].
  { cbn. unfold inInt64. lia. }
  rewrite E1, E2, F1, F2. cbn. auto.
Qed.

(** C10 (as the code has it). [GetDetailedStats] summarises the days of
    the range that can be loaded. The session count, the longest session,
    the average session time, the work by hour, the count of
    interruptions and the two maps by tag are those of the same days
    without their sessions that lack the start or the end entry. The
    total work duration and the work by date are the work totals that
    [GetStats] gives for the days as they are: a sub-session without an
    end is accounted up to the current time, and a session without
    sub-sessions and without an end adds nothing there either. *)
Theorem GetDetailedStats_counts_ended_sessions `{deps : Deps} (s : Storage)
    (fs : FileSystem) (now : Time) (rangeType : string) :
  storage.GetDetailedStats s fs now rangeType =
  bind (GetDateRange s fs now rangeType)
    (fun range =>
       bind (loadedDays s fs now (rangeDays range.1 range.2))
            (fun days => Ok (summary now range.1 range.2 days)))
  /\ (forall startDate endDate days,
        sameSessionFields (summary now startDate endDate days)
          (summary now startDate endDate (endedOnly <$> days)))
  /\ (forall startDate endDate days,
        TotalWorkDuration (summary now startDate endDate days) =
        wrap64 (sumZ ((fun entry => workOf now entry.2) <$> days)) /\
        DailyWorkDurations (summary now startDate endDate days) =
        fold_left (addWork now) days ∅)
  /\ (forall acc sub start,
        subStart sub = Some start -> subEnd sub = None ->
        statsSubSession now acc sub =
        account acc (StartTime start) now (subInterruptions sub))
  /\ (forall acc session,
        legacyShape session -> End_ session = None ->
        statsSession now acc session = acc).
Proof.
  split; [apply GetDetailedStats_summary|].
  split; [intros; apply summary_endedOnly|].
  split; [intros; apply summary_work|].
  split; [intros acc sub start; apply statsSubSession_active|].
  intros acc session. apply statsSession_legacy_active.
Qed.

Lemma GetDetailedStats_counts_ended_sessions_witness :
  exists stats,
    storage.GetDetailedStats
      (deps := oneDayWorld [pausedSession; legacySession])
      plainStorage oneDayFiles (atMinute 800) "day" = Ok stats /\
    TotalSessions stats = 1 /\
    TotalWorkDuration stats = 230 * Minute.
Proof.
  rewrite (proj1 (GetDetailedStats_counts_ended_sessions
                    (deps := oneDayWorld [pausedSession; legacySession])
                    plainStorage oneDayFiles (atMinute 800) "day")).
  eexists. split; [reflexivity|]. split; reflexivity.
Defined.

(** The sentence C10 on the time of running sessions, as it is written,
    fails for a running session without sub-sessions. *)
Lemma running_time_counted_fails :
  ~ running_time_counted (deps := oneDayWorld [legacyRunning])
      plainStorage oneDayFiles (atMinute 700) legacyRunning.
Proof.
  unfold running_time_counted. intros H.
  destruct H as (stats & Hs & Hw);
    [eexists; reflexivity | reflexivity | reflexivity |].
  vm_compute in Hs. injection Hs as <-.
  vm_compute in Hw. discriminate Hw.
Qed.

(** * Further properties of the storage *)

(** ** Migration of the schema *)

Lemma mapM_Ok_lookup {A B} (f : A -> result B) xs ys :
  mapM f xs = Ok ys ->
  length ys = length xs /\
  forall i x, xs !! i = Some x -> exists y, ys !! i = Some y /\ f x = Ok y.
Proof.
  revert ys. induction xs as [|x xs IH]; intros ys H.
  - inversion H. split; [reflexivity|]. intros i x Hx. discriminate.
  - cbn [mapM] in H. destruct (f x) as [y| |] eqn:Hy; try discriminate.
    cbn [bind] in H. destruct (mapM f xs) as [ys'| |]; try discriminate.
    cbn [bind] in H. inversion H; subst ys.
    destruct (IH ys' eq_refl) as [Hlen Hall]. split; [cbn; lia|].
    intros [|i] x0 Hx0; cbn in Hx0.
    + inversion Hx0; subst. exists y. auto.
    + apply Hall, Hx0.
Qed.

Lemma mapM_fixed {A} (f : A -> result A) xs :
  Forall (fun x => f x = Ok x) xs -> mapM f xs = Ok xs.
Proof.
  induction 1 as [|x xs Hx _ IH]; [reflexivity|].
  cbn [mapM]. rewrite Hx. cbn [bind]. rewrite IH. reflexivity.
Qed.

Lemma migrateSession_named now session :
  sessID session <> "" -> migrateSession now session = Ok session.
Proof. intros H. unfold migrateSession. rewrite decide_False; auto. Qed.

Lemma migrateSession_result now session session' :
  migrateSession now session = Ok session' ->
  sessID session' <> "" /\
  Start session' = Start session /\ End_ session' = End_ session /\
  SubSessions session' = SubSessions session /\
  Interruptions session' = Interruptions session /\
  (sessID session <> "" -> session' = session).
Proof.
  unfold migrateSession. destruct (decide (sessID session = "")) as [E|E].
  - destruct (Start session) as [start|] eqn:Hst; [|discriminate].
    intros H. inversion H; subst session'. cbn.
    split; [discriminate|].
    repeat split; try reflexivity; try assumption.
    intros Hne. contradiction.
  - intros H. inversion H; subst. repeat split; auto.
Qed.

(** The migration gives an identifier to every session that has none and
    changes nothing else; run again on its own result, at any time, it
    changes nothing. *)
Theorem migrateSchema_names_once (now now' : Time)
    (oldVersion oldVersion' : Z) (sessions migrated : DailySessions) :
  migrateSchema now oldVersion sessions = Ok migrated ->
  Forall (fun s => sessID s <> "") (Sessions migrated)
  /\ Date_ migrated = Date_ sessions
  /\ length (Sessions migrated) = length (Sessions sessions)
  /\ (forall i s, Sessions sessions !! i = Some s ->
        exists s',
          Sessions migrated !! i = Some s' /\
          Start s' = Start s /\ End_ s' = End_ s /\
          SubSessions s' = SubSessions s /\
          Interruptions s' = Interruptions s /\
          (sessID s <> "" -> s' = s))
  /\ migrateSchema now' oldVersion' migrated = Ok migrated.
Proof.
  unfold migrateSchema. intros H.
  destruct (mapM (migrateSession now) (Sessions sessions)) as [ss| |] eqn:Hm;
    try discriminate.
  cbn [bind] in H. inversion H; subst migrated. cbn [Sessions Date_].
  destruct (mapM_Ok_lookup _ _ _ Hm) as [Hlen Hall].
  assert (Hnamed : Forall (fun s => sessID s <> "") ss).
  { apply Forall_lookup. intros i s' Hs'.
    destruct (lookup_lt_is_Some_2 (Sessions sessions) i) as [s Hs].
    { rewrite <- Hlen. eapply lookup_lt_Some; eauto. }
    destruct (Hall i s Hs) as (y & Hy & Hmig).
    rewrite Hs' in Hy. inversion Hy; subst y.
    apply (migrateSession_result _ _ _ Hmig). }
  split; [exact Hnamed|]. split; [reflexivity|]. split; [exact Hlen|].
  split.
  - intros i s Hs. destruct (Hall i s Hs) as (y & Hy & Hmig).
    exists y. split; [exact Hy|].
    apply (migrateSession_result _ _ _ Hmig).
  - rewrite mapM_fixed; [reflexivity|].
    eapply Forall_impl; [exact Hnamed|]. intros s Hs.
    apply migrateSession_named, Hs.
Qed.

Lemma migrateSchema_names_once_witness :
  exists migrated,
    migrateSchema (atMinute 800) 0
      (dayOf [unnamedSession; earlySession]) = Ok migrated /\
    Forall (fun s => sessID s <> "") (Sessions migrated) /\
    Sessions migrated !! 1%nat = Some earlySession /\
    migrateSchema (atMinute 900) 0 migrated
    = Ok migrated.
Proof.
  eexists. split; [reflexivity|].
  pose proof (migrateSchema_names_once
                (atMinute 800) (atMinute 900) 0 0
                (dayOf [unnamedSession; earlySession]) _ eq_refl)
    as (Hnamed & _ & _ & _ & Hagain).
  split; [exact Hnamed|]. split; [reflexivity|]. exact Hagain.
Defined.

(** ** Saving and loading a day *)

Lemma string_app_inv_head (a b c : string) : a +:+ b = a +:+ c -> b = c.
Proof.
  induction a as [|x a IH]; cbn; intros H; [exact H|].
  inversion H. auto.
Qed.

Lemma backup_path_differs s date timestamp date' :
  getBackupPath s date timestamp <> getFilePath s date'.
Proof.
  unfold getBackupPath, getFilePath. intros H.
  apply string_app_inv_head in H. cbn in H. discriminate H.
Qed.

Lemma SaveDailySessions_writes `{deps : Deps} s fs now random sessions :
  canSeal s random ->
  exists data,
    SaveDailySessions s fs now random sessions =
    Ok (writeFile (createBackup s fs now (getFilePath s (Date_ sessions))
                     (Date_ sessions))
                  (getFilePath s (Date_ sessions)) data) /\
    (if encryptionEnabled s
     then encrypt s random (marshal json CurrentSchemaVersion sessions)
     else Ok (marshal json CurrentSchemaVersion sessions)) = Ok data.
Proof.
  intros Hseal. unfold SaveDailySessions.
  destruct (encryptionEnabled s) eqn:He.
  - destruct (Hseal He) as [Hk Hn].
    unfold encrypt. rewrite He, Hk, Hn. cbn. eexists. split; reflexivity.
  - cbn. eexists. split; reflexivity.
Qed.

Lemma createBackup_files `{deps : Deps} s fs now filePath date path :
  path <> getBackupPath s date now ->
  files (createBackup s fs now filePath date) !! path = files fs !! path.
Proof.
  intros Hne. unfold createBackup.
  destruct (backupEnabled s); [|reflexivity]. cbn [negb].
  destruct (files fs !! filePath) as [[data|]|]; try reflexivity.
  cbn [writeFile files]. apply lookup_insert_ne. congruence.
Qed.

Lemma LoadDailySessions_content `{deps : Deps} s fs now date data plain
    sessions :
  files fs !! getFilePath s date = Some (Content data) ->
  (if encryptionEnabled s then decrypt s data else Ok data) = Ok plain ->
  unmarshal json plain = Some (CurrentSchemaVersion, sessions) ->
  LoadDailySessions s fs now date = Ok sessions.
Proof.
  intros Hfile Hplain Hcodec. unfold LoadDailySessions. rewrite Hfile.
  destruct (encryptionEnabled s); rewrite Hplain; cbn [wrapErr bind];
    rewrite Hcodec; reflexivity.
Qed.

Lemma LoadDailySessions_same_file `{deps : Deps} s fs fs' now date :
  files fs' !! getFilePath s date = files fs !! getFilePath s date ->
  LoadDailySessions s fs' now date = LoadDailySessions s fs now date.
Proof. intros H. unfold LoadDailySessions. rewrite H. reflexivity. Qed.

Lemma saved_is_loaded `{deps : Deps} (s : Storage)
    (fs : FileSystem) (now now' date : Time) (random : bytes)
    (sessions : DailySessions) :
  unmarshal json (marshal json CurrentSchemaVersion sessions) =
    Some (CurrentSchemaVersion, sessions) ->
  aeadCorrect aesgcm -> aeadTagged aesgcm -> canSeal s random ->
  getFilePath s date = getFilePath s (Date_ sessions) ->
  exists fs',
    SaveDailySessions s fs now random sessions = Ok fs' /\
    LoadDailySessions s fs' now' date = Ok sessions /\
    (forall path,
       path <> getFilePath s (Date_ sessions) ->
       path <> getBackupPath s (Date_ sessions) now ->
       files fs' !! path = files fs !! path).
Proof.
  intros Hcodec Hcorrect Htag Hseal Hpath.
  destruct (SaveDailySessions_writes s fs now random sessions Hseal)
    as (data & Hsave & Hdata).
  eexists. split; [exact Hsave|]. split.
  - assert (Hplain : (if encryptionEnabled s then decrypt s data else Ok data)
                     = Ok (marshal json CurrentSchemaVersion sessions)).
    { destruct (encryptionEnabled s) eqn:He.
      - destruct (Hseal He) as [Hk Hn].
        unfold encrypt in Hdata. rewrite He, Hk, Hn in Hdata. cbn in Hdata.
        inversion Hdata; subst data.
        rewrite decrypt_sealed by assumption. rewrite Hcorrect. reflexivity.
      - symmetry. exact Hdata. }
    eapply LoadDailySessions_content; [|exact Hplain|exact Hcodec].
    rewrite Hpath. cbn [writeFile files]. apply lookup_insert_eq.
  - intros path Hp Hb. cbn [writeFile files].
    rewrite lookup_insert_ne by congruence.
    apply createBackup_files. exact Hb.
Qed.

(** What was saved is what is loaded: after [SaveDailySessions] has
    written a day, [LoadDailySessions] for a date with the same file name
    returns that day, with or without encryption; no file other than the
    file of the day and its backup has changed, and a date with another
    file name loads as it did before. *)
Theorem SaveDailySessions_then_load `{deps : Deps} (s : Storage)
    (fs : FileSystem) (now now' date : Time) (random : bytes)
    (sessions : DailySessions) :
  unmarshal json (marshal json CurrentSchemaVersion sessions) =
    Some (CurrentSchemaVersion, sessions) ->
  aeadCorrect aesgcm -> aeadTagged aesgcm -> canSeal s random ->
  getFilePath s date = getFilePath s (Date_ sessions) ->
  exists fs',
    SaveDailySessions s fs now random sessions = Ok fs' /\
    LoadDailySessions s fs' now' date = Ok sessions /\
    (forall path,
       path <> getFilePath s (Date_ sessions) ->
       path <> getBackupPath s (Date_ sessions) now ->
       files fs' !! path = files fs !! path) /\
    (forall date',
       getFilePath s date' <> getFilePath s (Date_ sessions) ->
       LoadDailySessions s fs' now' date' =
       LoadDailySessions s fs now' date').
Proof.
  intros Hcodec Hcorrect Htag Hseal Hpath.
  destruct (saved_is_loaded s fs now now' date random sessions
              Hcodec Hcorrect Htag Hseal Hpath)
    as (fs' & Hsave & Hload & Hframe).
  exists fs'. split; [exact Hsave|]. split; [exact Hload|].
  split; [exact Hframe|].
  intros date' Hother. apply LoadDailySessions_same_file.
  apply Hframe; [exact Hother|].
  intros E. symmetry in E. revert E. apply backup_path_differs.
Qed.

Lemma canSeal_sample : canSeal (sealedStorage (key32 Byte.x01)) nonce12.
Proof. intros _. split; reflexivity. Qed.

Lemma SaveDailySessions_then_load_witness :
  unmarshal (json (Deps := echoWorld (dayOf [legacySession])))
    (marshal (json (Deps := echoWorld (dayOf [legacySession])))
       CurrentSchemaVersion (dayOf [legacySession])) =
    Some (CurrentSchemaVersion, dayOf [legacySession]) /\
  canSeal (sealedStorage (key32 Byte.x01)) nonce12 /\
  getFilePath (sealedStorage (key32 Byte.x01)) (atMinute 30) =
  getFilePath (sealedStorage (key32 Byte.x01)) (Date_ (dayOf [legacySession]))
  /\ exists fs',
      SaveDailySessions (deps := echoWorld (dayOf [legacySession]))
        (sealedStorage (key32 Byte.x01)) noFiles (atMinute 800) nonce12
        (dayOf [legacySession]) = Ok fs' /\
      LoadDailySessions (deps := echoWorld (dayOf [legacySession]))
        (sealedStorage (key32 Byte.x01)) fs' (atMinute 900) (atMinute 30) =
      Ok (dayOf [legacySession]).
Proof.
  split; [reflexivity|]. split; [exact canSeal_sample|].
  split; [reflexivity|].
  destruct (SaveDailySessions_then_load
              (deps := echoWorld (dayOf [legacySession]))
              (sealedStorage (key32 Byte.x01)) noFiles (atMinute 800)
              (atMinute 900) (atMinute 30) nonce12 (dayOf [legacySession])
              eq_refl keyPrefixCipher_correct keyPrefixCipher_tagged
              canSeal_sample eq_refl) as (fs' & Hsave & Hload & _).
  exists fs'. split; assumption.
Defined.

(** Before a day is overwritten, with backups enabled, the bytes that the
    file held are copied to the backup file of the moment; without
    backups, or when there was no file, no backup is written. *)
Theorem SaveDailySessions_backup `{deps : Deps} (s : Storage)
    (fs : FileSystem) (now : Time) (random : bytes)
    (sessions : DailySessions) :
  canSeal s random ->
  exists fs',
    SaveDailySessions s fs now random sessions = Ok fs' /\
    (forall old,
       backupEnabled s = true ->
       files fs !! getFilePath s (Date_ sessions) = Some (Content old) ->
       files fs' !! getBackupPath s (Date_ sessions) now =
       Some (Content old)) /\
    (backupEnabled s = false \/
     files fs !! getFilePath s (Date_ sessions) = None ->
     files fs' !! getBackupPath s (Date_ sessions) now =
     files fs !! getBackupPath s (Date_ sessions) now).
Proof.
  intros Hseal.
  destruct (SaveDailySessions_writes s fs now random sessions Hseal)
    as (data & Hsave & _).
  eexists. split; [exact Hsave|].
  cbn [writeFile files]. split.
  - intros old Hb Hold.
    rewrite lookup_insert_ne by (intros E; symmetry in E;
                                 exact (backup_path_differs _ _ _ _ E)).
    unfold createBackup. rewrite Hb, Hold. cbn [negb writeFile files].
    apply lookup_insert_eq.
  - intros Hno.
    rewrite lookup_insert_ne by (intros E; symmetry in E;
                                 exact (backup_path_differs _ _ _ _ E)).
    unfold createBackup. destruct Hno as [Hb|Hmiss].
    + rewrite Hb. reflexivity.
    + rewrite Hmiss. destruct (backupEnabled s); reflexivity.
Qed.

Lemma SaveDailySessions_backup_witness :
  canSeal backupStorage [] /\
  exists fs',
    SaveDailySessions (deps := worldOf UTC [] []) backupStorage oneDayFiles
      (atMinute 800) [] (dayOf [earlySession]) = Ok fs' /\
    files fs' !! "data/backups/sessions_1970-01-01_backup_1970-01-01_132000.json"
    = Some (Content [Byte.x01]).
Proof.
  assert (Hseal : canSeal backupStorage []) by (intros H; discriminate H).
  split; [exact Hseal|].
  destruct (SaveDailySessions_backup (deps := worldOf UTC [] [])
              backupStorage oneDayFiles (atMinute 800) []
              (dayOf [earlySession]) Hseal) as (fs' & Hsave & Hold & _).
  exists fs'. split; [exact Hsave|].
  exact (Hold [Byte.x01] eq_refl eq_refl).
Defined.

(** ** Deleting and merging on disk *)

Lemma removeAt_delete {A} (i : nat) (l : list A) : removeAt i l = delete i l.
Proof.
  unfold removeAt. rewrite Nat.add_1_r. symmetry. apply delete_take_drop.
Qed.

(** [SecureDelete] refuses a position outside the sessions of the day;
    otherwise it removes the session at the position and keeps the
    others in their order, and the day that is loaded afterwards is the
    day without that session. *)
Theorem SecureDelete_then_load `{deps : Deps} (s : Storage)
    (fs : FileSystem) (now now' date : Time) (random : bytes)
    (day : DailySessions) (sessionIndex : Z) :
  LoadDailySessions s fs now date = Ok day ->
  (sessionIndex < 0 \/ Z.of_nat (length (Sessions day)) <= sessionIndex ->
   SecureDelete s fs now random date sessionIndex =
   Err "invalid session index")
  /\ (0 <= sessionIndex < Z.of_nat (length (Sessions day)) ->
      let kept :=
        {| Date_ := Date_ day;
           Sessions := delete (Z.to_nat sessionIndex) (Sessions day) |} in
      unmarshal json (marshal json CurrentSchemaVersion kept) =
        Some (CurrentSchemaVersion, kept) ->
      aeadCorrect aesgcm -> aeadTagged aesgcm -> canSeal s random ->
      getFilePath s date = getFilePath s (Date_ day) ->
      exists fs',
        SecureDelete s fs now random date sessionIndex = Ok fs' /\
        LoadDailySessions s fs' now' date = Ok kept /\
        length (Sessions kept) = (length (Sessions day) - 1)%nat /\
        (forall j, (j < Z.to_nat sessionIndex)%nat ->
           Sessions kept !! j = Sessions day !! j) /\
        (forall j, (Z.to_nat sessionIndex <= j)%nat ->
           Sessions kept !! j = Sessions day !! S j)).
Proof.
  intros Hload. unfold SecureDelete. rewrite Hload. cbn [wrapErr bind].
  split.
  - intros Hout.
    replace ((sessionIndex <? 0)
             || (Z.of_nat (length (Sessions day)) <=? sessionIndex))
      with true; [reflexivity|].
    symmetry. rewrite orb_true_iff, Z.ltb_lt, Z.leb_le. exact Hout.
  - intros Hin Hcodec Hcorrect Htag Hseal Hpath.
    set (kept := {| Date_ := Date_ day;
                    Sessions := delete (Z.to_nat sessionIndex)
                                       (Sessions day) |}) in *.
    replace ((sessionIndex <? 0)
             || (Z.of_nat (length (Sessions day)) <=? sessionIndex))
      with false
      by (symmetry; apply orb_false_intro;
          [apply Z.ltb_ge | apply Z.leb_gt]; lia).
    rewrite removeAt_delete. fold kept.
    destruct (saved_is_loaded s fs now now' date random kept
                Hcodec Hcorrect Htag Hseal Hpath)
      as (fs' & Hsave & Hload' & _).
    exists fs'. split; [exact Hsave|]. split; [exact Hload'|].
    cbn [kept Sessions]. split; [|split].
    + rewrite length_delete; [reflexivity|].
      apply lookup_lt_is_Some_2. lia.
    + intros j Hj. apply list_lookup_delete_lt. exact Hj.
    + intros j Hj. apply list_lookup_delete_ge. exact Hj.
Qed.

Lemma SecureDelete_then_load_witness :
  LoadDailySessions
    (deps := countWorld [dayOf [earlySession; meetingSession];
                         dayOf [earlySession]])
    plainStorage twoSessionFiles (atMinute 800) (atMinute 30) =
  Ok (dayOf [earlySession; meetingSession]) /\
  exists fs',
    SecureDelete
      (deps := countWorld [dayOf [earlySession; meetingSession];
                           dayOf [earlySession]])
      plainStorage twoSessionFiles (atMinute 800) [] (atMinute 30) 1 = Ok fs'
    /\ LoadDailySessions
         (deps := countWorld [dayOf [earlySession; meetingSession];
                              dayOf [earlySession]])
         plainStorage fs' (atMinute 900) (atMinute 30) =
       Ok (dayOf [earlySession]).
Proof.
  split; [reflexivity|].
  destruct (proj2 (SecureDelete_then_load
              (deps := countWorld [dayOf [earlySession; meetingSession];
                                   dayOf [earlySession]])
              plainStorage twoSessionFiles (atMinute 800) (atMinute 900)
              (atMinute 30) [] (dayOf [earlySession; meetingSession]) 1
              eq_refl)
              ltac:(cbn; lia) eq_refl keyPrefixCipher_correct
              keyPrefixCipher_tagged ltac:(intros H; discriminate H) eq_refl)
    as (fs' & Hdel & Hload & _).
  exists fs'. split; [exact Hdel | exact Hload].
Defined.

(** [MergeSessions] refuses positions that are out of range or equal and
    then writes nothing; otherwise the day that is loaded afterwards is
    the day that [mergeDay] built. *)
Theorem MergeSessions_then_load `{deps : Deps} (s : Storage)
    (fs : FileSystem) (now now' date : Time) (random : bytes)
    (day : DailySessions) (session1Index session2Index : Z) :
  LoadDailySessions s fs now date = Ok day ->
  (session1Index < 0 \/ Z.of_nat (length (Sessions day)) <= session1Index \/
   session2Index < 0 \/ Z.of_nat (length (Sessions day)) <= session2Index \/
   session1Index = session2Index ->
   MergeSessions s fs now random date session1Index session2Index =
   Err "invalid session indices")
  /\ (forall merged,
        mergeDay now day session1Index session2Index = Ok merged ->
        unmarshal json (marshal json CurrentSchemaVersion merged) =
          Some (CurrentSchemaVersion, merged) ->
        aeadCorrect aesgcm -> aeadTagged aesgcm -> canSeal s random ->
        getFilePath s date = getFilePath s (Date_ day) ->
        exists fs',
          MergeSessions s fs now random date session1Index session2Index
          = Ok fs' /\
          LoadDailySessions s fs' now' date = Ok merged).
Proof.
  intros Hload. unfold MergeSessions. rewrite Hload. cbn [wrapErr bind].
  split.
  - intros Hbad. rewrite mergeDay_invalid_indices by assumption. reflexivity.
  - intros merged Hmerge Hcodec Hcorrect Htag Hseal Hpath.
    rewrite Hmerge. cbn [bind].
    assert (Hdate : Date_ merged = Date_ day).
    { unfold mergeDay in Hmerge.
      repeat case_match; try discriminate; inversion Hmerge; reflexivity. }
    rewrite <- Hdate in Hpath.
    destruct (saved_is_loaded s fs now now' date random merged
                Hcodec Hcorrect Htag Hseal Hpath)
      as (fs' & Hsave & Hload' & _).
    exists fs'. split; assumption.
Qed.

Lemma MergeSessions_then_load_witness :
  LoadDailySessions
    (deps := countWorld [dayOf [earlySession; meetingSession]; mergedSample])
    plainStorage twoSessionFiles (atMinute 800) (atMinute 30) =
  Ok (dayOf [earlySession; meetingSession]) /\
  mergeDay (atMinute 800) (dayOf [earlySession; meetingSession]) 1 0 =
  Ok mergedSample /\
  exists fs',
    MergeSessions
      (deps := countWorld [dayOf [earlySession; meetingSession];
                           mergedSample])
      plainStorage twoSessionFiles (atMinute 800) [] (atMinute 30) 1 0
    = Ok fs' /\
    LoadDailySessions
      (deps := countWorld [dayOf [earlySession; meetingSession];
                           mergedSample])
      plainStorage fs' (atMinute 900) (atMinute 30) = Ok mergedSample.
Proof.
  split; [reflexivity|]. split; [reflexivity|].
  exact (proj2 (MergeSessions_then_load
           (deps := countWorld [dayOf [earlySession; meetingSession];
                                mergedSample])
           plainStorage twoSessionFiles (atMinute 800) (atMinute 900)
           (atMinute 30) [] (dayOf [earlySession; meetingSession]) 1 0
           eq_refl)
         mergedSample eq_refl eq_refl keyPrefixCipher_correct
         keyPrefixCipher_tagged ltac:(intros H; discriminate H) eq_refl).
Defined.

(** Merging takes the two sessions out of the day and puts the merged
    session at the end: every other session is kept, in the order it had,
    and the day has one session less. *)
Theorem mergeDay_keeps_other_sessions (now : Time) (day merged : DailySessions)
    (session1Index session2Index : Z) :
  mergeDay now day session1Index session2Index = Ok merged ->
  exists a b rest m,
    Sessions day !! Z.to_nat session1Index = Some a /\
    Sessions day !! Z.to_nat session2Index = Some b /\
    Sessions merged = rest ++ [m] /\
    rest = delete (Z.to_nat (Z.min session1Index session2Index))
             (delete (Z.to_nat (Z.max session1Index session2Index))
                (Sessions day)) /\
    rest `sublist_of` Sessions day /\
    Sessions day ≡ₚ a :: b :: rest /\
    length (Sessions merged) = (length (Sessions day) - 1)%nat.
Proof.
  unfold mergeDay. intros H.
  destruct ((session1Index <? 0)
            || (Z.of_nat (length (Sessions day)) <=? session1Index)
            || (session2Index <? 0)
            || (Z.of_nat (length (Sessions day)) <=? session2Index)
            || (session1Index =? session2Index)) eqn:Hguard;
    [discriminate|].
  repeat (apply orb_false_elim in Hguard; destruct Hguard as [Hguard ?]).
  repeat match goal with
         | H : (_ <? _) = false |- _ => apply Z.ltb_ge in H
         | H : (_ <=? _) = false |- _ => apply Z.leb_gt in H
         | H : (_ =? _) = false |- _ => apply Z.eqb_neq in H
         end.
  destruct (Sessions day !! Z.to_nat session1Index) as [a|] eqn:Ha;
    [|discriminate].
  destruct (Sessions day !! Z.to_nat session2Index) as [b|] eqn:Hb;
    [|discriminate].
  destruct (Start a) as [startA|]; [|discriminate].
  destruct (Start b) as [startB|]; [|discriminate].
  set (lo := Z.to_nat (Z.min session1Index session2Index)).
  set (hi := Z.to_nat (Z.max session1Index session2Index)).
  assert (Hlohi : (lo < hi)%nat) by (unfold lo, hi; lia).
  assert (Hrest : forall i j : nat,
            (i = lo /\ j = hi) \/ (i = hi /\ j = lo) ->
            (if (i <? j)%nat
             then removeAt i (removeAt j (Sessions day))
             else removeAt j (removeAt i (Sessions day)))
            = delete lo (delete hi (Sessions day))).
  { intros i j [[-> ->]|[-> ->]]; rewrite !removeAt_delete.
    - rewrite (proj2 (Nat.ltb_lt _ _) Hlohi). reflexivity.
    - rewrite (proj2 (Nat.ltb_ge _ _)) by lia. reflexivity. }
  assert (Hcases : (Z.to_nat session1Index = lo /\
                    Z.to_nat session2Index = hi) \/
                   (Z.to_nat session1Index = hi /\
                    Z.to_nat session2Index = lo))
    by (unfold lo, hi; lia).
  assert (Hperm : Sessions day ≡ₚ
                  a :: b :: delete lo (delete hi (Sessions day))).
  { destruct Hcases as [[E1 E2]|[E1 E2]]; rewrite E1 in Ha; rewrite E2 in Hb.
    - rewrite (delete_Permutation _ hi b Hb) at 1.
      rewrite (delete_Permutation (delete hi (Sessions day)) lo a) at 1
        by (rewrite list_lookup_delete_lt by exact Hlohi; exact Ha).
      apply perm_swap.
    - rewrite (delete_Permutation _ hi a Ha) at 1.
      rewrite (delete_Permutation (delete hi (Sessions day)) lo b) at 1
        by (rewrite list_lookup_delete_lt by exact Hlohi; exact Hb).
      reflexivity. }
  assert (Hsub : delete lo (delete hi (Sessions day))
                 `sublist_of` Sessions day).
  { etransitivity; apply sublist_delete. }
  assert (Hlen : forall m : Session,
            length (delete lo (delete hi (Sessions day)) ++ [m])
            = (length (Sessions day) - 1)%nat).
  { intros m. rewrite length_app. rewrite Hperm at 2. cbn. lia. }
  exists a, b, (delete lo (delete hi (Sessions day))).
  destruct (After (StartTime startA) (StartTime startB));
    inversion H; subst merged; cbn [Sessions];
    eexists; (split; [reflexivity|]); (split; [reflexivity|]).
  - rewrite Hrest by (destruct Hcases as [[-> ->]|[-> ->]]; auto).
    repeat split; auto.
  - rewrite Hrest by (destruct Hcases as [[-> ->]|[-> ->]]; auto).
    repeat split; auto.
Qed.

Lemma mergeDay_keeps_other_sessions_witness :
  exists merged,
    mergeDay (atMinute 900)
      (dayOf [meetingSession; lunchSession; earlySession]) 0 2 = Ok merged /\
    exists a b rest m,
      [meetingSession; lunchSession; earlySession] !! Z.to_nat 0 = Some a /\
      [meetingSession; lunchSession; earlySession] !! Z.to_nat 2 = Some b /\
      Sessions merged = rest ++ [m] /\
      rest = delete (Z.to_nat (Z.min 0 2))
               (delete (Z.to_nat (Z.max 0 2))
                  [meetingSession; lunchSession; earlySession]) /\
      rest `sublist_of` [meetingSession; lunchSession; earlySession] /\
      [meetingSession; lunchSession; earlySession] ≡ₚ a :: b :: rest /\
      length (Sessions merged) = (3 - 1)%nat.
Proof.
  eexists. split; [reflexivity|].
  apply (mergeDay_keeps_other_sessions (atMinute 900)
           (dayOf [meetingSession; lunchSession; earlySession])).
  reflexivity.
Defined.

(** * Further properties of the statistics over a range *)

Lemma rangeStatsDay_step `{deps : Deps} s fs now acc d :
  rangeStatsDay s fs now acc d =
  match LoadDailySessions s fs now d with
  | Ok day => Ok (addTotals now acc (d, day))
  | Err _ => Ok acc
  | Panic => Panic
  end.
Proof.
  unfold rangeStatsDay, loadOrSkip, addTotals.
  destruct (LoadDailySessions s fs now d) as [day| |]; try reflexivity.
  destruct acc as [[w i] c]. cbn [snd].
  destruct (GetStats now day) as [[w' i'] c']. reflexivity.
Qed.

Lemma foldM_rangeStatsDay `{deps : Deps} s fs now ds acc :
  foldM (rangeStatsDay s fs now) ds acc =
  bind (loadedDays s fs now ds)
       (fun days => Ok (fold_left (addTotals now) days acc)).
Proof.
  revert acc. induction ds as [|d ds IH]; intros acc; [reflexivity|].
  cbn [foldM loadedDays]. rewrite rangeStatsDay_step.
  destruct (LoadDailySessions s fs now d) as [day| |]; cbn [bind];
    try reflexivity; rewrite IH.
  - destruct (loadedDays s fs now ds); reflexivity.
  - reflexivity.
Qed.

Lemma fold_addTotals now days w i c :
  fold_left (addTotals now) days (w, i, c) =
  (wrap64 (w + sumZ ((fun entry => (GetStats now entry.2).1.1) <$> days)),
   wrap64 (i + sumZ ((fun entry => (GetStats now entry.2).1.2) <$> days)),
   wrap64 (c + sumZ ((fun entry => (GetStats now entry.2).2) <$> days)))
  \/ days = [].
Proof.
  destruct days as [|e days]; [right; reflexivity|left].
  revert e w i c. induction days as [|e' days IH]; intros e w i c.
  - cbn. unfold addTotals. destruct (GetStats now e.2) as [[w' i'] c'].
    cbn. unfold dadd. rewrite !Z.add_0_r. reflexivity.
  - change (fold_left (addTotals now) (e :: e' :: days) (w, i, c))
      with (fold_left (addTotals now) (e' :: days)
              (addTotals now (w, i, c) e)).
    unfold addTotals at 2. destruct (GetStats now e.2) as [[w' i'] c'] eqn:E.
    rewrite IH. cbn [fmap list_fmap sumZ foldr]. rewrite E. cbn [fst snd].
    unfold dadd. rewrite !wrap64_add_l. unfold sumZ.
    f_equal; [f_equal|]; f_equal; lia.
Qed.

Lemma GetStats_loadedDays `{deps : Deps} s fs now rangeType :
  storage.GetStats s fs now rangeType =
  bind (GetDateRange s fs now rangeType)
    (fun range =>
       bind (loadedDays s fs now (rangeDays range.1 range.2))
            (fun days => Ok (dayTotals now days))).
Proof.
  unfold storage.GetStats.
  destruct (GetDateRange s fs now rangeType) as [[startDate endDate]| |];
    try reflexivity.
  cbn [bind fst snd]. rewrite forEachDay_rangeDays, foldM_rangeStatsDay.
  destruct (loadedDays s fs now (rangeDays startDate endDate)) as [days| |];
    try reflexivity.
  cbn [bind]. f_equal.
  destruct (fold_addTotals now days 0 0 0) as [E | ->]; [|reflexivity].
  refine (eq_trans E _). unfold dayTotals. rewrite !Z.add_0_l. reflexivity.
Qed.

Lemma loadedDays_no_error `{deps : Deps} s fs now ds msg :
  loadedDays s fs now ds <> Err msg.
Proof.
  induction ds as [|d ds IH]; [discriminate|].
  cbn [loadedDays].
  destruct (LoadDailySessions s fs now d) as [day| |];
    [|exact IH|discriminate].
  destruct (loadedDays s fs now ds) as [l|msg'|]; cbn [bind];
    [discriminate | exact IH | discriminate].
Qed.

(** The statistics of a range are the sums, over the days of the range
    that can be loaded, of the three totals that [GetStats] gives for a
    day; a day that cannot be loaded adds nothing and does not fail the
    call: the call returns an error exactly when the range does, and then
    the same error. *)
Theorem storage_GetStats_sums_days `{deps : Deps} (s : Storage)
    (fs : FileSystem) (now : Time) (rangeType : string) :
  storage.GetStats s fs now rangeType =
  bind (GetDateRange s fs now rangeType)
    (fun range =>
       bind (loadedDays s fs now (rangeDays range.1 range.2))
            (fun days => Ok (dayTotals now days)))
  /\ (forall msg,
        storage.GetStats s fs now rangeType = Err msg <->
        GetDateRange s fs now rangeType = Err msg).
Proof.
  split; [apply GetStats_loadedDays|].
  intros msg. rewrite GetStats_loadedDays.
  destruct (GetDateRange s fs now rangeType) as [range| |];
    cbn [bind];
    [|split; intros [= ->]; reflexivity|split; discriminate].
  pose proof (loadedDays_no_error s fs now (rangeDays range.1 range.2))
    as Hno.
  destruct (loadedDays s fs now (rangeDays range.1 range.2)) as [days|msg'|];
    cbn [bind]; split; try discriminate.
  intros _. exfalso. exact (Hno msg' eq_refl).
Qed.

(** The work total of [GetStats] over a range is the total work duration
    that [GetDetailedStats] reports for the same range and the same
    files, and the two calls fail together, with the same error. *)
Theorem GetStats_work_agrees_with_GetDetailedStats `{deps : Deps}
    (s : Storage) (fs : FileSystem) (now : Time) (rangeType : string) :
  sameWork (storage.GetStats s fs now rangeType)
           (storage.GetDetailedStats s fs now rangeType).
Proof.
  rewrite GetStats_loadedDays, GetDetailedStats_summary.
  destruct (GetDateRange s fs now rangeType) as [[startDate endDate]| |];
    cbn [bind fst snd sameWork]; [|reflexivity|exact I].
  destruct (loadedDays s fs now (rangeDays startDate endDate)) as [days| |];
    cbn [bind sameWork]; [|reflexivity|exact I].
  rewrite (proj1 (summary_work now startDate endDate days)).
  reflexivity.
Qed.

(** ** What the detailed statistics keep consistent *)

Lemma sumValues_insert_fresh `{Countable K} (m : gmap K Z) k v :
  m !! k = None -> sumValues (<[k := v]> m) = sumValues m + v.
Proof.
  intros E. unfold sumValues.
  rewrite map_fold_insert_L; [reflexivity | intros; lia | exact E].
Qed.

Lemma sumValues_insert `{Countable K} (m : gmap K Z) k v :
  sumValues (<[k := v]> m) = sumValues m - default 0 (m !! k) + v.
Proof.
  destruct (m !! k) as [old|] eqn:E; cbn [default].
  - rewrite <- (insert_delete_id m k old E) at 2.
    rewrite <- (insert_delete_eq m k v).
    rewrite !sumValues_insert_fresh by apply lookup_delete_eq.
    unfold id. lia.
  - rewrite sumValues_insert_fresh by exact E. lia.
Qed.

Lemma sumValues_addAt `{Countable K} (m : gmap K Z) k v :
  wrap64 (sumValues (addAt m k v)) = wrap64 (wrap64 (sumValues m) + v).
Proof.
  unfold addAt. rewrite sumValues_insert, wrap64_add_r, wrap64_add_l.
  f_equal. lia.
Qed.

Lemma addAt_is_Some `{Countable K} (m : gmap K Z) k v j :
  is_Some (addAt m k v !! j) <-> j = k \/ is_Some (m !! j).
Proof.
  unfold addAt. destruct (decide (j = k)) as [->|Hne].
  - rewrite lookup_insert_eq. split; [auto | intros _; eexists; reflexivity].
  - rewrite lookup_insert_ne by congruence. split; [auto|].
    intros [E|E]; [contradiction | exact E].
Qed.

Lemma tagOrOther_set interruption : tagOrOther interruption <> "".
Proof.
  unfold tagOrOther. destruct (decide (Tag interruption = "")); [|assumption].
  discriminate.
Qed.

Lemma HourOf_range t : 0 <= HourOf t < 24.
Proof.
  unfold HourOf, secondOfDay, secondsPerDay.
  pose proof (Z.mod_pos_bound (localSeconds t) 86400 ltac:(lia)) as Hs.
  split; [apply Z.div_pos; lia|].
  apply Z.div_lt_upper_bound; lia.
Qed.

Lemma tallyKept_interruption stats total tag d :
  tag <> "" ->
  tallyKept (stats, total) ->
  tallyKept (countInterruption stats tag d, total).
Proof.
  unfold tallyKept. cbn [fst snd countInterruption TotalInterruptions
    InterruptionsByTag InterruptionDurationByTag HourlyProductivity].
  intros Htag (Hsum & Hkeys & Hempty & Hhours & Htotal).
  split; [rewrite sumValues_addAt, Hsum; reflexivity|].
  split; [intros j; rewrite !addAt_is_Some, Hkeys; reflexivity|].
  split; [|auto].
  unfold addAt. rewrite lookup_insert_ne by congruence. exact Hempty.
Qed.

Lemma tallyKept_session stats total w h :
  0 <= h < 24 ->
  tallyKept (stats, total) ->
  tallyKept (countSession stats w h, dadd total w).
Proof.
  unfold tallyKept. cbn [fst snd countSession TotalInterruptions
    InterruptionsByTag InterruptionDurationByTag HourlyProductivity].
  intros Hh (Hsum & Hkeys & Hempty & Hhours & Htotal).
  repeat (split; [assumption|]). split.
  - intros j d. unfold addAt. destruct (decide (j = h)) as [->|Hne].
    + intros _. exact Hh.
    + rewrite lookup_insert_ne by congruence. apply Hhours.
  - rewrite sumValues_addAt, Htotal. reflexivity.
Qed.

Lemma tallyKept_pairs ps t stats total :
  tallyKept (stats, total) ->
  tallyKept ((fold_left detailPairStep ps (t, stats)).2, total).
Proof.
  revert t stats. induction ps as [|p ps IH]; intros t stats H; [exact H|].
  cbn [fold_left]. unfold detailPairStep at 2. cbn [fst snd].
  apply IH, tallyKept_interruption; [apply tagOrOther_set | exact H].
Qed.

Lemma tallyKept_sessionStep st session :
  tallyKept st -> tallyKept (detailSessionStep st session).
Proof.
  destruct st as [stats total]. unfold detailSessionStep.
  destruct (Start session) as [start|]; [|auto].
  destruct (End_ session) as [end_|]; [|auto].
  intros H. cbv zeta. cbn [fst snd].
  apply tallyKept_session; [apply HourOf_range|].
  apply tallyKept_pairs, H.
Qed.

Lemma tallyKept_sessions ss st :
  tallyKept st -> tallyKept (fold_left detailSessionStep ss st).
Proof.
  revert st. induction ss as [|s ss IH]; intros st H; [exact H|].
  cbn [fold_left]. apply IH, tallyKept_sessionStep, H.
Qed.

Lemma tallyKept_days now days st :
  tallyKept st -> tallyKept (fold_left (detailDayStep now) days st).
Proof.
  revert st. induction days as [|e days IH]; intros st H; [exact H|].
  cbn [fold_left]. apply IH. unfold detailDayStep.
  apply tallyKept_sessions. destruct st as [stats total]. exact H.
Qed.

Lemma tallyKept_empty startDate endDate :
  tallyKept (emptyStats startDate endDate, 0).
Proof.
  unfold tallyKept. cbn.
  split; [reflexivity|]. split; [intros tag; rewrite !lookup_empty; tauto|].
  split; [reflexivity|]. split; [|reflexivity].
  intros h d. rewrite lookup_empty. discriminate.
Qed.

Lemma GetDetailedStats_Ok `{deps : Deps} s fs now rangeType stats :
  storage.GetDetailedStats s fs now rangeType = Ok stats ->
  exists range days,
    GetDateRange s fs now rangeType = Ok range /\
    loadedDays s fs now (rangeDays range.1 range.2) = Ok days /\
    stats = summary now range.1 range.2 days.
Proof.
  rewrite GetDetailedStats_summary.
  destruct (GetDateRange s fs now rangeType) as [range| |]; try discriminate.
  cbn [bind].
  destruct (loadedDays s fs now (rangeDays range.1 range.2)) as [days| |]
    eqn:El; try discriminate.
  cbn [bind]. intros [= <-]. exists range, days. auto.
Qed.

Lemma summary_tags_consistent now startDate endDate days :
  wrap64 (sumValues (InterruptionsByTag (summary now startDate endDate days)))
  = TotalInterruptions (summary now startDate endDate days) /\
  (forall tag,
     is_Some (InterruptionsByTag (summary now startDate endDate days) !! tag)
     <->
     is_Some (InterruptionDurationByTag (summary now startDate endDate days)
                !! tag)) /\
  InterruptionsByTag (summary now startDate endDate days) !! "" = None.
Proof.
  unfold summary.
  pose proof (tallyKept_days now days _
                (tallyKept_empty startDate endDate)) as Hkept.
  destruct (fold_left (detailDayStep now) days
              (emptyStats startDate endDate, 0)) as [stats total].
  destruct Hkept as (Hsum & Hkeys & Hempty & _ & _). cbn [fst snd] in *.
  unfold withAverageSessionTime. cbn [fst snd].
  destruct (0 <? TotalSessions stats); cbn; auto.
Qed.

(** In the detailed statistics of a range the count of interruptions is
    the sum of the counts by tag, the two maps by tag have the same tags,
    and no interruption is filed under the empty tag. *)
Theorem GetDetailedStats_tags_consistent `{deps : Deps} (s : Storage)
    (fs : FileSystem) (now : Time) (rangeType : string)
    (stats : DetailedStats) :
  storage.GetDetailedStats s fs now rangeType = Ok stats ->
  wrap64 (sumValues (InterruptionsByTag stats)) = TotalInterruptions stats /\
  (forall tag,
     is_Some (InterruptionsByTag stats !! tag) <->
     is_Some (InterruptionDurationByTag stats !! tag)) /\
  InterruptionsByTag stats !! "" = None /\
  InterruptionDurationByTag stats !! "" = None.
Proof.
  intros H. apply GetDetailedStats_Ok in H as (range & days & _ & _ & ->).
  destruct (summary_tags_consistent now range.1 range.2 days)
    as (Hsum & Hkeys & Hempty).
  repeat (split; [assumption|]).
  match goal with |- ?m !! _ = None => destruct (m !! "") eqn:E end;
    [|reflexivity].
  destruct (proj2 (Hkeys "") ltac:(eexists; exact E)) as [x Hx].
  pose proof (eq_trans (eq_sym Hx) Hempty) as Hc. discriminate Hc.
Qed.

(** ** The session times of the detailed statistics *)

Lemma fold_detailPairStep_time ps t stats :
  inInt64 t ->
  (fold_left detailPairStep ps (t, stats)).1 =
  wrap64 (t + sumZ (span <$> ps)).
Proof.
  revert t stats. induction ps as [|p ps IH]; intros t stats Ht.
  - cbn. rewrite Z.add_0_r, wrap64_id by assumption. reflexivity.
  - cbn [fold_left fmap list_fmap]. unfold detailPairStep at 2.
    cbn [fst snd]. rewrite IH by apply wrap64_range.
    unfold dadd, sumZ. cbn [foldr]. rewrite wrap64_add_l. f_equal. lia.
Qed.

Lemma fold_detailPairStep_sessions ps t stats :
  TotalSessions (fold_left detailPairStep ps (t, stats)).2 =
  TotalSessions stats /\
  LongestSession (fold_left detailPairStep ps (t, stats)).2 =
  LongestSession stats /\
  AverageSessionTime (fold_left detailPairStep ps (t, stats)).2 =
  AverageSessionTime stats.
Proof.
  revert t stats. induction ps as [|p ps IH]; intros t stats; [auto|].
  cbn [fold_left]. unfold detailPairStep at 2 4 6. cbn [fst snd].
  apply (IH _ (countInterruption stats (pairTag p) (span p))).
Qed.

Lemma detailSessionStep_times st session :
  match pureWorkTime session with
  | Some w =>
      TotalSessions (detailSessionStep st session).1 =
      wrap64 (TotalSessions st.1 + 1) /\
      LongestSession (detailSessionStep st session).1 =
      Z.max (LongestSession st.1) w /\
      AverageSessionTime (detailSessionStep st session).1 =
      AverageSessionTime st.1 /\
      (detailSessionStep st session).2 = dadd st.2 w
  | None => detailSessionStep st session = st
  end.
Proof.
  unfold pureWorkTime, detailSessionStep.
  destruct (Start session) as [start|]; [|reflexivity].
  destruct (End_ session) as [end_|]; [|reflexivity].
  cbv zeta. cbn [fst snd countSession TotalSessions LongestSession
                 AverageSessionTime].
  destruct (fold_detailPairStep_sessions (pairs (Interruptions session)) 0
              st.1) as (E1 & E2 & E3).
  pose proof (fold_detailPairStep_time (pairs (Interruptions session)) 0
                st.1 ltac:(unfold inInt64; lia)) as E4.
  rewrite Z.add_0_l in E4. fold (pairSpans (Interruptions session)) in E4.
  unfold Duration in *. rewrite E1, E2, E3, E4.
  repeat split.
  destruct (Z.ltb_spec (LongestSession st.1)
              (dsub (Sub (StartTime end_) (StartTime start))
                    (wrap64 (pairSpans (Interruptions session))))); lia.
Qed.

Lemma maxZ_nonneg l : 0 <= maxZ l.
Proof. unfold maxZ. induction l as [|x l IH]; cbn [foldr]; lia. Qed.

Lemma maxZ_app a b : maxZ (a ++ b) = Z.max (maxZ a) (maxZ b).
Proof.
  pose proof (maxZ_nonneg b) as Hb. unfold maxZ in *.
  induction a as [|x a IH]; cbn [app foldr]; [lia|].
  rewrite IH. lia.
Qed.

Lemma fold_detailSessionStep_times ss st :
  inInt64 (TotalSessions st.1) -> inInt64 st.2 ->
  TotalSessions (fold_left detailSessionStep ss st).1 =
  wrap64 (TotalSessions st.1
          + Z.of_nat (length (omap pureWorkTime ss))) /\
  LongestSession (fold_left detailSessionStep ss st).1 =
  fold_left Z.max (omap pureWorkTime ss) (LongestSession st.1) /\
  AverageSessionTime (fold_left detailSessionStep ss st).1 =
  AverageSessionTime st.1 /\
  (fold_left detailSessionStep ss st).2 =
  wrap64 (st.2 + sumZ (omap pureWorkTime ss)).
Proof.
  revert st. induction ss as [|s ss IH]; intros st Hn Ht.
  - cbn. rewrite !Z.add_0_r, !wrap64_id by assumption.
    repeat split.
  - cbn [fold_left omap list_omap].
    pose proof (detailSessionStep_times st s) as Hs.
    destruct (pureWorkTime s) as [w|].
    + destruct Hs as (E1 & E2 & E3 & E4). unfold Duration in *.
      destruct (IH (detailSessionStep st s)) as (F1 & F2 & F3 & F4).
      { rewrite E1. apply wrap64_range. }
      { rewrite E4. apply wrap64_range. }
      rewrite F1, F2, F3, F4, E1, E2, E3, E4.
      cbn [length fold_left sumZ foldr]. unfold dadd.
      rewrite !wrap64_add_l.
      split; [f_equal; lia|]. split; [reflexivity|].
      split; [reflexivity|]. f_equal. unfold sumZ. lia.
    + rewrite Hs. apply IH; assumption.
Qed.

Lemma fold_left_max l a : 0 <= a -> fold_left Z.max l a = Z.max a (maxZ l).
Proof.
  unfold maxZ. revert a. induction l as [|x l IH]; intros a Ha;
    cbn [fold_left foldr]; [lia|].
  rewrite IH by lia. lia.
Qed.

Lemma endedTimes_cons e days :
  endedTimes (e :: days) =
  omap pureWorkTime (Sessions e.2) ++ endedTimes days.
Proof. reflexivity. Qed.

Lemma fold_detailDayStep_times now days st :
  inInt64 (TotalSessions st.1) -> inInt64 st.2 ->
  TotalSessions (fold_left (detailDayStep now) days st).1 =
  wrap64 (TotalSessions st.1 + Z.of_nat (length (endedTimes days))) /\
  LongestSession (fold_left (detailDayStep now) days st).1 =
  fold_left Z.max (endedTimes days) (LongestSession st.1) /\
  AverageSessionTime (fold_left (detailDayStep now) days st).1 =
  AverageSessionTime st.1 /\
  (fold_left (detailDayStep now) days st).2 =
  wrap64 (st.2 + sumZ (endedTimes days)).
Proof.
  revert st. induction days as [|e days IH]; intros st Hn Ht.
  - cbn. rewrite !Z.add_0_r, !wrap64_id by assumption. repeat split.
  - cbn [fold_left]. rewrite endedTimes_cons.
    pose proof (fold_detailSessionStep_times (Sessions e.2)
                  (countDay st.1 (FormatDate e.1) (workOf now e.2), st.2)
                  Hn Ht) as HE.
    change (fold_left detailSessionStep (Sessions e.2)
              (countDay st.1 (FormatDate e.1) (workOf now e.2), st.2))
      with (detailDayStep now st e) in HE.
    cbn [fst snd countDay TotalSessions LongestSession AverageSessionTime]
      in HE.
    destruct HE as (E1 & E2 & E3 & E4). unfold Duration in *.
    destruct (IH (detailDayStep now st e)) as (F1 & F2 & F3 & F4).
    { rewrite E1. apply wrap64_range. }
    { rewrite E4. apply wrap64_range. }
    rewrite F1, F2, F3, F4, E1, E2, E3, E4.
    rewrite length_app, sumZ_app, fold_left_app, !wrap64_add_l.
    split; [f_equal; lia|]. split; [reflexivity|].
    split; [reflexivity|]. f_equal. lia.
Qed.

Lemma summary_times now startDate endDate days :
  TotalSessions (summary now startDate endDate days) =
  wrap64 (Z.of_nat (length (endedTimes days))) /\
  LongestSession (summary now startDate endDate days) =
  maxZ (endedTimes days) /\
  AverageSessionTime (summary now startDate endDate days) =
  (if 0 <? wrap64 (Z.of_nat (length (endedTimes days))) then
     ddiv (wrap64 (sumZ (endedTimes days)))
          (wrap64 (Z.of_nat (length (endedTimes days))))
   else 0).
Proof.
  unfold summary, withAverageSessionTime.
  destruct (fold_detailDayStep_times now days
              (emptyStats startDate endDate, 0))
    as (E1 & E2 & E3 & E4); try (cbn; unfold inInt64; lia).
  cbn [fst snd emptyStats TotalSessions LongestSession AverageSessionTime]
    in E1, E2, E3, E4.
  rewrite Z.add_0_l in E1, E4. rewrite fold_left_max in E2 by lia.
  rewrite Z.max_r in E2 by apply maxZ_nonneg.
  unfold Duration in *. rewrite E1.
  match goal with |- context [if ?c then _ else _] => destruct c end;
    cbn [setAverageSessionTime TotalSessions LongestSession
         AverageSessionTime]; rewrite ?E1, ?E2, ?E3, ?E4; auto.
Qed.

(** The session count of the detailed statistics is the number of
    sessions, in the days of the range that can be loaded, that have both
    a start and an end; the longest session is the largest pure work time
    among them (the time from start to end without the completed
    interruptions), and not below zero; the average session time is the
    sum of these times divided by their number, and zero when there is
    none. *)
Theorem GetDetailedStats_session_times `{deps : Deps} (s : Storage)
    (fs : FileSystem) (now : Time) (rangeType : string)
    (stats : DetailedStats) :
  storage.GetDetailedStats s fs now rangeType = Ok stats ->
  exists range days,
    GetDateRange s fs now rangeType = Ok range /\
    loadedDays s fs now (rangeDays range.1 range.2) = Ok days /\
    TotalSessions stats = wrap64 (Z.of_nat (length (endedTimes days))) /\
    LongestSession stats = maxZ (endedTimes days) /\
    0 <= LongestSession stats /\
    AverageSessionTime stats =
    (if 0 <? TotalSessions stats then
       ddiv (wrap64 (sumZ (endedTimes days))) (TotalSessions stats)
     else 0).
Proof.
  intros H. apply GetDetailedStats_Ok in H as (range & days & Hr & Hl & ->).
  exists range, days. split; [exact Hr|]. split; [exact Hl|].
  destruct (summary_times now range.1 range.2 days) as (E1 & E2 & E3).
  rewrite E1, E2, E3. repeat split. apply maxZ_nonneg.
Qed.

(** The hours of the work by hour are hours of the day, from 0 to 23, and
    the average session time is the sum of the work by hour divided by
    the session count. *)
Theorem GetDetailedStats_hours `{deps : Deps} (s : Storage)
    (fs : FileSystem) (now : Time) (rangeType : string)
    (stats : DetailedStats) :
  storage.GetDetailedStats s fs now rangeType = Ok stats ->
  (forall h d, HourlyProductivity stats !! h = Some d -> 0 <= h < 24) /\
  AverageSessionTime stats =
  (if 0 <? TotalSessions stats then
     ddiv (wrap64 (sumValues (HourlyProductivity stats)))
          (TotalSessions stats)
   else 0).
Proof.
  intros H. apply GetDetailedStats_Ok in H as (range & days & _ & _ & ->).
  destruct (summary_times now range.1 range.2 days) as (E1 & _ & E3).
  rewrite E3, E1. clear E1 E3. unfold summary.
  pose proof (tallyKept_days now days _
                (tallyKept_empty range.1 range.2)) as Hkept.
  destruct (fold_detailDayStep_times now days
              (emptyStats range.1 range.2, 0))
    as (_ & _ & _ & E4); try (cbn; unfold inInt64; lia).
  cbn [fst snd] in E4. rewrite Z.add_0_l in E4.
  destruct (fold_left (detailDayStep now) days
              (emptyStats range.1 range.2, 0)) as [stats total].
  destruct Hkept as (_ & _ & _ & Hhours & Htotal). cbn [fst snd] in *.
  assert (Hp : HourlyProductivity (withAverageSessionTime (stats, total)) =
               HourlyProductivity stats).
  { unfold withAverageSessionTime. cbn [fst snd].
    destruct (0 <? TotalSessions stats); reflexivity. }
  rewrite Hp. split; [exact Hhours|].
  unfold Duration in *. rewrite Htotal, E4. reflexivity.
Qed.

Lemma GetDetailedStats_tags_consistent_witness :
  exists stats,
    storage.GetDetailedStats
      (deps := oneDayWorld [meetingSession; lunchSession; pausedSession])
      plainStorage oneDayFiles (atMinute 800) "day" = Ok stats /\
    wrap64 (sumValues (InterruptionsByTag stats)) = TotalInterruptions stats /\
    (forall tag,
       is_Some (InterruptionsByTag stats !! tag) <->
       is_Some (InterruptionDurationByTag stats !! tag)) /\
    InterruptionsByTag stats !! "" = None /\
    InterruptionDurationByTag stats !! "" = None.
Proof.
  eexists. split; [vm_compute; reflexivity|].
  apply (GetDetailedStats_tags_consistent
           (deps := oneDayWorld [meetingSession; lunchSession; pausedSession])
           plainStorage oneDayFiles (atMinute 800) "day").
  vm_compute. reflexivity.
Defined.

Lemma GetDetailedStats_session_times_witness :
  exists stats,
    storage.GetDetailedStats
      (deps := oneDayWorld [meetingSession; lunchSession; pausedSession])
      plainStorage oneDayFiles (atMinute 800) "day" = Ok stats /\
    exists range days,
      GetDateRange
        (deps := oneDayWorld [meetingSession; lunchSession; pausedSession])
        plainStorage oneDayFiles (atMinute 800) "day" = Ok range /\
      loadedDays
        (deps := oneDayWorld [meetingSession; lunchSession; pausedSession])
        plainStorage oneDayFiles (atMinute 800) (rangeDays range.1 range.2)
      = Ok days /\
      TotalSessions stats = wrap64 (Z.of_nat (length (endedTimes days))) /\
      LongestSession stats = maxZ (endedTimes days) /\
      0 <= LongestSession stats /\
      AverageSessionTime stats =
      (if 0 <? TotalSessions stats then
         ddiv (wrap64 (sumZ (endedTimes days))) (TotalSessions stats)
       else 0).
Proof.
  eexists. split; [vm_compute; reflexivity|].
  apply (GetDetailedStats_session_times
           (deps := oneDayWorld [meetingSession; lunchSession; pausedSession])
           plainStorage oneDayFiles (atMinute 800) "day").
  vm_compute. reflexivity.
Defined.

Lemma GetDetailedStats_hours_witness :
  exists stats,
    storage.GetDetailedStats
      (deps := oneDayWorld [meetingSession; lunchSession; pausedSession])
      plainStorage oneDayFiles (atMinute 800) "day" = Ok stats /\
    (forall h d, HourlyProductivity stats !! h = Some d -> 0 <= h < 24) /\
    AverageSessionTime stats =
    (if 0 <? TotalSessions stats then
       ddiv (wrap64 (sumValues (HourlyProductivity stats)))
            (TotalSessions stats)
     else 0).
Proof.
  eexists. split; [vm_compute; reflexivity|].
  apply (GetDetailedStats_hours
           (deps := oneDayWorld [meetingSession; lunchSession; pausedSession])
           plainStorage oneDayFiles (atMinute 800) "day").
  vm_compute. reflexivity.
Defined.

(** * Further properties of the statistics of package [models] *)

Lemma fold_moreProductive l maxHour maxDuration :
  maxDuration <= (fold_left moreProductive l (maxHour, maxDuration)).2 /\
  (forall h d,
     (h, d) ∈ l ->
     d <= (fold_left moreProductive l (maxHour, maxDuration)).2) /\
  (fold_left moreProductive l (maxHour, maxDuration) = (maxHour, maxDuration)
   \/ (fold_left moreProductive l (maxHour, maxDuration) ∈ l /\
       maxDuration < (fold_left moreProductive l (maxHour, maxDuration)).2)).
Proof.
  revert maxHour maxDuration.
  induction l as [|[h d] l IH]; intros maxHour maxDuration.
  - cbn. split; [lia|]. split; [|auto].
    intros h d Hin. apply elem_of_nil in Hin. contradiction.
  - cbn [fold_left]. unfold moreProductive at 2 4 6 8 10.
    unfold Duration in *.
    destruct (Z.ltb_spec maxDuration d) as [Hlt|Hge].
    + destruct (IH h d) as (H1 & H2 & H3).
      split; [lia|]. split.
      * intros h' d' Hin. apply elem_of_cons in Hin as [[= -> ->]|Hin];
          [exact H1 | exact (H2 _ _ Hin)].
      * right. destruct H3 as [-> | [Hin Hlt']].
        -- split; [apply list_elem_of_here | exact Hlt].
        -- split; [apply elem_of_cons; right; exact Hin | lia].
    + destruct (IH maxHour maxDuration) as (H1 & H2 & H3).
      split; [exact H1|]. split.
      * intros h' d' Hin. apply elem_of_cons in Hin as [[= -> ->]|Hin];
          [lia | exact (H2 _ _ Hin)].
      * destruct H3 as [E | [Hin Hlt']]; [left; exact E|].
        right. split; [apply elem_of_cons; right; exact Hin | exact Hlt'].
Qed.

Lemma GetMostProductiveHour_spec s visit :
  visitsAll visit ->
  0 <= (GetMostProductiveHour s visit).2 /\
  (forall h d,
     HourlyProductivity s !! h = Some d ->
     d <= (GetMostProductiveHour s visit).2) /\
  (0 < (GetMostProductiveHour s visit).2 ->
   HourlyProductivity s !! (GetMostProductiveHour s visit).1 =
   Some (GetMostProductiveHour s visit).2) /\
  ((GetMostProductiveHour s visit).2 = 0 ->
   GetMostProductiveHour s visit = (0, 0)).
Proof.
  intros Hvisit. unfold GetMostProductiveHour.
  destruct (fold_moreProductive
              (visit (map_to_list (HourlyProductivity s))) 0 0)
    as (H1 & H2 & H3).
  remember (fold_left moreProductive
              (visit (map_to_list (HourlyProductivity s))) (0, 0)) as r.
  clear Heqr.
  split; [exact H1|]. split.
  - intros h d Hl. apply (H2 h d). rewrite Hvisit.
    apply elem_of_map_to_list. exact Hl.
  - split.
    + intros Hpos.
      destruct H3 as [E | [Hin _]];
        [rewrite E in Hpos; cbn in Hpos; lia|].
      rewrite Hvisit in Hin. apply elem_of_map_to_list' in Hin. exact Hin.
    + intros Hz. destruct H3 as [E | [_ Hlt]]; [exact E | lia].
Qed.

(** The duration that [GetMostProductiveHour] returns is the largest
    value of the work by hour, and zero when no value is above zero; it is
    the same in whatever order the map is visited. When it is above zero
    the hour returned is an hour with that value; when it is zero the
    hour returned is 0, also for statistics with no hour at all. *)
Theorem GetMostProductiveHour_largest (s : DetailedStats)
    (visit visit' : list (Z * Duration) -> list (Z * Duration)) :
  visitsAll visit -> visitsAll visit' ->
  0 <= (GetMostProductiveHour s visit).2 /\
  (forall h d,
     HourlyProductivity s !! h = Some d ->
     d <= (GetMostProductiveHour s visit).2) /\
  (0 < (GetMostProductiveHour s visit).2 ->
   HourlyProductivity s !! (GetMostProductiveHour s visit).1 =
   Some (GetMostProductiveHour s visit).2) /\
  ((GetMostProductiveHour s visit).2 = 0 ->
   GetMostProductiveHour s visit = (0, 0)) /\
  (GetMostProductiveHour s visit').2 = (GetMostProductiveHour s visit).2.
Proof.
  intros Hv Hv'.
  destruct (GetMostProductiveHour_spec s visit Hv) as (H1 & H2 & H3 & H4).
  destruct (GetMostProductiveHour_spec s visit' Hv')
    as (H1' & H2' & H3' & _).
  repeat (split; [assumption|]).
  apply Z.le_antisymm.
  - destruct (Z.eq_dec (GetMostProductiveHour s visit').2 0) as [E|Hne];
      [lia|].
    apply (H2 _ _ (H3' ltac:(lia))).
  - destruct (Z.eq_dec (GetMostProductiveHour s visit).2 0) as [E|Hne];
      [lia|].
    apply (H2' _ _ (H3 ltac:(lia))).
Qed.

Lemma GetMostProductiveHour_largest_witness :
  0 <= (GetMostProductiveHour tiedHours id).2 /\
  (forall h d,
     HourlyProductivity tiedHours !! h = Some d ->
     d <= (GetMostProductiveHour tiedHours id).2) /\
  (0 < (GetMostProductiveHour tiedHours id).2 ->
   HourlyProductivity tiedHours !! (GetMostProductiveHour tiedHours id).1 =
   Some (GetMostProductiveHour tiedHours id).2) /\
  ((GetMostProductiveHour tiedHours id).2 = 0 ->
   GetMostProductiveHour tiedHours id = (0, 0)) /\
  (GetMostProductiveHour tiedHours reverse).2 =
  (GetMostProductiveHour tiedHours id).2.
Proof.
  apply (GetMostProductiveHour_largest tiedHours id reverse).
  - intros l. reflexivity.
  - intros l. apply reverse_Permutation.
Defined.

(** With the same largest value in two hours, the hour returned depends
    on the order of the visit. *)
Example GetMostProductiveHour_tie :
  GetMostProductiveHour tiedHours id <>
  GetMostProductiveHour tiedHours reverse.
Proof. vm_compute. discriminate. Qed.

Lemma sumZ_Permutation l l' : l ≡ₚ l' -> sumZ l = sumZ l'.
Proof.
  unfold sumZ. induction 1; cbn [foldr]; lia.
Qed.

Lemma sumValues_to_list `{Countable K} (m : gmap K Z) :
  sumValues m = sumZ (map_to_list m).*2.
Proof.
  unfold sumValues, sumZ. rewrite map_fold_foldr.
  induction (map_to_list m) as [|[k v] l IH]; [reflexivity|].
  cbn [foldr fmap list_fmap uncurry snd]. rewrite IH. cbn. lia.
Qed.

Lemma breakdown_tags s l : statTag <$> (breakdownRow s <$> l) = l.*1.
Proof.
  induction l as [|[tag count] l IH]; [reflexivity|].
  cbn [fmap list_fmap] in *. rewrite IH. reflexivity.
Qed.

Lemma breakdown_counts s l : Count <$> (breakdownRow s <$> l) = l.*2.
Proof.
  induction l as [|[tag count] l IH]; [reflexivity|].
  cbn [fmap list_fmap] in *. rewrite IH. reflexivity.
Qed.

(** The breakdown by tag of the detailed statistics of a range has one
    row for every tag of the count by tag and no tag twice, in whatever
    order the map is visited; the counts of the rows add up to the count
    of interruptions, and the total time of a row is the entry of its tag
    in the duration by tag. *)
Theorem GetInterruptionBreakdown_of_GetDetailedStats `{deps : Deps}
    (s : Storage) (fs : FileSystem) (now : Time) (rangeType : string)
    (stats : DetailedStats)
    (visit : list (InterruptionTag * Z) -> list (InterruptionTag * Z)) :
  storage.GetDetailedStats s fs now rangeType = Ok stats ->
  visitsAll visit ->
  NoDup (statTag <$> GetInterruptionBreakdown stats visit) /\
  (forall tag count,
     InterruptionsByTag stats !! tag = Some count <->
     exists row,
       row ∈ GetInterruptionBreakdown stats visit /\
       statTag row = tag /\ Count row = count) /\
  wrap64 (sumZ (Count <$> GetInterruptionBreakdown stats visit)) =
  TotalInterruptions stats /\
  Forall (fun row =>
            InterruptionDurationByTag stats !! statTag row =
            Some (TotalTime row))
         (GetInterruptionBreakdown stats visit).
Proof.
  intros H Hvisit.
  apply GetDetailedStats_Ok in H as (range & days & _ & _ & ->).
  destruct (summary_tags_consistent now range.1 range.2 days)
    as (Hsum & Hkeys & _).
  set (stats := summary now range.1 range.2 days) in *.
  unfold GetInterruptionBreakdown.
  pose proof (Hvisit (map_to_list (InterruptionsByTag stats))) as Hperm.
  set (l := visit (map_to_list (InterruptionsByTag stats))) in *.
  assert (Hin : forall tag count,
            (tag, count) ∈ l <->
            InterruptionsByTag stats !! tag = Some count).
  { intros tag count. rewrite Hperm. apply elem_of_map_to_list. }
  split; [|split; [|split]].
  - rewrite breakdown_tags, Hperm. apply NoDup_fst_map_to_list.
  - intros tag count. rewrite <- Hin. split.
    + intros Hl. exists (breakdownRow stats (tag, count)).
      split; [|split; reflexivity].
      apply list_elem_of_fmap. exists (tag, count). auto.
    + intros (row & Hrow & <- & <-).
      apply list_elem_of_fmap in Hrow as ([tag count] & -> & Hl). exact Hl.
  - rewrite breakdown_counts, (sumZ_Permutation l.*2
      (map_to_list (InterruptionsByTag stats)).*2)
      by (apply fmap_Permutation; exact Hperm).
    rewrite <- sumValues_to_list. exact Hsum.
  - apply Forall_forall. intros row Hrow.
    apply list_elem_of_fmap in Hrow as ([tag count] & -> & Hl).
    apply Hin in Hl.
    destruct (proj1 (Hkeys tag) ltac:(eexists; exact Hl)) as [d Hd].
    cbn [breakdownRow statTag TotalTime].
    refine (eq_trans Hd _). f_equal. symmetry.
    exact (f_equal (default 0) Hd).
Qed.

Lemma GetInterruptionBreakdown_of_GetDetailedStats_witness :
  exists stats,
    storage.GetDetailedStats
      (deps := oneDayWorld [meetingSession; lunchSession; pausedSession])
      plainStorage oneDayFiles (atMinute 800) "day" = Ok stats /\
    NoDup (statTag <$> GetInterruptionBreakdown stats reverse) /\
    (forall tag count,
       InterruptionsByTag stats !! tag = Some count <->
       exists row,
         row ∈ GetInterruptionBreakdown stats reverse /\
         statTag row = tag /\ Count row = count) /\
    wrap64 (sumZ (Count <$> GetInterruptionBreakdown stats reverse)) =
    TotalInterruptions stats /\
    Forall (fun row =>
              InterruptionDurationByTag stats !! statTag row =
              Some (TotalTime row))
           (GetInterruptionBreakdown stats reverse).
Proof.
  eexists. split; [vm_compute; reflexivity|].
  apply (GetInterruptionBreakdown_of_GetDetailedStats
           (deps := oneDayWorld [meetingSession; lunchSession; pausedSession])
           plainStorage oneDayFiles (atMinute 800) "day").
  - vm_compute. reflexivity.
  - intros l. apply reverse_Permutation.
Defined.

(** * Further properties of the front end *)

(** ** The statistics of a session in the table *)

Lemma sessionStatsLoop_spec now fuel i xs d c :
  inInt64 d -> inInt64 c ->
  (length xs <= i + fuel)%nat ->
  sessionStatsLoop now fuel i xs d c =
  (wrap64 (d + sumZ (charges now (drop i xs))),
   wrap64 (c + Z.of_nat (length (charges now (drop i xs))))).
Proof.
  revert i d c. induction fuel as [|fuel IH]; intros i d c Hd Hc Hfuel.
  - cbn [sessionStatsLoop]. rewrite drop_ge by lia. cbn.
    rewrite !Z.add_0_r, !wrap64_id by assumption. reflexivity.
  - cbn [sessionStatsLoop].
    destruct (Nat.ltb_spec i (length xs)) as [Hi|Hi].
    + destruct (lookup_lt_is_Some_2 xs i Hi) as [a Ha]. rewrite Ha.
      destruct (Nat.ltb_spec (i + 1) (length xs)) as [Hi1|Hi1].
      * destruct (lookup_lt_is_Some_2 xs (i + 1) Hi1) as [b Hb].
        rewrite Hb, (drop_S xs a i Ha).
        replace (S i) with (i + 1)%nat by lia.
        rewrite (drop_S xs b (i + 1) Hb).
        replace (S (i + 1)) with (i + 2)%nat by lia.
        rewrite IH by (try apply wrap64_range; lia).
        cbn [charges length sumZ foldr]. unfold dadd at 1.
        rewrite !wrap64_add_l. unfold sumZ.
        f_equal; f_equal; lia.
      * rewrite (drop_S xs a i Ha), (drop_ge xs (S i)) by lia.
        rewrite IH by (try apply wrap64_range; lia).
        rewrite drop_ge by lia.
        cbn [charges length sumZ foldr]. unfold dadd.
        rewrite !wrap64_add_l, !Z.add_0_r. reflexivity.
    + rewrite drop_ge by lia. cbn.
      rewrite !Z.add_0_r, !wrap64_id by assumption. reflexivity.
Qed.

Lemma charges_length now xs :
  length (charges now xs) = ((length xs + 1) / 2)%nat.
Proof.
  induction xs as [| a | a b rest IH] using pair_induction;
    try reflexivity.
  cbn [charges length]. rewrite IH.
  replace (S (S (length rest)) + 1)%nat
    with (1 * 2 + (length rest + 1))%nat by lia.
  rewrite Nat.div_add_l by lia. lia.
Qed.

(** A session without a start has no statistics. For the others the
    interruption time is what the interruptions are charged (the span and
    ten minutes for a completed one, the time so far for an open one),
    cut down to the time from the start to the end of the session or to
    the current time; interruption time and work time add up to that
    time, and the work time is not below zero unless the charges are.
    An open interruption counts as an interruption. *)
Theorem calculateSessionStats_bounds (now : Time) (session : Session) :
  (Start session = None -> calculateSessionStats now session = (0, 0, 0))
  /\ (forall start,
        Start session = Some start ->
        (calculateSessionStats now session).1.2 =
        Z.min (Sub (sessionEnd now session) (StartTime start))
              (wrap64 (sumZ (charges now (Interruptions session)))) /\
        wrap64 ((calculateSessionStats now session).1.1
                + (calculateSessionStats now session).1.2) =
        Sub (sessionEnd now session) (StartTime start) /\
        (0 <= (calculateSessionStats now session).1.2 ->
         0 <= (calculateSessionStats now session).1.1
           <= Sub (sessionEnd now session) (StartTime start)) /\
        (calculateSessionStats now session).2 =
        wrap64 (Z.of_nat ((length (Interruptions session) + 1) / 2))).
Proof.
  unfold calculateSessionStats, sessionEnd. split.
  - intros ->. reflexivity.
  - intros start ->.
    rewrite sessionStatsLoop_spec by (unfold inInt64; lia).
    rewrite drop_0, !Z.add_0_l, charges_length.
    set (total := Sub match End_ session with
                      | Some e => StartTime e
                      | None => now
                      end (StartTime start)).
    set (raw := wrap64 (sumZ (charges now (Interruptions session)))).
    pose proof (Sub_range match End_ session with
                          | Some e => StartTime e
                          | None => now
                          end (StartTime start)) as Ht.
    fold total in Ht.
    pose proof (wrap64_range (sumZ (charges now (Interruptions session))))
      as Hr.
    fold raw in Hr. unfold inInt64 in *. cbn [fst snd]. unfold dsub.
    destruct (Z.ltb_spec total raw) as [Hlt|Hge].
    + split; [lia|]. split; [rewrite wrap64_add_l;
               match goal with
               | |- wrap64 ?x = _ => replace x with total by lia
               end; apply wrap64_id; unfold inInt64; lia|].
      split; [|reflexivity].
      intros Hpos. rewrite wrap64_id by (unfold inInt64; lia). lia.
    + split; [lia|]. split; [rewrite wrap64_add_l;
               match goal with
               | |- wrap64 ?x = _ => replace x with total by lia
               end; apply wrap64_id; unfold inInt64; lia|].
      split; [|reflexivity].
      intros Hpos. rewrite wrap64_id by (unfold inInt64; lia). lia.
Qed.

(** ** The session commands *)

Section MoreCommands.
Context {deps : Deps}.

Lemma runningIsActive_same ui ui' :
  currentDay ui' = currentDay ui ->
  activeSession ui' = activeSession ui ->
  runningIsActive ui -> runningIsActive ui'.
Proof. unfold runningIsActive. intros -> ->. auto. Qed.

Lemma runningIsActive_saveDay ui fs now random okText errText :
  runningIsActive ui ->
  runningIsActive (saveDay ui fs now random okText errText).1.
Proof.
  destruct (saveDay_state ui fs now random okText errText) as [E1 E2].
  apply runningIsActive_same; assumption.
Qed.

Lemma runningIsActive_update ui f :
  (forall s, End_ (f s) = End_ s) ->
  runningIsActive ui -> runningIsActive (updateActive ui f).
Proof.
  intros Hf Hinv. unfold updateActive.
  destruct (activeSession ui) as [i|] eqn:Hi; [|exact Hinv].
  intros j s'. cbn [setSessions currentDay Sessions activeSession].
  rewrite Hi. destruct (decide (j = i)) as [->|Hne].
  - rewrite list_lookup_alter_eq.
    destruct (Sessions (currentDay ui) !! i) as [s|] eqn:Hs;
      [|discriminate].
    intros [= <-]. rewrite Hf.
    pose proof (Hinv i s Hs) as H. rewrite Hi in H. exact H.
  - rewrite list_lookup_alter_ne by congruence.
    intros Hs. pose proof (Hinv j s' Hs) as H. rewrite Hi in H. exact H.
Qed.

Lemma appendBoth_End entry s : End_ (appendBoth entry s) = End_ s.
Proof. reflexivity. Qed.

Lemma startSession_running ui fs now random description :
  runningIsActive ui ->
  runningIsActive (startSession ui fs now random description).1.
Proof.
  intros Hinv. unfold startSession.
  destruct (activeSession ui) as [i|] eqn:Hi;
    [apply (runningIsActive_same ui); auto|].
  destruct description as [description|]; [|exact Hinv].
  apply runningIsActive_saveDay.
  intros j s. cbn [setActive setSessions currentDay Sessions activeSession].
  intros Hs.
  destruct (Nat.lt_ge_cases j (length (Sessions (currentDay ui))))
    as [Hlt|Hge].
  - rewrite lookup_app_l in Hs by exact Hlt.
    pose proof (Hinv j s Hs) as Hj. rewrite Hi in Hj.
    split; [intros He; apply Hj in He; discriminate He|].
    intros [= E]. lia.
  - rewrite lookup_app_r in Hs by exact Hge.
    destruct (j - length (Sessions (currentDay ui)))%nat as [|k] eqn:Hk;
      [|destruct k; discriminate Hs].
    injection Hs as <-. cbn [NewSession End_].
    split; [intros _; f_equal; lia | reflexivity].
Qed.

Lemma endSession_running ui fs now random :
  runningIsActive ui ->
  runningIsActive (endSession ui fs now random).1.
Proof.
  intros Hinv. unfold endSession, active.
  destruct (activeSession ui) as [i|] eqn:Hi;
    [|apply (runningIsActive_same ui); auto].
  destruct (Sessions (currentDay ui) !! i) as [s|] eqn:Hs;
    [|apply (runningIsActive_same ui); auto].
  destruct (subInterrupted s); [apply (runningIsActive_same ui); auto|].
  apply runningIsActive_saveDay.
  unfold updateActive. rewrite Hi.
  intros j s'. cbn [setActive setSessions currentDay Sessions activeSession].
  destruct (decide (j = i)) as [->|Hne].
  - rewrite list_lookup_alter_eq, Hs. intros [= <-].
    cbn [updateCurrentSubSession setEnd End_]. split; discriminate.
  - rewrite list_lookup_alter_ne by congruence. intros Hj.
    pose proof (Hinv j s' Hj) as Hiff. rewrite Hi in Hiff.
    split; [|discriminate].
    intros He. apply Hiff in He. congruence.
Qed.

Lemma interruptSession_running ui fs now random choice :
  runningIsActive ui ->
  runningIsActive (interruptSession ui fs now random choice).1.
Proof.
  intros Hinv. unfold interruptSession.
  destruct (active ui) as [s|]; [|apply (runningIsActive_same ui); auto].
  destruct (currentSubSession s) as [sub|];
    [|apply (runningIsActive_same ui); auto].
  destruct (interrupted (subInterruptions sub));
    [apply (runningIsActive_same ui); auto|].
  destruct (chosenEntry now choice) as [entry|]; [|exact Hinv].
  unfold recordInterruption.
  apply runningIsActive_saveDay, runningIsActive_update; [|exact Hinv].
  intros s0. destruct (0 <? length (SubSessions s0))%nat; reflexivity.
Qed.

Lemma backFromInterruption_running ui fs now random :
  runningIsActive ui ->
  runningIsActive (backFromInterruption ui fs now random).1.
Proof.
  intros Hinv. unfold backFromInterruption.
  destruct (active ui) as [s|]; [|apply (runningIsActive_same ui); auto].
  destruct (currentSubSession s) as [sub|];
    [|apply (runningIsActive_same ui); auto].
  destruct (negb (interrupted (subInterruptions sub)));
    [apply (runningIsActive_same ui); auto|].
  apply runningIsActive_saveDay, runningIsActive_update; [|exact Hinv].
  intros s0. reflexivity.
Qed.

(** The four session commands keep the running session and the active
    session the same: when, before a command, the sessions without an end
    entry are exactly the session that [activeSession] points to, this
    holds after the command, whether or not the day could be saved. So no
    command leaves two sessions running, and none leaves an ended session
    active. *)
Theorem commands_keep_running_active (ui : TimerUI) (fs : FileSystem)
    (now : Time) (random : bytes) (description : option string)
    (choice : TagChoice) :
  runningIsActive ui ->
  runningIsActive (startSession ui fs now random description).1 /\
  runningIsActive (endSession ui fs now random).1 /\
  runningIsActive (interruptSession ui fs now random choice).1 /\
  runningIsActive (backFromInterruption ui fs now random).1.
Proof.
  intros Hinv.
  split; [apply startSession_running, Hinv|].
  split; [apply endSession_running, Hinv|].
  split; [apply interruptSession_running, Hinv|].
  apply backFromInterruption_running, Hinv.
Qed.

End MoreCommands.

Lemma pausedUI_running : runningIsActive pausedUI.
Proof.
  intros j s. destruct j as [|j]; cbn.
  - intros [= <-]. split; reflexivity.
  - intros Hs. destruct j; discriminate Hs.
Qed.

Lemma commands_keep_running_active_witness :
  runningIsActive
    (startSession (deps := oneDayWorld [pausedSession]) pausedUI oneDayFiles
       (atMinute 800) [] (Some "review")).1 /\
  runningIsActive
    (endSession (deps := oneDayWorld [pausedSession]) pausedUI oneDayFiles
       (atMinute 800) []).1 /\
  runningIsActive
    (interruptSession (deps := oneDayWorld [pausedSession]) pausedUI
       oneDayFiles (atMinute 800) [] ChooseCall).1 /\
  runningIsActive
    (backFromInterruption (deps := oneDayWorld [pausedSession]) pausedUI
       oneDayFiles (atMinute 800) []).1.
Proof.
  apply (commands_keep_running_active
           (deps := oneDayWorld [pausedSession]) pausedUI oneDayFiles
           (atMinute 800) [] (Some "review") ChooseCall).
  exact pausedUI_running.
Defined.

Section SessionLife.
Context {deps : Deps}.

Lemma lastActive_active ui ss x : lastActive ui ss x -> active ui = Some x.
Proof.
  intros [Hs Ha]. unfold active. rewrite Ha, Hs.
  rewrite lookup_app_r by lia. rewrite Nat.sub_diag. reflexivity.
Qed.

Lemma lastActive_update ui ss x f :
  lastActive ui ss x -> lastActive (updateActive ui f) ss (f x).
Proof.
  intros [Hs Ha]. unfold lastActive, updateActive. rewrite Ha.
  cbn [setSessions currentDay Sessions activeSession]. rewrite Hs.
  split; [|exact Ha].
  rewrite <- (Nat.add_0_r (length ss)) at 1. rewrite alter_app_r.
  reflexivity.
Qed.

Lemma lastActive_saveDay ui ss x fs now random okText errText :
  lastActive ui ss x ->
  lastActive (saveDay ui fs now random okText errText).1 ss x.
Proof.
  destruct (saveDay_state ui fs now random okText errText) as [E1 E2].
  unfold lastActive. rewrite E1, E2. auto.
Qed.

Lemma startSession_lastActive ui fs now random description :
  activeSession ui = None ->
  lastActive (startSession ui fs now random (Some description)).1
    (Sessions (currentDay ui))
    (NewSession now (NewTimeEntry now EntryTypeStart description)).
Proof.
  intros Hidle. unfold startSession. rewrite Hidle.
  apply lastActive_saveDay. split; reflexivity.
Qed.

Lemma interruptSession_lastActive ui fs now random choice ss x sub entry :
  lastActive ui ss x ->
  currentSubSession x = Some sub ->
  interrupted (subInterruptions sub) = false ->
  chosenEntry now choice = Some entry ->
  lastActive (interruptSession ui fs now random choice).1 ss
    (appendBoth entry x).
Proof.
  intros Hl Hsub Hint Hentry. unfold interruptSession.
  rewrite (lastActive_active ui ss x Hl), Hsub, Hint, Hentry.
  unfold recordInterruption. apply lastActive_saveDay.
  pose proof (lastActive_update ui ss x
                (fun session =>
                   if (0 <? length (SubSessions session))%nat then
                     appendInterruption entry
                       (updateCurrentSubSession (appendSubInterruption entry)
                          session)
                   else appendInterruption entry session) Hl) as H.
  cbv beta in H.
  rewrite (currentSubSession_nonempty x sub Hsub) in H. exact H.
Qed.

Lemma backFromInterruption_lastActive ui fs now random ss x sub :
  lastActive ui ss x ->
  currentSubSession x = Some sub ->
  interrupted (subInterruptions sub) = true ->
  lastActive (backFromInterruption ui fs now random).1 ss
    (appendBoth (NewTimeEntry now EntryTypeReturn "") x).
Proof.
  intros Hl Hsub Hint. unfold backFromInterruption.
  rewrite (lastActive_active ui ss x Hl), Hsub, Hint. cbn [negb].
  apply lastActive_saveDay.
  apply (lastActive_update ui ss x
           (fun session =>
              appendInterruption (NewTimeEntry now EntryTypeReturn "")
                (updateCurrentSubSession
                   (appendSubInterruption
                      (NewTimeEntry now EntryTypeReturn "")) session)) Hl).
Qed.

Lemma endSession_lastActive ui fs now random ss x :
  lastActive ui ss x ->
  subInterrupted x = false ->
  Sessions (currentDay (endSession ui fs now random).1) =
  ss ++ [updateCurrentSubSession
           (setSubEnd (NewTimeEntry now EntryTypeEnd ""))
           (setEnd (NewTimeEntry now EntryTypeEnd "") x)] /\
  activeSession (endSession ui fs now random).1 = None.
Proof.
  intros Hl Hint. unfold endSession.
  rewrite (lastActive_active ui ss x Hl), Hint.
  match goal with
  | |- context [saveDay ?u ?f ?n ?r ?a ?b] =>
      destruct (saveDay_state u f n r a b) as [E1 E2]
  end.
  rewrite E1, E2. cbn [setActive currentDay activeSession].
  split; [|reflexivity].
  apply (lastActive_update ui ss x
           (fun session =>
              updateCurrentSubSession
                (setSubEnd (NewTimeEntry now EntryTypeEnd ""))
                (setEnd (NewTimeEntry now EntryTypeEnd "") session)) Hl).
Qed.

(** A session that is started at [t1], interrupted at [t2], returned to
    at [t3] and ended at [t4], from a front end with no active session,
    is the last session of the day and no session is active after it; it
    adds to the totals of the day the time from [t1] to [t4] without the
    time from [t2] to [t3] as work, the time from [t2] to [t3] as
    interruption and one interruption, whatever the current time is when
    the totals are taken and whether or not the day could be saved after
    each command. *)
Theorem session_lifecycle_accounting (ui : TimerUI)
    (fs1 fs2 fs3 fs4 : FileSystem) (t1 t2 t3 t4 now : Time)
    (r1 r2 r3 r4 : bytes) (description : string) (choice : TagChoice) :
  activeSession ui = None ->
  choice <> NoChoice ->
  let ui1 := (startSession ui fs1 t1 r1 (Some description)).1 in
  let ui2 := (interruptSession ui1 fs2 t2 r2 choice).1 in
  let ui3 := (backFromInterruption ui2 fs3 t3 r3).1 in
  let ui4 := (endSession ui3 fs4 t4 r4).1 in
  activeSession ui4 = None /\
  length (Sessions (currentDay ui4)) =
  S (length (Sessions (currentDay ui))) /\
  GetStats now (currentDay ui4) =
  withPeriod (GetStats now (currentDay ui)) (Sub t4 t1) (Sub t3 t2).
Proof.
  intros Hidle Hchoice ui1 ui2 ui3 ui4.
  destruct (chosenEntry t2 choice) as [entry|] eqn:Hentry;
    [|destruct choice; try discriminate Hentry; contradiction].
  assert (Htime : StartTime entry = t2).
  { destruct choice; try discriminate Hentry;
      injection Hentry as <-; reflexivity. }
  pose proof (startSession_lastActive ui fs1 t1 r1 description Hidle) as H1.
  fold ui1 in H1.
  pose proof (interruptSession_lastActive ui1 fs2 t2 r2 choice _ _ _ entry
                H1 eq_refl eq_refl Hentry) as H2.
  fold ui2 in H2.
  pose proof (backFromInterruption_lastActive ui2 fs3 t3 r3 _ _ _
                H2 eq_refl eq_refl) as H3.
  fold ui3 in H3.
  destruct (endSession_lastActive ui3 fs4 t4 r4 _ _ H3 eq_refl)
    as [H4 H5].
  fold ui4 in H4, H5.
  split; [exact H5|]. split; [rewrite H4, length_app; cbn; lia|].
  unfold GetStats. rewrite H4, fold_left_app.
  destruct (fold_left (statsSession now) (Sessions (currentDay ui))
              (0, 0, 0)) as [[w i] c].
  cbn. rewrite Htime. unfold withPeriod, dadd, dsub. cbn [fst snd].
  pose proof (Sub_range t3 t2) as Hr.
  rewrite !wrap64_add_r.
  rewrite (wrap64_id (0 + Sub t3 t2)) by (rewrite Z.add_0_l; exact Hr).
  rewrite Z.add_0_l. reflexivity.
Qed.

End SessionLife.

Lemma session_lifecycle_accounting_witness :
  let ui1 :=
    (startSession (deps := oneDayWorld []) idleUI noFiles (atMinute 540) []
       (Some "writing")).1 in
  let ui2 :=
    (interruptSession (deps := oneDayWorld []) ui1 noFiles (atMinute 570) []
       ChooseCall).1 in
  let ui3 :=
    (backFromInterruption (deps := oneDayWorld []) ui2 noFiles
       (atMinute 580) []).1 in
  let ui4 :=
    (endSession (deps := oneDayWorld []) ui3 noFiles (atMinute 600) []).1 in
  activeSession ui4 = None /\
  length (Sessions (currentDay ui4)) = S (length (Sessions (dayOf []))) /\
  GetStats (atMinute 900) (currentDay ui4) =
  withPeriod (GetStats (atMinute 900) (dayOf []))
    (Sub (atMinute 600) (atMinute 540)) (Sub (atMinute 580) (atMinute 570)).
Proof.
  exact (session_lifecycle_accounting (deps := oneDayWorld []) idleUI
           noFiles noFiles noFiles noFiles
           (atMinute 540) (atMinute 570) (atMinute 580) (atMinute 600)
           (atMinute 900) [] [] [] [] "writing" ChooseCall
           eq_refl ltac:(discriminate)).
Defined.

Section EndSession.
Context {deps : Deps}.

(** Ending acts on the active session only. It is refused while the
    current sub-session has an interruption open. When it is accepted the
    session and its current sub-session get the same end entry, taken at
    the current time; the start, the interruptions and the earlier
    sub-sessions of the session, and the other sessions, are as they
    were; no session is active afterwards, so that ending once more is
    refused. This holds whether or not the day could be saved. *)
Theorem endSession_closes (ui : TimerUI) (fs fs' : FileSystem)
    (now now' : Time) (random random' : bytes) (i : nat) (s : Session) :
  activeSession ui = Some i ->
  Sessions (currentDay ui) !! i = Some s ->
  (subInterrupted s = true ->
   endSession ui fs now random =
   (setStatus ui
      "[red]Cannot end session while interrupted. Return from interruption first",
    fs))
  /\ (subInterrupted s = false ->
      activeSession (endSession ui fs now random).1 = None /\
      (forall j, j <> i ->
         Sessions (currentDay (endSession ui fs now random).1) !! j =
         Sessions (currentDay ui) !! j) /\
      (exists s',
         Sessions (currentDay (endSession ui fs now random).1) !! i =
         Some s' /\
         End_ s' = Some (NewTimeEntry now EntryTypeEnd "") /\
         sessID s' = sessID s /\
         Start s' = Start s /\
         Interruptions s' = Interruptions s /\
         length (SubSessions s') = length (SubSessions s) /\
         currentSubSession s' =
         setSubEnd (NewTimeEntry now EntryTypeEnd "")
           <$> currentSubSession s /\
         (forall k, (S k < length (SubSessions s))%nat ->
            SubSessions s' !! k = SubSessions s !! k)) /\
      endSession (endSession ui fs now random).1 fs' now' random' =
      (setStatus (endSession ui fs now random).1
         "[red]No active session to end", fs')).
Proof.
  intros Hi Hs.
  assert (Ha : active ui = Some s) by (unfold active; rewrite Hi; exact Hs).
  split; intros Hint; [unfold endSession; rewrite Ha, Hint; reflexivity|].
  set (ui' := (endSession ui fs now random).1).
  set (entry := NewTimeEntry now EntryTypeEnd "").
  assert (Hstate :
            currentDay ui' =
            currentDay
              (updateActive ui
                 (fun session =>
                    updateCurrentSubSession (setSubEnd entry)
                      (setEnd entry session))) /\
            activeSession ui' = None).
  { unfold ui', endSession. rewrite Ha, Hint.
    match goal with
    | |- context [saveDay ?u ?f ?n ?r ?a ?b] =>
        destruct (saveDay_state u f n r a b) as [E1 E2]
    end.
    rewrite E1, E2. split; reflexivity. }
  destruct Hstate as [E1 E2].
  destruct (updateActive_lookup ui
              (fun session =>
                 updateCurrentSubSession (setSubEnd entry)
                   (setEnd entry session))
              i s Hi Hs) as (L1 & L2 & _).
  split; [exact E2|]. split; [intros j Hj; rewrite E1; apply L2, Hj|].
  split.
  - eexists. split; [rewrite E1; exact L1|].
    cbn [updateCurrentSubSession setEnd End_ sessID Start Interruptions
         SubSessions].
    repeat (split; [reflexivity|]).
    split; [apply length_alter|]. split.
    + apply (currentSubSession_update (setSubEnd entry) (setEnd entry s)).
    + intros k Hk. apply list_lookup_alter_ne. lia.
  - unfold endSession, active. rewrite E2. reflexivity.
Qed.

End EndSession.

Lemma endSession_closes_witness :
  activeSession pausedUI = Some 0%nat /\
  Sessions (currentDay pausedUI) !! 0%nat = Some pausedSession /\
  subInterrupted pausedSession = true /\
  endSession (deps := oneDayWorld [pausedSession]) pausedUI oneDayFiles
    (atMinute 800) [] =
  (setStatus pausedUI
     "[red]Cannot end session while interrupted. Return from interruption first",
   oneDayFiles).
Proof.
  split; [reflexivity|]. split; [reflexivity|]. split; [reflexivity|].
  exact (proj1 (endSession_closes (deps := oneDayWorld [pausedSession])
                  pausedUI oneDayFiles oneDayFiles (atMinute 800)
                  (atMinute 800) [] [] 0%nat pausedSession
                  eq_refl eq_refl) eq_refl).
Defined.

(** ** The front end at start *)

Lemma findActive_Some sessions i x :
  findActive sessions = Some (i, x) ->
  sessions !! i = Some x /\ End_ x = None /\
  forall j s, (j < i)%nat -> sessions !! j = Some s -> End_ s <> None.
Proof.
  revert i. induction sessions as [|s0 ss IH]; intros i; [discriminate|].
  cbn [findActive]. destruct (End_ s0) as [e|] eqn:He.
  - destruct (findActive ss) as [[k y]|]; [|discriminate].
    cbn. intros [= <- <-]. destruct (IH k eq_refl) as (H1 & H2 & H3).
    split; [exact H1|]. split; [exact H2|].
    intros [|j] s Hj; cbn.
    + intros [= <-]. congruence.
    + apply H3. lia.
  - intros [= <- <-]. split; [reflexivity|]. split; [exact He|].
    intros j s Hj. lia.
Qed.

Lemma findActive_None sessions :
  findActive sessions = None -> Forall (fun s => End_ s <> None) sessions.
Proof.
  induction sessions as [|s0 ss IH]; [constructor|].
  cbn [findActive]. destruct (End_ s0) as [e|] eqn:He; [|discriminate].
  destruct (findActive ss) as [[k y]|]; [discriminate|].
  intros _. constructor; [congruence | apply IH; reflexivity].
Qed.

Section Startup.
Context {deps : Deps}.

Lemma NewTimerUI_state storage fs now random random' ui fs' :
  NewTimerUI storage fs now random random' = Ok (ui, fs') ->
  uiStorage ui = storage /\
  statusBar ui = standardInstructions /\
  match activeSession ui with
  | Some i => firstRunning (Sessions (currentDay ui)) i
  | None => Forall (fun s => End_ s <> None) (Sessions (currentDay ui))
  end.
Proof.
  unfold NewTimerUI.
  destruct (LoadDailySessions storage fs now (Truncate now (24 * Hour)))
    as [day| |]; try discriminate.
  cbn [wrapErr bind activeSession].
  destruct (findActive (Sessions day)) as [[i x]|] eqn:Hfind.
  - cbn. intros [= <- <-]. cbn. repeat split.
    + destruct (findActive_Some _ _ _ Hfind) as (H1 & H2 & _). eauto.
    + apply (findActive_Some _ _ _ Hfind).
  - cbn [fmap option_fmap option_map].
    assert (Hidle :
              forall u : TimerUI * FileSystem,
                u = ({| uiStorage := storage; currentDay := day;
                        activeSession := None;
                        statusBar := standardInstructions |}, fs) ->
                Ok u = Ok (ui, fs') ->
                uiStorage ui = storage /\
                statusBar ui = standardInstructions /\
                match activeSession ui with
                | Some i => firstRunning (Sessions (currentDay ui)) i
                | None =>
                    Forall (fun s => End_ s <> None) (Sessions (currentDay ui))
                end).
    { intros u -> [= <- <-]. cbn. repeat split.
      apply findActive_None, Hfind. }
    destruct (LoadDailySessions storage fs now
                (AddDate (Truncate now (24 * Hour)) 0 0 (-1)))
      as [previous| |]; try discriminate;
      [|apply Hidle; reflexivity].
    destruct (findActive (Sessions previous)) as [[k x]|] eqn:Hprev;
      [|apply Hidle; reflexivity].
    destruct (findActive_Some _ _ _ Hprev) as (_ & Hx & _).
    destruct (SaveDailySessions storage fs now random _) as [fs1| |];
      try discriminate.
    cbn [wrapErr bind].
    destruct (SaveDailySessions storage fs1 now random' _) as [fs2| |];
      try discriminate.
    cbn [wrapErr bind]. intros [= <- <-].
    cbn [setActive setSessions uiStorage statusBar activeSession currentDay
         Sessions].
    repeat split.
    + exists x. split; [|exact Hx].
      rewrite lookup_app_r by lia. rewrite Nat.sub_diag. reflexivity.
    + intros j s Hj Hs. rewrite lookup_app_l in Hs by exact Hj.
      pose proof (findActive_None _ Hfind) as Hall.
      rewrite Forall_forall in Hall. apply Hall.
      apply list_elem_of_lookup. eauto.
Qed.

(** The front end starts with the first session of its day that has not
    ended as the active session, and with no active session when every
    session of the day has ended; the day is the day of the file, with a
    session of the previous day that has not ended added at its end when
    the day itself has none. When the day in memory has at most one
    session that has not ended, the sessions that have not ended are
    exactly the active session. *)
Theorem NewTimerUI_activates_running (storage : Storage) (fs fs' : FileSystem)
    (now : Time) (random random' : bytes) (ui : TimerUI) :
  NewTimerUI storage fs now random random' = Ok (ui, fs') ->
  match activeSession ui with
  | Some i => firstRunning (Sessions (currentDay ui)) i
  | None => Forall (fun s => End_ s <> None) (Sessions (currentDay ui))
  end /\
  (oneRunning (Sessions (currentDay ui)) -> runningIsActive ui).
Proof.
  intros H. apply NewTimerUI_state in H as (_ & _ & Hact).
  split; [exact Hact|].
  intros Hone j s Hs. destruct (activeSession ui) as [i|].
  - destruct Hact as [(x & Hx & He) _]. split.
    + intros Hrun. f_equal. exact (Hone i j x s Hx Hs He Hrun).
    + intros [= ->]. congruence.
  - rewrite Forall_forall in Hact. split; [|discriminate].
    intros Hrun. exfalso. apply (Hact s); [|exact Hrun].
    apply list_elem_of_lookup. eauto.
Qed.

End Startup.

(** A session that was left running on the previous day is moved to the
    current day at start: when the file of the current day has no session
    without an end and the file of the previous day has one, the front
    end starts with that session as the active and last session of its
    day, the file of the current day then holds the day with the session
    and the file of the previous day holds that day without it. *)
Theorem NewTimerUI_moves_running_session `{deps : Deps} (storage : Storage)
    (fs : FileSystem) (now now' : Time) (random random' : bytes)
    (day previous : DailySessions) (k : nat) (x : Session) :
  LoadDailySessions storage fs now (Truncate now (24 * Hour)) = Ok day ->
  findActive (Sessions day) = None ->
  LoadDailySessions storage fs now
    (AddDate (Truncate now (24 * Hour)) 0 0 (-1)) = Ok previous ->
  findActive (Sessions previous) = Some (k, x) ->
  readsBack (withSession day x) ->
  readsBack (withoutSession previous k) ->
  aeadCorrect aesgcm -> aeadTagged aesgcm ->
  canSeal storage random -> canSeal storage random' ->
  getFilePath storage (Truncate now (24 * Hour)) =
  getFilePath storage (Date_ day) ->
  getFilePath storage (AddDate (Truncate now (24 * Hour)) 0 0 (-1)) =
  getFilePath storage (Date_ previous) ->
  getFilePath storage (Date_ day) <> getFilePath storage (Date_ previous) ->
  exists ui fs',
    NewTimerUI storage fs now random random' = Ok (ui, fs') /\
    currentDay ui = withSession day x /\
    active ui = Some x /\
    LoadDailySessions storage fs' now' (Truncate now (24 * Hour)) =
    Ok (withSession day x) /\
    LoadDailySessions storage fs' now'
      (AddDate (Truncate now (24 * Hour)) 0 0 (-1)) =
    Ok (withoutSession previous k).
Proof.
  intros Hday Hnone Hprev Hfound Hback1 Hback2 Hcorrect Htag Hseal Hseal'
    Hpath1 Hpath2 Hdiffer.
  destruct (saved_is_loaded storage fs now now' (Truncate now (24 * Hour))
              random (withSession day x) Hback1 Hcorrect Htag Hseal Hpath1)
    as (fs1 & Hsave1 & Hload1 & _).
  destruct (saved_is_loaded storage fs1 now now'
              (AddDate (Truncate now (24 * Hour)) 0 0 (-1))
              random' (withoutSession previous k) Hback2 Hcorrect Htag
              Hseal' Hpath2)
    as (fs2 & Hsave2 & Hload2 & Hframe).
  eexists _, fs2. split.
  - unfold NewTimerUI. rewrite Hday. cbn [wrapErr bind activeSession].
    rewrite Hnone. cbn [fmap option_fmap option_map]. rewrite Hprev, Hfound.
    cbn [setActive setSessions currentDay Sessions].
    fold (withSession day x). rewrite Hsave1. cbn [wrapErr bind].
    fold (withoutSession previous k). rewrite Hsave2. reflexivity.
  - cbn [setActive setSessions currentDay Sessions activeSession].
    split; [reflexivity|]. split.
    + unfold active.
      cbn [setActive setSessions currentDay Sessions activeSession].
      rewrite lookup_app_r by lia. rewrite Nat.sub_diag. reflexivity.
    + split; [|exact Hload2].
      rewrite <- Hload1. apply LoadDailySessions_same_file.
      apply Hframe; cbn [withoutSession Date_].
      * rewrite Hpath1. exact Hdiffer.
      * intros E. symmetry in E. revert E. apply backup_path_differs.
Qed.

Lemma NewTimerUI_activates_running_witness :
  exists ui fs',
    NewTimerUI (deps := oneDayWorld [earlySession; pausedSession])
      plainStorage oneDayFiles (atMinute 800) [] [] = Ok (ui, fs') /\
    match activeSession ui with
    | Some i => firstRunning (Sessions (currentDay ui)) i
    | None => Forall (fun s => End_ s <> None) (Sessions (currentDay ui))
    end /\
    (oneRunning (Sessions (currentDay ui)) -> runningIsActive ui).
Proof.
  eexists _, _. split; [vm_compute; reflexivity|].
  apply (NewTimerUI_activates_running
           (deps := oneDayWorld [earlySession; pausedSession])
           plainStorage oneDayFiles oneDayFiles (atMinute 800) [] []).
  vm_compute. reflexivity.
Defined.

Lemma NewTimerUI_moves_running_session_witness :
  exists ui fs',
    NewTimerUI (deps := countWorld [carriedOver; leftEnded; leftRunning])
      plainStorage threeSessionFiles (atMinute 2240) [] [] = Ok (ui, fs') /\
    currentDay ui = carriedOver /\
    active ui = Some pausedSession /\
    LoadDailySessions (deps := countWorld [carriedOver; leftEnded; leftRunning])
      plainStorage fs' (atMinute 2300) (atMinute 1440) = Ok carriedOver /\
    LoadDailySessions (deps := countWorld [carriedOver; leftEnded; leftRunning])
      plainStorage fs' (atMinute 2300) (atMinute 0) = Ok leftEnded.
Proof.
  apply (NewTimerUI_moves_running_session
           (deps := countWorld [carriedOver; leftEnded; leftRunning])
           plainStorage threeSessionFiles (atMinute 2240) (atMinute 2300)
           [] [] {| Date_ := atMinute 1440; Sessions := [] |} leftRunning
           1%nat pausedSession);
    try (vm_compute; reflexivity).
  - exact keyPrefixCipher_correct.
  - exact keyPrefixCipher_tagged.
  - intros H. discriminate H.
  - intros H. discriminate H.
  - vm_compute. discriminate.
Defined.

(** * Further properties of the date ranges *)

(** The ranges "month", "quarter" and "year" end today and start on the
    first day of the month, of the quarter and of the year of today, at
    midnight in the location of the clock. *)
Theorem GetDateRange_calendar_starts `{deps : Deps} (s : Storage)
    (fs : FileSystem) (now : Time) :
  (exists startDate,
     GetDateRange s fs now "month" =
     Ok (startDate, Truncate now (24 * Hour)) /\
     DateOf startDate =
     (Year (Truncate now (24 * Hour)), Month (Truncate now (24 * Hour)), 1)
     /\ secondOfDay startDate = 0 /\ NanosecondOf startDate = 0)
  /\ (exists startDate,
        GetDateRange s fs now "quarter" =
        Ok (startDate, Truncate now (24 * Hour)) /\
        DateOf startDate =
        (Year (Truncate now (24 * Hour)),
         3 * ((Month (Truncate now (24 * Hour)) - 1) / 3) + 1, 1)
        /\ secondOfDay startDate = 0 /\ NanosecondOf startDate = 0)
  /\ (exists startDate,
        GetDateRange s fs now "year" =
        Ok (startDate, Truncate now (24 * Hour)) /\
        DateOf startDate = (Year (Truncate now (24 * Hour)), 1, 1)
        /\ secondOfDay startDate = 0 /\ NanosecondOf startDate = 0).
Proof.
  split; [apply GetDateRange_month|].
  split; [apply GetDateRange_quarter | apply GetDateRange_year].
Qed.

Lemma GetDateRange_other_witness :
  GetDateRange (deps := worldOf UTC [] []) plainStorage noFiles
    (atMinute 800) "fortnight" = Err "invalid range type: fortnight".
Proof.
  apply (GetDateRange_other (deps := worldOf UTC [] []) plainStorage noFiles
           (atMinute 800) "fortnight"); discriminate.
Defined.

Lemma GetDateRange_week_utc_witness :
  exists startDate,
    GetDateRange (deps := worldOf UTC [] []) plainStorage noFiles
      (atMinute 800) "week" =
    Ok (startDate, Truncate (atMinute 800) (24 * Hour)) /\
    Weekday startDate = 1 /\
    unixNano startDate <= unixNano (Truncate (atMinute 800) (24 * Hour))
      < unixNano startDate + 7 * dayNanos.
Proof.
  apply (GetDateRange_week_utc (deps := worldOf UTC [] []) plainStorage
           noFiles (atMinute 800)).
  reflexivity.
Defined.
